(** * The natural-language-to-SQL query pipeline: a shallow embedding

    The repository serves one HTTP route, [POST /query], from two
    near-duplicate Flask handlers:

    - [src/app.py]  (OpenAI backend), embedded in [Module App];
    - [src/main.py] (Ollama backend), embedded in [Module Main].

    Each handler reads a JSON body, derives a row cap from the question,
    asks a text-generation backend for SQL, isolates and validates the
    statement, runs it, samples the rows and asks the backend for a
    description.  The collaborators (Flask's [request.get_json], the
    LangChain chains, [db], [ast.literal_eval], [str]) are not part of the
    repository: they are fields of an environment record, and every call
    to the schema service, to a chain or to the executor is recorded in a
    trace.

    Layout: the embedding ([Text], [Re], [Py], [App], [Main]), the
    vocabulary of the specification ([Spec]) and test doubles ([Demo]);
    then facts about text and about the matcher, and the properties of
    the two handlers.

    Text is a list of code points in the range 0..255, the character
    classes used by the handlers ([str.strip], [\s], [\d], [str.lower],
    [str.upper], [re.IGNORECASE]) being those of Python 3 on that range. *)

From Stdlib Require Import List Ascii String ZArith NArith Bool Arith Lia.
From Stdlib Require DecimalString.
Import ListNotations.

Set Implicit Arguments.
Set Warnings "-register-all".

(* ===================================================================== *)
(** ** Python [str] *)
(* ===================================================================== *)

Module Text.

Definition text := list ascii.

(** A literal of the source. *)
Definition txt (s : string) : text := list_ascii_of_string s.

Definition code (c : ascii) : N := N_of_ascii c.

Definition between (lo hi : N) (c : ascii) : bool :=
  (N.leb lo (code c) && N.leb (code c) hi)%bool.

(** [str.isspace] on one code point, which is also the class [\s] of [re]
    on [str] patterns: TAB..CR, FS..US, SPACE, NEL and NBSP. *)
Definition is_space (c : ascii) : bool :=
  (between 9 13 c || between 28 31 c || N.eqb (code c) 32
   || N.eqb (code c) 133 || N.eqb (code c) 160)%bool.

(** The class [\d] of [re]: the decimal digits, [0]..[9] on this range. *)
Definition is_digit (c : ascii) : bool := between 48 57 c.

(** [str.lower] on one code point: [A-Z], and the Latin-1 capitals
    except the multiplication sign. *)
Definition lower_char (c : ascii) : ascii :=
  if (between 65 90 c || between 192 214 c || between 216 222 c)%bool
  then ascii_of_N (code c + 32) else c.

Definition lower (s : text) : text := map lower_char s.

(** [str.upper] on one code point.  The sharp s becomes two letters; the
    micro sign and y-diaeresis have capitals above 255 and stand for
    themselves, which no comparison with an ASCII keyword can observe. *)
Definition upper_char (c : ascii) : text :=
  if (between 97 122 c || between 224 246 c || between 248 254 c)%bool
  then [ascii_of_N (code c - 32)]
  else if N.eqb (code c) 223 then txt "SS"
  else [c].

Definition upper (s : text) : text := flat_map upper_char s.

Definition eqb_text (a b : text) : bool :=
  if list_eq_dec ascii_dec a b then true else false.

(** [s.startswith(p)] *)
Fixpoint startswith (s p : text) : bool :=
  match p, s with
  | [], _ => true
  | _ :: _, [] => false
  | x :: p', y :: s' => (Ascii.eqb x y && startswith s' p')%bool
  end.

(** [needle in hay] *)
Fixpoint contains (hay needle : text) : bool :=
  (startswith hay needle ||
   match hay with
   | [] => false
   | _ :: hay' => contains hay' needle
   end)%bool.

Fixpoint dropwhile (p : ascii -> bool) (s : text) : text :=
  match s with
  | [] => []
  | c :: s' => if p c then dropwhile p s' else s
  end.

(** The longest prefix whose characters satisfy [p]. *)
Fixpoint takewhile (p : ascii -> bool) (s : text) : text :=
  match s with
  | [] => []
  | c :: s' => if p c then c :: takewhile p s' else []
  end.

Definition lstrip (s : text) : text := dropwhile is_space s.
Definition rstrip (s : text) : text := rev (dropwhile is_space (rev s)).

(** [s.strip()] *)
Definition strip (s : text) : text := rstrip (lstrip s).

(** [s.rstrip(chars)]: every trailing character that occurs in [chars]
    is removed, however many there are. *)
Definition rstrip_chars (chars s : text) : text :=
  rev (dropwhile (fun c => existsb (Ascii.eqb c) chars) (rev s)).

(** [s[n:]] *)
Definition slice_from (n : nat) (s : text) : text := skipn n s.

(** [s.split(sep)[0]] for a one-character separator: the text before the
    first separator, or all of it. *)
Fixpoint split_head (sep : ascii) (s : text) : text :=
  match s with
  | [] => []
  | c :: s' => if Ascii.eqb c sep then [] else c :: split_head sep s'
  end.

(** The number a run of decimal digits denotes; [int(s)] itself, which
    refuses a run that is too long, is [py_int] below. *)
Definition digit_val (c : ascii) : Z := Z.of_N (code c) - 48.

Definition int_of_digits (s : text) : Z :=
  fold_left (fun acc c => 10 * acc + digit_val c)%Z s 0%Z.

End Text.

Export Text.

(* ===================================================================== *)
(** ** Python [re]: the constructs the handlers use *)
(* ===================================================================== *)

Module Re.

(** Character classes: [.] under [re.DOTALL], [\s], [\d]. *)
Inductive cclass := AnyChar | Space | Digit.

Definition in_class (k : cclass) (c : ascii) : bool :=
  match k with
  | AnyChar => true
  | Space => is_space c
  | Digit => is_digit c
  end.

(** Patterns.  Repetition is only ever applied to a character class in
    the source ([\s*], [\s+], [\d+], [.*?]). *)
Inductive regex :=
| Eps
| Chr (c : ascii)
| Cls (k : cclass)
| Seq (r1 r2 : regex)
| Alt (r1 r2 : regex)
| Star (k : cclass)        (* k*   greedy *)
| LazyStar (k : cclass)    (* k*?  lazy   *)
| Group (r : regex).       (* ( r ), the pattern's only capturing group *)

Definition Lit (s : text) : regex := fold_right (fun c r => Seq (Chr c) r) Eps s.
Definition Plus (k : cclass) : regex := Seq (Cls k) (Star k).
Definition Opt (r : regex) : regex := Alt r Eps.

(** The least number of characters a match of the pattern consumes. *)
Fixpoint min_len (r : regex) : nat :=
  match r with
  | Eps => 0
  | Chr _ => 1
  | Cls _ => 1
  | Seq r1 r2 => min_len r1 + min_len r2
  | Alt r1 r2 => Nat.min (min_len r1) (min_len r2)
  | Star _ => 0
  | LazyStar _ => 0
  | Group r' => min_len r'
  end.

(** A pattern character against a text character; under [re.IGNORECASE]
    both are compared after case folding.  This is the comparison of
    [re] on code points 0 to 255, which is all a [text] holds; the
    characters beyond that range that [re.IGNORECASE] also takes for a
    letter of the patterns (the dotless and the dotted i of Turkish for
    [i], the long s for [s], the Kelvin sign for [k]) are not
    represented, and no statement of this file speaks of a text that
    holds one. *)
Definition chr_match (ic : bool) (p c : ascii) : bool :=
  if ic then Ascii.eqb (lower_char p) (lower_char c) else Ascii.eqb p c.

(** The span of the capturing group, in offsets from the match start. *)
Definition span := option (nat * nat).

Section Matcher.
Variable R : Type.

(** Greedy repetition: take as many as possible, give back one at a
    time.  [n] counts the characters consumed since the match start. *)
Fixpoint star_greedy (p : ascii -> bool) (s : text) (n : nat)
         (k : nat -> text -> option R) : option R :=
  match s with
  | c :: s' =>
      if p c then
        match star_greedy p s' (S n) k with
        | Some r => Some r
        | None => k n s
        end
      else k n s
  | [] => k n []
  end.

(** Lazy repetition: try the rest of the pattern first, take one more
    character only when that fails. *)
Fixpoint star_lazy (p : ascii -> bool) (s : text) (n : nat)
         (k : nat -> text -> option R) : option R :=
  match k n s with
  | Some r => Some r
  | None =>
      match s with
      | c :: s' => if p c then star_lazy p s' (S n) k else None
      | [] => None
      end
  end.

(** Backtracking matcher in continuation-passing style: alternatives
    are tried left to right, the first success wins. *)
Fixpoint run (ic : bool) (r : regex) (n : nat) (s : text) (g : span)
         (k : nat -> text -> span -> option R) : option R :=
  match r with
  | Eps => k n s g
  | Chr p =>
      match s with
      | c :: s' => if chr_match ic p c then k (S n) s' g else None
      | [] => None
      end
  | Cls cl =>
      match s with
      | c :: s' => if in_class cl c then k (S n) s' g else None
      | [] => None
      end
  | Seq r1 r2 => run ic r1 n s g (fun n' s' g' => run ic r2 n' s' g' k)
  | Alt r1 r2 =>
      match run ic r1 n s g k with
      | Some x => Some x
      | None => run ic r2 n s g k
      end
  | Star cl => star_greedy (in_class cl) s n (fun n' s' => k n' s' g)
  | LazyStar cl => star_lazy (in_class cl) s n (fun n' s' => k n' s' g)
  | Group r' => run ic r' n s g (fun n' s' _ => k n' s' (Some (n, n')))
  end.
End Matcher.

(** A match anchored at the head of [s]: its length and group span. *)
Definition match_at (ic : bool) (r : regex) (s : text) : option (nat * span) :=
  run ic r 0 s None (fun n _ g => Some (n, g)).

(** A match object: where it starts, how long it is, the group span. *)
Record mobj := { m_start : nat; m_len : nat; m_group : span }.

(** [re.search]: the leftmost position at which the pattern matches. *)
Fixpoint search_from (ic : bool) (r : regex) (s : text) (i : nat) : option mobj :=
  match match_at ic r s with
  | Some (len, g) => Some {| m_start := i; m_len := len; m_group := g |}
  | None =>
      match s with
      | [] => None
      | _ :: s' => search_from ic r s' (S i)
      end
  end.

Definition search (ic : bool) (r : regex) (s : text) : option mobj :=
  search_from ic r s 0.

(** [m.group(1)] on the text that was searched. *)
Definition group1 (s : text) (m : mobj) : text :=
  match m_group m with
  | Some (b, e) => firstn (e - b) (skipn (m_start m + b) s)
  | None => []
  end.

(** [re.sub(r, '', s)] for a pattern that matches no empty string
    ([min_len r] is positive): the matches are found left to right, each
    search resuming where the previous match ended, and are deleted.
    [skip] counts the characters of the current match still to be
    dropped. *)
Fixpoint sub_delete (ic : bool) (r : regex) (s : text) (skip : nat) : text :=
  match s with
  | [] => []
  | c :: s' =>
      match skip with
      | S j => sub_delete ic r s' j
      | O =>
          match match_at ic r s with
          | Some (S len, _) => sub_delete ic r s' len
          | _ => c :: sub_delete ic r s' 0
          end
      end
  end.

Definition sub_empty (ic : bool) (r : regex) (s : text) : text :=
  sub_delete ic r s 0.

End Re.

Export Re.

(* ===================================================================== *)
(** ** Python values, exceptions and the handler monad *)
(* ===================================================================== *)

Module Py.

(** Exceptions, by class and [str(e)].  Every class listed derives from
    [Exception]. *)
Inductive exn_class :=
| KeyError | TypeError | ValueError | SyntaxError | AttributeError
| OtherException.

Record exn := mkExn { exn_cls : exn_class; exn_msg : text }.

Definition exn_class_eqb (a b : exn_class) : bool :=
  match a, b with
  | KeyError, KeyError | TypeError, TypeError | ValueError, ValueError
  | SyntaxError, SyntaxError | AttributeError, AttributeError
  | OtherException, OtherException => true
  | _, _ => false
  end.

(** What a call into a collaborator does: it returns or it raises. *)
Inductive result (A : Type) :=
| Ok (a : A)
| Raise (e : exn).
Arguments Raise {A} e.

(** A parsed JSON document, as [json.loads] builds it (numbers are kept
    as integers; a dict is the list of its items, keys distinct). *)
Inductive json :=
| JNull
| JBool (b : bool)
| JNum (z : Z)
| JStr (s : text)
| JArr (l : list json)
| JObj (kvs : list (text * json)).

Definition type_name (j : json) : text :=
  match j with
  | JNull => txt "NoneType"
  | JBool _ => txt "bool"
  | JNum _ => txt "int"
  | JStr _ => txt "str"
  | JArr _ => txt "list"
  | JObj _ => txt "dict"
  end.

(** Truth value of an object ([not data]). *)
Definition truthy (j : json) : bool :=
  match j with
  | JNull => false
  | JBool b => b
  | JNum z => negb (Z.eqb z 0)
  | JStr s => negb (Nat.eqb (List.length s) 0)
  | JArr l => negb (Nat.eqb (List.length l) 0)
  | JObj kvs => negb (Nat.eqb (List.length kvs) 0)
  end.

Fixpoint lookup (k : text) (kvs : list (text * json)) : option json :=
  match kvs with
  | [] => None
  | (k', v) :: kvs' => if eqb_text k k' then Some v else lookup k kvs'
  end.

Definition is_str (k : text) (j : json) : bool :=
  match j with
  | JStr s => eqb_text k s
  | _ => false
  end.

(** [k in data] for a string [k] (messages in CPython 3.11 wording). *)
Definition py_in (k : text) (data : json) : result bool :=
  match data with
  | JObj kvs => Ok (match lookup k kvs with Some _ => true | None => false end)
  | JArr l => Ok (existsb (is_str k) l)
  | JStr s => Ok (contains s k)
  | _ => Raise (mkExn TypeError
             (txt "argument of type '" ++ type_name data ++ txt "' is not iterable"))
  end.

(** [data[k]] for a string [k]. *)
Definition py_getitem (data : json) (k : text) : result json :=
  match data with
  | JObj kvs =>
      match lookup k kvs with
      | Some v => Ok v
      | None => Raise (mkExn KeyError (txt "'" ++ k ++ txt "'"))
      end
  | JArr _ => Raise (mkExn TypeError (txt "list indices must be integers or slices, not str"))
  | JStr _ => Raise (mkExn TypeError (txt "string indices must be integers, not 'str'"))
  | _ => Raise (mkExn TypeError
             (txt "'" ++ type_name data ++ txt "' object is not subscriptable"))
  end.

(** [x.lower()] on whatever the body held under ['prompt']. *)
Definition py_lower (x : json) : result text :=
  match x with
  | JStr s => Ok (lower s)
  | _ => Raise (mkExn AttributeError
             (txt "'" ++ type_name x ++ txt "' object has no attribute 'lower'"))
  end.

(** The string argument of [re.search]. *)
Definition py_re_subject (x : json) : result text :=
  match x with
  | JStr s => Ok s
  | _ => Raise (mkExn TypeError
             (txt "expected string or bytes-like object, got '" ++ type_name x ++ txt "'"))
  end.

(** Values [ast.literal_eval] can build. *)
Inductive pyval :=
| PNone
| PBool (b : bool)
| PInt (z : Z)
| PFloat (repr : text)
| PStr (s : text)
| PBytes (s : text)
| PTuple (l : list pyval)
| PList (l : list pyval)
| PSet (l : list pyval)
| PDict (kvs : list (pyval * pyval)).

Definition pytype_name (v : pyval) : text :=
  match v with
  | PNone => txt "NoneType"
  | PBool _ => txt "bool"
  | PInt _ => txt "int"
  | PFloat _ => txt "float"
  | PStr _ => txt "str"
  | PBytes _ => txt "bytes"
  | PTuple _ => txt "tuple"
  | PList _ => txt "list"
  | PSet _ => txt "set"
  | PDict _ => txt "dict"
  end.

(** [v[:5]]: sequences are cut, everything else raises (a dict raises
    [TypeError] up to CPython 3.11 and [KeyError] from 3.12 on; neither
    is a [ValueError] or a [SyntaxError]). *)
Definition slice5 (v : pyval) : result pyval :=
  match v with
  | PStr s => Ok (PStr (firstn 5 s))
  | PBytes s => Ok (PBytes (firstn 5 s))
  | PTuple l => Ok (PTuple (firstn 5 l))
  | PList l => Ok (PList (firstn 5 l))
  | PDict _ => Raise (mkExn TypeError (txt "unhashable type: 'slice'"))
  | _ => Raise (mkExn TypeError
             (txt "'" ++ pytype_name v ++ txt "' object is not subscriptable"))
  end.

(** An HTTP response: [jsonify(body), status]. *)
Record response := mkResponse { status_code : Z; body : list (text * json) }.

(** Calls into the collaborators, as the trace records them. *)
Inductive event :=
| EvTableInfo
| EvGenerate (question : json) (top_k : Z) (table_info : text)
| EvRun (sql : text)
| EvDescribe (sql summary : text) (question : json).

(** How a block of statements ends: it falls through with a value, it
    raises, or it executes [return]. *)
Inductive outcome (A : Type) :=
| Normal (a : A)
| Raised (e : exn)
| Returned (r : response).
Arguments Raised {A} e.
Arguments Returned {A} r.

Definition M (A : Type) : Type := (list event * outcome A)%type.

Definition ret {A} (a : A) : M A := ([], Normal a).
Definition raise {A} (e : exn) : M A := ([], Raised e).
Definition return_ {A} (r : response) : M A := ([], Returned r).

Definition bind {A B} (m : M A) (f : A -> M B) : M B :=
  match m with
  | (t1, Normal a) => let (t2, o) := f a in (t1 ++ t2, o)
  | (t1, Raised e) => (t1, Raised e)
  | (t1, Returned r) => (t1, Returned r)
  end.

(** A pure operation that may raise. *)
Definition lift {A} (r : result A) : M A :=
  match r with
  | Ok a => ret a
  | Raise e => raise e
  end.

(** A call into a collaborator: recorded, then it returns or raises. *)
Definition call {A} (ev : event) (r : result A) : M A :=
  ([ev], match r with Ok a => Normal a | Raise e => Raised e end).

(** [try: body except <classes> as e: handler e]; [catches e] says
    whether the clause applies to [e]. *)
Definition try_except {A} (body : M A) (catches : exn -> bool)
           (handler : exn -> M A) : M A :=
  match body with
  | (t1, Raised e) =>
      if catches e then let (t2, o) := handler e in (t1 ++ t2, o)
      else (t1, Raised e)
  | other => other
  end.

(** [except Exception] *)
Definition any_exception (e : exn) : bool := true.

(** [except (C1, C2, ...)] *)
Definition of_class (cs : list exn_class) (e : exn) : bool :=
  existsb (exn_class_eqb (exn_cls e)) cs.

(** Calling an object of type [str]. *)
Definition py_call_str {A} (callee : text) (arg : text) : M A :=
  raise (mkExn TypeError (txt "'str' object is not callable")).

End Py.

Export Py.

Declare Scope py_scope.
Notation "x <- m ;; k" := (bind m (fun x => k))
  (at level 61, m at next level, right associativity) : py_scope.
Notation "m ;;; k" := (bind m (fun _ => k))
  (at level 61, right associativity) : py_scope.
Open Scope py_scope.

(** The collaborators of one request.  The chains and [db] answer as a
    function of their arguments; [get_json] and [get_table_info] take
    none. *)
Record env := mkEnv {
  get_json : result json;
  get_table_info : result text;
  invoke_sql_chain : json -> Z -> text -> result text;
  db_run : text -> result text;
  invoke_description_chain : text -> text -> json -> result text;
  literal_eval : text -> result pyval;
  py_str : pyval -> text
}.

(** Both handlers share the keyword alternation of the limit pattern,
    [(?:limit|top|first|show only)\s*(\d+)]. *)
Definition limit_words : regex :=
  Alt (Lit (txt "limit"))
      (Alt (Lit (txt "top")) (Alt (Lit (txt "first")) (Lit (txt "show only")))).

Definition limit_number_pattern : regex :=
  Seq limit_words (Seq (Star Space) (Group (Plus Digit))).

Definition allowed_keywords : list text :=
  [txt "SELECT"; txt "SHOW"; txt "DESCRIBE"].

(** [int(s)] on a run of decimal digits.  CPython refuses a text of more
    than [sys.get_int_max_str_digits()] digits with a [ValueError]; the
    bound is 4300 unless the interpreter is started with another one, and
    leading zeros count. *)
Definition int_max_str_digits : nat := 4300.

Definition str_nat (n : nat) : text :=
  list_ascii_of_string (DecimalString.NilZero.string_of_uint (Nat.to_uint n)).

Definition py_int (s : text) : result Z :=
  if Nat.ltb int_max_str_digits (List.length s)
  then Raise (mkExn ValueError
                (txt "Exceeds the limit (4300 digits) for integer string conversion: value has "
                 ++ str_nat (List.length s)
                 ++ txt " digits; use sys.set_int_max_str_digits() to increase the limit"))
  else Ok (int_of_digits s).

(* ===================================================================== *)
(** ** [src/app.py] *)
(* ===================================================================== *)

Module App.

Definition limit_keywords : list text :=
  [txt "limit"; txt "top"; txt "first"; txt "show only"].

(** Lines 100-111: the [for ... else] over [limit_keywords].  [None] is
    Python's [None]; [top_k] starts at 10 and is overwritten only when
    the pattern finds a number. *)
Fixpoint limit_loop (keywords : list text) (nl_question : json)
  : result (option Z) :=
  match keywords with
  | [] => Ok None
  | keyword :: rest =>
      match py_lower nl_question with
      | Raise e => Raise e
      | Ok lowered =>
          if contains lowered keyword then
            match search false limit_number_pattern lowered with
            | Some m =>
                match py_int (group1 lowered m) with
                | Raise e => Raise e
                | Ok n => Ok (Some n)
                end
            | None => Ok (Some 10%Z)
            end
          else limit_loop rest nl_question
      end
  end.

Definition extract_top_k (nl_question : json) : result (option Z) :=
  limit_loop limit_keywords nl_question.

(** Line 130: [```sql\s*(.*?)\s*```] under [re.DOTALL]. *)
Definition sql_pattern : regex :=
  Seq (Lit (txt "```sql"))
      (Seq (Star Space)
           (Seq (Group (LazyStar AnyChar))
                (Seq (Star Space) (Lit (txt "```"))))).

(** Lines 129-141: the statement inside the generated text. *)
Definition extract (generated_query : text) : text :=
  match search false sql_pattern generated_query with
  | Some sql_match => strip (group1 generated_query sql_match)
  | None =>
      let sql_query := strip generated_query in
      let sql_query :=
        if startswith sql_query (txt "SQLQuery:")
        then strip (slice_from (List.length (txt "SQLQuery:")) sql_query)
        else sql_query in
      strip (rstrip_chars (txt ";") sql_query)
  end.

(** Line 146 *)
Definition looks_like_sql (sql_query : text) : bool :=
  existsb (fun keyword => startswith (upper sql_query) keyword) allowed_keywords.

(** Line 155: [\s*LIMIT\s+\d+] under [re.IGNORECASE]. *)
Definition limit_clause : regex :=
  Seq (Star Space) (Seq (Lit (txt "LIMIT")) (Seq (Plus Space) (Plus Digit))).

(** Line 154 *)
Definition mentions_limit (lowered : text) : bool :=
  existsb (fun keyword => contains lowered keyword) limit_keywords.

(** Lines 153-155 *)
Definition reconcile_limit (nl_question : json) (sql_query : text) : result text :=
  match py_lower nl_question with
  | Raise e => Raise e
  | Ok lowered =>
      if negb (mentions_limit lowered)
      then Ok (sub_empty true limit_clause sql_query)
      else Ok sql_query
  end.

Section Handler.
Variable W : env.

(** Lines 170-176: the rows handed to the description prompt. *)
Definition summarize (query_results : text) : result text :=
  let attempt :=
    match (if Nat.eqb (List.length query_results) 0 then Ok (PList [])
           else literal_eval W query_results) with
    | Raise e => Raise e
    | Ok results_list =>
        match slice5 results_list with
        | Raise e => Raise e
        | Ok first_rows => Ok (py_str W first_rows)
        end
    end in
  match attempt with
  | Raise e =>
      if of_class [ValueError; SyntaxError] e
      then Ok (if Nat.eqb (List.length query_results) 0
               then txt "No results returned." else query_results)
      else Raise e
  | Ok results_summary => Ok results_summary
  end.

(** Lines 88-204 *)
Definition handle_query : M Empty_set :=
  try_except
    (data <- lift (get_json W) ;;
     missing <- (if negb (truthy data) then ret true
                 else present <- lift (py_in (txt "prompt") data) ;;
                      ret (negb present)) ;;
     (if missing : bool
      then return_ (mkResponse 400
             [(txt "error", JStr (txt "Missing 'prompt' in JSON payload"))])
      else ret tt) ;;;
     nl_question <- lift (py_getitem data (txt "prompt")) ;;
     top_k <- lift (extract_top_k nl_question) ;;
     generated_query <-
       try_except
         (table_info <- call EvTableInfo (get_table_info W) ;;
          let cap := match top_k with Some k => k | None => 1000%Z end in
          call (EvGenerate nl_question cap table_info)
               (invoke_sql_chain W nl_question cap table_info))
         (of_class [KeyError])
         (fun e => return_ (mkResponse 500
            [(txt "error",
              JStr (txt "Error generating query: Missing key " ++ exn_msg e))])) ;;
     let sql_query := extract generated_query in
     (if negb (looks_like_sql sql_query)
      then return_ (mkResponse 400
             [(txt "error", JStr (txt "Generated query is not valid SQL"));
              (txt "generated_query", JStr generated_query);
              (txt "sql_query", JStr sql_query)])
      else ret tt) ;;;
     sql_query <- lift (reconcile_limit nl_question sql_query) ;;
     query_results <-
       try_except
         (call (EvRun sql_query) (db_run W sql_query))
         any_exception
         (fun e => return_ (mkResponse 500
            [(txt "error", JStr (txt "Error executing query: " ++ exn_msg e));
             (txt "generated_query", JStr generated_query);
             (txt "sql_query", JStr sql_query)])) ;;
     results_summary <- lift (summarize query_results) ;;
     description <-
       try_except
         (call (EvDescribe sql_query results_summary nl_question)
               (invoke_description_chain W sql_query results_summary nl_question))
         any_exception
         (fun e => ret (txt "Unable to generate description: " ++ exn_msg e)) ;;
     return_ (mkResponse 200
       [(txt "status", JStr (txt "success"));
        (txt "original_question", nl_question);
        (txt "generated_query", JStr generated_query);
        (txt "sql_query", JStr sql_query);
        (txt "query_results", JStr query_results);
        (txt "description", JStr description)]))
    any_exception
    (fun e => return_ (mkResponse 500
       [(txt "error", JStr (txt "Unexpected error: " ++ exn_msg e))])).

End Handler.

End App.

(* ===================================================================== *)
(** ** [src/main.py] *)
(* ===================================================================== *)

Module Main.

(** Lines 99-103: [top_k] starts at 1000; the pattern is searched in the
    question itself, under [re.I]. *)
Definition extract_top_k (nl_question : json) : result Z :=
  match py_re_subject nl_question with
  | Raise e => Raise e
  | Ok subject =>
      match search true limit_number_pattern subject with
      | Some m => py_int (group1 subject m)
      | None => Ok 1000%Z
      end
  end.

(** Line 60: [```(?:sql)?\s*(SELECT.*?)\s*```] under [re.I | re.S]. *)
Definition fenced_select : regex :=
  Seq (Lit (txt "```"))
      (Seq (Opt (Lit (txt "sql")))
           (Seq (Star Space)
                (Seq (Group (Seq (Lit (txt "SELECT")) (LazyStar AnyChar)))
                     (Seq (Star Space) (Lit (txt "```")))))).

(** Line 64: [(SELECT.*?;)] under [re.I | re.S]. *)
Definition first_select : regex :=
  Group (Seq (Lit (txt "SELECT")) (Seq (LazyStar AnyChar) (Chr ";"))).

(** Lines 58-68 *)
Definition extract_sql (text_ : text) : text :=
  match search true fenced_select text_ with
  | Some m => strip (group1 text_ m)
  | None =>
      match search true first_select text_ with
      | Some m2 => strip (group1 text_ m2)
      | None => strip (split_head ";" text_)
      end
  end.

(** Line 116: [startswith] with a tuple of prefixes. *)
Definition looks_like_sql (sql_query : text) : bool :=
  existsb (fun keyword => startswith (upper sql_query) keyword) allowed_keywords.

Section Handler.
Variable W : env.

(** Lines 126-131 *)
Definition summarize (results : text) : text :=
  let attempt :=
    match literal_eval W results with
    | Raise e => Raise e
    | Ok rows =>
        match slice5 rows with
        | Raise e => Raise e
        | Ok first_rows => Ok (py_str W first_rows)
        end
    end in
  match attempt with
  | Raise _ => if Nat.eqb (List.length results) 0 then txt "[]" else results
  | Ok summary => summary
  end.

(** Lines 89-153 *)
Definition handle_query : M Empty_set :=
  try_except
    (data <- lift (get_json W) ;;
     missing <- (if negb (truthy data) then ret true
                 else present <- lift (py_in (txt "prompt") data) ;;
                      ret (negb present)) ;;
     (if missing : bool
      then return_ (mkResponse 400
             [(txt "error", JStr (txt "Missing 'prompt' in JSON"))])
      else ret tt) ;;;
     nl_question <- lift (py_getitem data (txt "prompt")) ;;
     top_k <- lift (extract_top_k nl_question) ;;
     table_info <- call EvTableInfo (get_table_info W) ;;
     generated <- call (EvGenerate nl_question top_k table_info)
                       (invoke_sql_chain W nl_question top_k table_info) ;;
     sql_query <- py_call_str (extract_sql generated) generated ;;
     (if negb (looks_like_sql sql_query)
      then return_ (mkResponse 400
             [(txt "error", JStr (txt "Invalid SQL generated"));
              (txt "generated", JStr generated)])
      else ret tt) ;;;
     results <-
       try_except
         (call (EvRun sql_query) (db_run W sql_query))
         any_exception
         (fun e => return_ (mkResponse 500
            [(txt "error", JStr (txt "Error executing query: " ++ exn_msg e))])) ;;
     let summary := summarize results in
     description <-
       call (EvDescribe sql_query summary nl_question)
            (invoke_description_chain W sql_query summary nl_question) ;;
     return_ (mkResponse 200
       [(txt "status", JStr (txt "success"));
        (txt "original_question", nl_question);
        (txt "generated_query", JStr generated);
        (txt "sql_query", JStr sql_query);
        (txt "query_results", JStr results);
        (txt "description", JStr description)]))
    any_exception
    (fun e => return_ (mkResponse 500
       [(txt "error", JStr (txt "Unexpected error: " ++ exn_msg e))])).

End Handler.

End Main.

(* ===================================================================== *)
(** ** The patterns as scans *)
(* ===================================================================== *)

(** What the two capturing patterns of [src/app.py] compute, written as
    direct scans of the text; [ScanFacts] proves them equal to the
    backtracking matcher on every input. *)
Module Scan.

(** The literal [w] at the head of [s]. *)
Fixpoint lit_match (ic : bool) (w s : text) : bool :=
  match w, s with
  | [], _ => true
  | _ :: _, [] => false
  | p :: w', c :: s' => (chr_match ic p c && lit_match ic w' s')%bool
  end.

Fixpoint first_some {A} (l : list (option A)) : option A :=
  match l with
  | [] => None
  | Some a :: _ => Some a
  | None :: l' => first_some l'
  end.

(** [\s*(\d+)] at the head of [s], [n] characters into the match. *)
Definition number_at (n : nat) (s : text) : option (nat * span) :=
  let lead := List.length (takewhile is_space s) in
  let digits := List.length (takewhile is_digit (dropwhile is_space s)) in
  match digits with
  | O => None
  | _ => Some (n + lead + digits, Some (n + lead, n + lead + digits))
  end.

(** [(?:limit|top|first|show only)\s*(\d+)] at the head of [s]. *)
Definition limit_at (ic : bool) (s : text) : option (nat * span) :=
  first_some
    (map (fun kw => if lit_match ic kw s
                    then number_at (List.length kw) (skipn (List.length kw) s)
                    else None)
         App.limit_keywords).

(** [\s*```] at the head of [s]. *)
Definition closes (s : text) : bool :=
  startswith (dropwhile is_space s) (txt "```").

(** The first offset at which the fence closes. *)
Fixpoint find_close (s : text) (j : nat) : option nat :=
  if closes s then Some j
  else match s with
       | [] => None
       | _ :: s' => find_close s' (S j)
       end.

(** [```sql\s*(.*?)\s*```] at the head of [s]. *)
Definition fence_at (s : text) : option (nat * span) :=
  if startswith s (txt "```sql") then
    let s1 := skipn 6 s in
    let lead := List.length (takewhile is_space s1) in
    let s2 := dropwhile is_space s1 in
    match find_close s2 0 with
    | Some j =>
        Some (6 + lead + j + List.length (takewhile is_space (skipn j s2)) + 3,
              Some (6 + lead, 6 + lead + j))
    | None => None
    end
  else None.

End Scan.

(* ===================================================================== *)
(** ** Reading a run *)
(* ===================================================================== *)

Definition trace_of {A} (m : M A) : list event := fst m.
Definition outcome_of {A} (m : M A) : outcome A := snd m.

Definition has_key (k : text) (r : response) : bool :=
  existsb (fun kv => eqb_text k (fst kv)) (body r).

(** The success shape and the error shape of section 6. *)
Definition success_shape (r : response) : bool := has_key (txt "status") r.
Definition error_shape (r : response) : bool := has_key (txt "error") r.

Definition is_run (ev : event) : bool :=
  match ev with EvRun _ => true | _ => false end.

(** The executor was never called. *)
Definition never_runs (t : list event) : Prop := forallb (fun ev => negb (is_run ev)) t = true.

(* ===================================================================== *)
(** ** The specification's vocabulary *)
(* ===================================================================== *)

Module Spec.

(** Section 4.4: "the first whitespace-delimited token, uppercased, must
    be one of SELECT, SHOW, DESCRIBE". *)
Definition first_token (s : text) : text :=
  takewhile (fun c => negb (is_space c)) (lstrip s).

Definition first_token_allowed (s : text) : bool :=
  existsb (eqb_text (upper (first_token s))) allowed_keywords.

(** Section 4.3: "strip a single trailing statement-terminator character
    and surrounding whitespace". *)
Definition strip_terminator (s : text) : text :=
  match rev (strip s) with
  | ";"%char :: before => strip (rev before)
  | _ => strip s
  end.

(** Section 4.3, steps 1-3 followed by the terminator rule: the fenced
    interior if there is an SQL fence, else the trimmed text less a
    leading "SQLQuery:"; then the terminator rule in every branch. *)
Definition extract_spec (generated : text) : text :=
  let candidate :=
    match search false App.sql_pattern generated with
    | Some m => strip (group1 generated m)
    | None =>
        let t := strip generated in
        if startswith t (txt "SQLQuery:")
        then strip (slice_from (List.length (txt "SQLQuery:")) t)
        else t
    end in
  strip_terminator candidate.

(** A statement "contains a LIMIT clause" when the handler's own pattern
    finds one in it. *)
Definition has_limit_clause (s : text) : bool :=
  match search true App.limit_clause s with
  | Some _ => true
  | None => false
  end.

(** Section 4.1: a limit keyword followed, after optional blanks, by a
    decimal digit, at the head of [s]. *)
Definition limit_phrase_at (s : text) : Prop :=
  exists kw ws d rest,
    In kw App.limit_keywords /\ forallb is_space ws = true /\
    is_digit d = true /\ s = kw ++ ws ++ d :: rest.

(** The text does not go on with a digit. *)
Definition no_digit_ahead (s : text) : Prop :=
  match s with
  | [] => True
  | c :: _ => is_digit c = false
  end.


End Spec.

(* ===================================================================== *)
(** ** Test doubles for the collaborators *)
(* ===================================================================== *)

Module Demo.

Definition question (s : string) : result json :=
  Ok (JObj [(txt "prompt", JStr (txt s))]).

(** [ast.literal_eval] on the three result strings used below. *)
Definition eval_table (s : text) : result pyval :=
  if eqb_text s (txt "[(1,), (2,)]")
  then Ok (PList [PTuple [PInt 1]; PTuple [PInt 2]])
  else if eqb_text s (txt "42") then Ok (PInt 42)
  else Raise (mkExn ValueError (txt "malformed node or string")).

(** [str] on the values the table above can return. *)
Definition str_table (v : pyval) : text :=
  match v with
  | PList [PTuple [PInt 1]; PTuple [PInt 2]] => txt "[(1,), (2,)]"
  | PList [] => txt "[]"
  | _ => txt "?"
  end.

(** A request for which every collaborator answers. *)
Definition world (prompt generated results : string) : env :=
  {| get_json := question prompt;
     get_table_info := Ok (txt "CREATE TABLE vessels (id INTEGER)");
     invoke_sql_chain := fun _ _ _ => Ok (txt generated);
     db_run := fun _ => Ok (txt results);
     invoke_description_chain := fun _ _ _ => Ok (txt "Two vessels.");
     literal_eval := eval_table;
     py_str := str_table |}.

(** The same request with a failing executor. *)
Definition world_run_fails (prompt generated : string) : env :=
  {| get_json := question prompt;
     get_table_info := Ok (txt "CREATE TABLE vessels (id INTEGER)");
     invoke_sql_chain := fun _ _ _ => Ok (txt generated);
     db_run := fun _ => Raise (mkExn OtherException (txt "relation does not exist"));
     invoke_description_chain := fun _ _ _ => Ok (txt "Two vessels.");
     literal_eval := eval_table;
     py_str := str_table |}.

(** The same request with a failing description backend. *)
Definition world_describe_fails (prompt generated results : string) : env :=
  {| get_json := question prompt;
     get_table_info := Ok (txt "CREATE TABLE vessels (id INTEGER)");
     invoke_sql_chain := fun _ _ _ => Ok (txt generated);
     db_run := fun _ => Ok (txt results);
     invoke_description_chain :=
       fun _ _ _ => Raise (mkExn OtherException (txt "rate limit exceeded"));
     literal_eval := eval_table;
     py_str := str_table |}.

(** A request whose body is the JSON document [5]. *)
Definition world_body (data : json) : env :=
  {| get_json := Ok data;
     get_table_info := Ok (txt "CREATE TABLE vessels (id INTEGER)");
     invoke_sql_chain := fun _ _ _ => Ok (txt "SELECT 1");
     db_run := fun _ => Ok (txt "[(1,), (2,)]");
     invoke_description_chain := fun _ _ _ => Ok (txt "Two vessels.");
     literal_eval := eval_table;
     py_str := str_table |}.

End Demo.

(* ===================================================================== *)
(** ** [src/add_data.py] *)
(* ===================================================================== *)

Module AddData.

(** What [json.load] builds from [data.json]; a float is kept by its
    [str], a dict is the list of its items in file order. *)
Inductive value :=
| VNone
| VBool (b : bool)
| VInt (z : Z)
| VFloat (repr : text)
| VStr (s : text)
| VList (l : list value)
| VDict (kvs : list (text * value)).

Definition type_of (v : value) : text :=
  match v with
  | VNone => txt "NoneType"
  | VBool _ => txt "bool"
  | VInt _ => txt "int"
  | VFloat _ => txt "float"
  | VStr _ => txt "str"
  | VList _ => txt "list"
  | VDict _ => txt "dict"
  end.

(** [r{n}] *)
Fixpoint times (n : nat) (r : regex) : regex :=
  match n with
  | O => Eps
  | S m => Seq r (times m r)
  end.

(** Line 41: [^\d{4}-\d{2}-\d{2}$].  Under [re.match] the [^] adds
    nothing.  What stands before [$] matches in one way only, so [$] is a
    test on the text left after it: nothing, or one final newline. *)
Definition date_pattern : regex :=
  Seq (times 4 (Cls Digit))
      (Seq (Chr "-") (Seq (times 2 (Cls Digit))
                          (Seq (Chr "-") (times 2 (Cls Digit))))).

Definition at_end (rest : text) : bool :=
  match rest with
  | [] => true
  | [c] => Ascii.eqb c "010"
  | _ => false
  end.

Definition is_date (s : text) : bool :=
  match match_at false date_pattern s with
  | Some (n, _) => at_end (skipn n s)
  | None => false
  end.

(** Line 43:
    [\d{4}-\d{2}-\d{2}T\d{2}:\d{2}:\d{2}(?:\.\d+)?(?:Z|[+-]\d{2}:\d{2})?],
    matched at the head of the text with nothing asked of what follows. *)
Definition timestamp_pattern : regex :=
  Seq date_pattern
      (Seq (Chr "T")
           (Seq (times 2 (Cls Digit))
                (Seq (Chr ":")
                     (Seq (times 2 (Cls Digit))
                          (Seq (Chr ":")
                               (Seq (times 2 (Cls Digit))
                                    (Seq (Opt (Seq (Chr ".") (Plus Digit)))
                                         (Opt (Alt (Chr "Z")
                                                   (Seq (Alt (Chr "+") (Chr "-"))
                                                        (Seq (times 2 (Cls Digit))
                                                             (Seq (Chr ":")
                                                                  (times 2 (Cls Digit)))))))))))))).

Definition is_timestamp (s : text) : bool :=
  match match_at false timestamp_pattern s with
  | Some _ => true
  | None => false
  end.

(** [value.replace("'", "''")] *)
Definition double_quotes (s : text) : text :=
  flat_map (fun c => if Ascii.eqb c "'" then txt "''" else [c]) s.

(** [str(n)] for an [int] *)
Definition str_int (z : Z) : text :=
  list_ascii_of_string (DecimalString.NilZero.string_of_int (Z.to_int z)).

(** Lines 36-52.  A [bool] is an [int] for [isinstance]. *)
Definition format_value (v : value) : result text :=
  match v with
  | VNone => Ok (txt "NULL")
  | VStr s =>
      if is_date s then Ok (txt "'" ++ s ++ txt "'::date")
      else if is_timestamp s then
        let s := split_head "Z" (split_head "+" s) in
        Ok (txt "'" ++ s ++ txt "'::timestamp")
      else Ok (txt "'" ++ double_quotes s ++ txt "'")
  | VBool b => Ok (if b then txt "True" else txt "False")
  | VInt z => Ok (str_int z)
  | VFloat repr => Ok repr
  | VList _ | VDict _ =>
      Raise (mkExn ValueError
               (txt "Unsupported data type: <class '" ++ type_of v ++ txt "'>"))
  end.

(** [sep.join(items)] *)
Fixpoint join (sep : text) (items : list text) : text :=
  match items with
  | [] => []
  | [x] => x
  | x :: rest => x ++ sep ++ join sep rest
  end.

(** The generator of line 59: the first value that cannot be formatted
    ends it. *)
Fixpoint format_values (vs : list value) : result (list text) :=
  match vs with
  | [] => Ok []
  | v :: rest =>
      match format_value v with
      | Raise e => Raise e
      | Ok x =>
          match format_values rest with
          | Raise e => Raise e
          | Ok xs => Ok (x :: xs)
          end
      end
  end.

(** Lines 58-60 for one row. *)
Definition insert_query (table_name : text) (row : value) : result text :=
  match row with
  | VDict kvs =>
      let columns := join (txt ", ") (map fst kvs) in
      match format_values (map snd kvs) with
      | Raise e => Raise e
      | Ok formatted =>
          Ok (txt "INSERT INTO " ++ table_name ++ txt " (" ++ columns
              ++ txt ") VALUES (" ++ join (txt ", ") formatted ++ txt ")")
      end
  | _ => Raise (mkExn AttributeError
                  (txt "'" ++ type_of row ++ txt "' object has no attribute 'keys'"))
  end.

(** [for row in rows]: what the loop goes through. *)
Definition iterate (rows : value) : result (list value) :=
  match rows with
  | VList l => Ok l
  | VDict kvs => Ok (map (fun kv => VStr (fst kv)) kvs)
  | VStr s => Ok (map (fun c => VStr [c]) s)
  | _ => Raise (mkExn TypeError
                  (txt "'" ++ type_of rows ++ txt "' object is not iterable"))
  end.

(** The connection: [cursor.execute] and [conn.commit] answer [None] or
    the text of a [psycopg2.Error]; the first argument lists the
    statements of the open transaction. *)
Record connection := {
  execute : list text -> text -> option text;
  commit : list text -> option text
}.

(** What the script does, in order. *)
Inductive step :=
| Printed (line : text)
| Executed (query : text)
| Rejected (query : text)
| RolledBack
| Committed.

Section Script.
Variable conn : connection.

(** Lines 57-67: the rows of one table.  The result is the open
    transaction and whether the loop ran to its end. *)
Fixpoint insert_rows (table_name : text) (rows : list value) (pending : list text)
  : list step * result (list text * bool) :=
  match rows with
  | [] => ([], Ok (pending, true))
  | row :: rest =>
      match insert_query table_name row with
      | Raise e => ([], Raise e)
      | Ok q =>
          match execute conn pending q with
          | None =>
              let (log, r) := insert_rows table_name rest (pending ++ [q]) in
              (Executed q :: log, r)
          | Some e =>
              ([Rejected q;
                Printed (txt "Error inserting into table " ++ table_name
                         ++ txt ": " ++ e);
                Printed (txt "Query: " ++ q);
                RolledBack],
               Ok ([], false))
          end
      end
  end.

(** Lines 55-69: table after table. *)
Fixpoint insert_tables (tables : list (text * value)) (pending : list text)
  : list step * result (list text) :=
  match tables with
  | [] => ([], Ok pending)
  | (table_name, rows) :: rest =>
      let banner := Printed (txt "Inserting data into table: " ++ table_name) in
      match iterate rows with
      | Raise e => ([banner], Raise e)
      | Ok items =>
          match insert_rows table_name items pending with
          | (log, Raise e) => (banner :: log, Raise e)
          | (log, Ok (pending', finished)) =>
              let done :=
                if finished : bool
                then [Printed (txt "Data inserted successfully for table: "
                               ++ table_name)]
                else [] in
              let (log', r) := insert_tables rest pending' in
              (banner :: log ++ done ++ log', r)
          end
      end
  end.

(** A run of the script: what it did, what [conn.commit] made durable,
    and the exception that ended it, if one did. *)
Record report := {
  log : list step;
  committed : list text;
  crashed : option exn
}.

(** Lines 54-77 *)
Definition script (data : value) : report :=
  match data with
  | VDict tables =>
      match insert_tables tables [] with
      | (l, Raise e) => {| log := l; committed := []; crashed := Some e |}
      | (l, Ok pending) =>
          match commit conn pending with
          | None =>
              {| log := l ++ [Committed;
                              Printed (txt "All transactions committed successfully")];
                 committed := pending; crashed := None |}
          | Some e =>
              {| log := l ++ [Printed (txt "Error committing transactions: " ++ e);
                              RolledBack];
                 committed := []; crashed := None |}
          end
      end
  | _ => {| log := []; committed := [];
            crashed := Some (mkExn AttributeError
                               (txt "'" ++ type_of data
                                ++ txt "' object has no attribute 'items'")) |}
  end.

End Script.

End AddData.

(** Reading aids for the statements about [src/add_data.py]. *)
Module Load.
Import AddData.

(** How PostgreSQL reads the body of a quoted literal: a doubled quote
    is one quote, a single one would end the literal. *)
Fixpoint sql_unquote (body : text) : option text :=
  match body with
  | [] => Some []
  | c :: rest =>
      if Ascii.eqb c "'" then
        match rest with
        | c' :: rest' =>
            if Ascii.eqb c' "'"
            then option_map (cons c) (sql_unquote rest')
            else None
        | [] => None
        end
      else option_map (cons c) (sql_unquote rest)
  end.

(** A file whose tables are lists of objects. *)
Definition row := list (text * value).
Definition table := (text * list row)%type.

Definition as_rows (rows : list row) : list value := map VDict rows.

Definition as_table (t : table) : text * value :=
  (fst t, VList (as_rows (snd t))).

Definition supported (v : value) : bool :=
  match v with
  | VList _ | VDict _ => false
  | _ => true
  end.

Definition row_supported (r : row) : bool := forallb supported (map snd r).

Definition literal (v : value) : text :=
  match format_value v with
  | Ok x => x
  | Raise _ => []
  end.

(** The statement of line 60 for a row of supported values. *)
Definition statement (table_name : text) (r : row) : text :=
  txt "INSERT INTO " ++ table_name ++ txt " (" ++ join (txt ", ") (map fst r)
  ++ txt ") VALUES (" ++ join (txt ", ") (map literal (map snd r)) ++ txt ")".

Definition statements (tables : list table) : list text :=
  flat_map (fun t => map (statement (fst t)) (snd t)) tables.

(** The statements a run sent with success, in order. *)
Definition executed (l : list step) : list text :=
  flat_map (fun s => match s with Executed q => [q] | _ => [] end) l.

Definition success_line (table_name : text) : step :=
  Printed (txt "Data inserted successfully for table: " ++ table_name).

(** With [pending] already open, the connection takes the statements
    [qs] one after another. *)
Definition accepts (conn : connection) (pending qs : list text) : Prop :=
  forall pre q post,
    qs = pre ++ q :: post -> execute conn (pending ++ pre) q = None.

(** What a run prints and sends for tables whose every row is taken. *)
Definition accepted_log (tables : list table) : list step :=
  flat_map (fun t =>
              Printed (txt "Inserting data into table: " ++ fst t)
              :: map Executed (map (statement (fst t)) (snd t))
              ++ [success_line (fst t)]) tables.

(** No [+] and no [Z]. *)
Definition free_of_marks (a : text) : bool :=
  forallb (fun c => negb (Ascii.eqb c "+" || Ascii.eqb c "Z")) a.

End Load.

(* ===================================================================== *)
(** ** [src/create_db.py] *)
(* ===================================================================== *)

Module CreateDb.

(** [s.split()]: the words between runs of whitespace.  [word] holds the
    characters of the word being read. *)
Fixpoint split_from (word : text) (s : text) : list text :=
  match s with
  | [] =>
      match word with
      | [] => []
      | _ => [word]
      end
  | c :: s' =>
      if is_space c then
        match word with
        | [] => split_from [] s'
        | _ => word :: split_from [] s'
        end
      else split_from (word ++ [c]) s'
  end.

Definition split (s : text) : list text := split_from [] s.

(** [query.split()[i]]; [None] stands for the [IndexError] of a query
    with too few words. *)
Definition word (i : nat) (query : text) : option text :=
  nth_error (split query) i.

(** Lines 31-44 *)
Definition drop_table_queries : list text :=
  [
   txt "DROP TABLE IF EXISTS financials CASCADE";
   txt "DROP TABLE IF EXISTS assets CASCADE";
   txt "DROP TABLE IF EXISTS assets_maintenance CASCADE";
   txt "DROP TABLE IF EXISTS cradles CASCADE";
   txt "DROP TABLE IF EXISTS vessels CASCADE";
   txt "DROP TABLE IF EXISTS inventory CASCADE";
   txt "DROP TABLE IF EXISTS trolleys CASCADE";
   txt "DROP TABLE IF EXISTS lifts CASCADE";
   txt "DROP TABLE IF EXISTS work_orders CASCADE";
   txt "DROP TABLE IF EXISTS wheels_load CASCADE";
   txt "DROP TABLE IF EXISTS rails CASCADE";
   txt "DROP TABLE IF EXISTS wheels_temperature CASCADE"
  ].

(** Lines 53-269 *)
Definition create_table_queries : list text :=
  [
   txt "
    CREATE TABLE assets (
        id VARCHAR(100) PRIMARY KEY,
        assetType VARCHAR(100),
        name VARCHAR(100),
        description VARCHAR(255),
        status VARCHAR(50),
        createdAt TIMESTAMP,
        updatedAt TIMESTAMP
    )
    ";
   txt "
CREATE TABLE financials (
    id VARCHAR(100) PRIMARY KEY,
    recordDate DATE NOT NULL,
    dockingFees NUMERIC DEFAULT 0 NOT NULL,              
    onDockingFees NUMERIC DEFAULT 0 NOT NULL,            
    undockingFees NUMERIC DEFAULT 0 NOT NULL,            
    maintenanceFees NUMERIC DEFAULT 0 NOT NULL,          
    otherServiceFees NUMERIC DEFAULT 0 NOT NULL,        

    totalRevenue NUMERIC DEFAULT 0 NOT NULL,  

    laborCosts NUMERIC DEFAULT 0 NOT NULL,              
    dockOperationCosts NUMERIC DEFAULT 0 NOT NULL,       
    equipmentCosts NUMERIC DEFAULT 0 NOT NULL,          
    administrativeCosts NUMERIC DEFAULT 0 NOT NULL,   

    totalExpenses NUMERIC DEFAULT 0 NOT NULL,  
    netProfitLoss NUMERIC DEFAULT 0 NOT NULL,   

    assetId VARCHAR(100),
    CONSTRAINT fkFinancialsAssetId FOREIGN KEY (assetId) REFERENCES assets(id)
)
";
   txt "
    CREATE TABLE cradles (
        id VARCHAR(100) PRIMARY KEY,
        updatedAt TIMESTAMP,
        cradleName VARCHAR(100),
        capacity NUMERIC,
        maxShipLength NUMERIC,
        status VARCHAR(50),
        location VARCHAR(100),
        lastMaintenanceDate TIMESTAMP,
        nextMaintenanceDue TIMESTAMP,
        operationalSince TIMESTAMP,
        notes VARCHAR(255),
        occupancy VARCHAR(100),
        currentLoad NUMERIC,
        structuralStress VARCHAR(50),
        wearLevel VARCHAR(50),
        assetId VARCHAR(100),
        CONSTRAINT fkCradleAssetId FOREIGN KEY (assetId) REFERENCES assets(id)
    )
    ";
   txt "
    CREATE TABLE vessels (
        id VARCHAR(100) PRIMARY KEY,
        updatedAt TIMESTAMP,
        vesselName VARCHAR(100) UNIQUE,
        vesselType VARCHAR(50),
        weight NUMERIC,
        length NUMERIC,
        width NUMERIC,
        draft NUMERIC,
        status VARCHAR(50),
        lastMaintenanceDate TIMESTAMP,
        nextMaintenanceDue TIMESTAMP,
        birthingArea VARCHAR(100),
        operationalSince TIMESTAMP,
        ownerCompany VARCHAR(100),
        notes VARCHAR(255),
        assignedCradle VARCHAR(100),
        transferCompleted VARCHAR(50),
        estimatedTimeToDestination VARCHAR(50),
        bearingTemperature NUMERIC,
        assetId VARCHAR(100),
        CONSTRAINT fkVesselAssetId FOREIGN KEY (assetId) REFERENCES assets(id),
        CONSTRAINT fkVesselAssignedCradle FOREIGN KEY (assignedCradle) REFERENCES cradles(id)
    )
    ";
   txt "
    CREATE TABLE inventory (
        id VARCHAR(100) PRIMARY KEY,
        updatedAt TIMESTAMP,
        lastUpdated TIMESTAMP,
        name VARCHAR(100),
        location VARCHAR(100),
        quantity NUMERIC,
        assetId VARCHAR(100),
        CONSTRAINT fkInventoryAssetId FOREIGN KEY (assetId) REFERENCES assets(id)
    )
    ";
   txt "
    CREATE TABLE rails (
        id VARCHAR(100) PRIMARY KEY,
        updatedAt TIMESTAMP,
        railName VARCHAR(100),
        length NUMERIC,
        capacity NUMERIC,
        status VARCHAR(50),
        lastInspectionDate TIMESTAMP,
        nextInspectionDue TIMESTAMP,
        operationalSince TIMESTAMP,
        notes VARCHAR(255),
        assetId VARCHAR(100),
        CONSTRAINT fkRailAssetId FOREIGN KEY (assetId) REFERENCES assets(id)
    )
    ";
   txt "
    CREATE TABLE trolleys (
        id VARCHAR(100) PRIMARY KEY,
        updatedAt TIMESTAMP,
        trolleyName VARCHAR(100),
        wheelCount NUMERIC,
        railId VARCHAR(100),
        assignedVesselId VARCHAR(100),
        status VARCHAR(50),
        lastMaintenanceDate TIMESTAMP,
        nextMaintenanceDue TIMESTAMP,
        notes VARCHAR(255),
        maxCapacity NUMERIC,
        currentLoad NUMERIC,
        speed NUMERIC,
        location VARCHAR(255),
        utilizationRate VARCHAR(50),
        averageTransferTime VARCHAR(50),
        assetId VARCHAR(100),
        CONSTRAINT fkTrolleyAssetId FOREIGN KEY (assetId) REFERENCES assets(id),
        CONSTRAINT fkTrolleyRailId FOREIGN KEY (railId) REFERENCES rails(id),
        CONSTRAINT fkTrolleyAssignedVesselId FOREIGN KEY (assignedVesselId) REFERENCES vessels(id)
    )
    ";
   txt "
    CREATE TABLE lifts (
        id VARCHAR(100) PRIMARY KEY,
        updatedAt TIMESTAMP,
        liftName VARCHAR(100),
        platformLength NUMERIC,
        platformWidth NUMERIC,
        maxShipDraft NUMERIC,
        location VARCHAR(255),
        status VARCHAR(50),
        lastMaintenanceDate TIMESTAMP,
        nextMaintenanceDue TIMESTAMP,
        operationalSince TIMESTAMP,
        assignedVesselId VARCHAR(100),
        notes VARCHAR(255),
        currentLoad NUMERIC,
        historicalUsageHours NUMERIC,
        maxCapacity NUMERIC,
        utilizationRate VARCHAR(50),
        averageTransferTime VARCHAR(50),
        assetId VARCHAR(100),
        CONSTRAINT fkLiftAssetId FOREIGN KEY (assetId) REFERENCES assets(id),
        CONSTRAINT fkLiftAssignedVesselId FOREIGN KEY (assignedVesselId) REFERENCES vessels(id)
    )
    ";
   txt "
    CREATE TABLE assets_maintenance (
        id VARCHAR(100) PRIMARY KEY,
        updatedAt TIMESTAMP,
        assetId VARCHAR(100),
        description VARCHAR(255),
        datePerformed TIMESTAMP,
        performedBy VARCHAR(255),
        nextDueDate TIMESTAMP,
        assetName VARCHAR(100),
        historicalUsageHours NUMERIC,
        remainingLifespanHours NUMERIC,
        statusSummary VARCHAR(255),
        shipsInTransfer NUMERIC,
        operationalLifts NUMERIC,
        operationalTrolleys NUMERIC,
        CONSTRAINT fkMmaintenanceAssetId FOREIGN KEY (assetId) REFERENCES assets(id)
    )
    ";
   txt "
    CREATE TABLE work_orders (
        id VARCHAR(100) PRIMARY KEY,
        updatedAt TIMESTAMP,
        workType VARCHAR(50),
        assignedTo VARCHAR(100),
        startDate TIMESTAMP,
        endDate TIMESTAMP,
        status VARCHAR(50),
        notes VARCHAR(255),
        vesselName VARCHAR(100),
        vesselId VARCHAR(100), 
        CONSTRAINT fkWorkOrderVesselId FOREIGN KEY (vesselId) REFERENCES vessels(id)   
    )
    ";
   txt "
    CREATE TABLE wheels_load (
        id VARCHAR(100) PRIMARY KEY,
        updatedAt TIMESTAMP,
        trolley VARCHAR(100),
        wheel VARCHAR(100),
        currentLoad NUMERIC,
        CONSTRAINT fkWheelsLoadTrolleyId FOREIGN KEY (trolley) REFERENCES trolleys(id)
    )
    ";
   txt "
    CREATE TABLE wheels_temperature (
        id VARCHAR(100) PRIMARY KEY,
        updatedAt TIMESTAMP,
        trolley VARCHAR(100),
        wheel VARCHAR(100),
        bearingTemperature NUMERIC,
        CONSTRAINT fkWheelsTempTrolley_id FOREIGN KEY (trolley) REFERENCES trolleys(id)
    )
    "
  ].

(** What the script does, in order. *)
Inductive step :=
| Executed (query : text)
| Rejected (query : text)
| Printed (line : text).

Section Script.

(** [cursor.execute] on a connection in autocommit mode: [None], or the
    text of a [psycopg2.Error]; the first argument lists the statements
    that took effect so far. *)
Variable execute : list text -> text -> option text.

(** The loops of lines 46-51 and 272-277: [ok] and [err] are the heads of
    the two messages, [i] the index of the word they name.  The outcome
    lists the statements in effect, or is [None] when the [IndexError]
    of a message, which neither [except] clause catches, ended the
    script. *)
Fixpoint run_queries (ok err : text) (i : nat) (queries : list text)
         (applied : list text) : list step * option (list text) :=
  match queries with
  | [] => ([], Some applied)
  | query :: rest =>
      match execute applied query with
      | None =>
          match word i query with
          | None => ([Executed query], None)
          | Some w =>
              let (l, r) := run_queries ok err i rest (applied ++ [query]) in
              (Executed query :: Printed (ok ++ w) :: l, r)
          end
      | Some e =>
          match word i query with
          | None => ([Rejected query], None)
          | Some w =>
              let (l, r) := run_queries ok err i rest applied in
              (Rejected query :: Printed (err ++ w ++ txt " - " ++ e) :: l, r)
          end
      end
  end.

(** Lines 46-277: what the script did and the statements in effect at
    its end. *)
Definition script : list step * option (list text) :=
  match run_queries (txt "Table dropped successfully: ")
                    (txt "Error dropping table: ") 3 drop_table_queries [] with
  | (l, None) => (l, None)
  | (l, Some applied) =>
      let (l', r) :=
        run_queries (txt "Table created successfully: ")
                    (txt "Error creating table: ") 2
                    create_table_queries applied in
      (l ++ l', r)
  end.

End Script.

(** The statements a run sent, taken or not, and the lines it printed. *)
Definition attempted (l : list step) : list text :=
  flat_map (fun s => match s with
                     | Executed q | Rejected q => [q]
                     | Printed _ => []
                     end) l.

Definition printed (l : list step) : list text :=
  flat_map (fun s => match s with
                     | Printed line => [line]
                     | _ => []
                     end) l.

(** A line of either loop about the thing called [name]. *)
Definition reports (ok err name line : text) : Prop :=
  line = ok ++ name \/ exists e, line = err ++ name ++ txt " - " ++ e.

End CreateDb.

(* ===================================================================== *)
(** ** Facts about text *)
(* ===================================================================== *)

Unset Implicit Arguments.

Module TextFacts.

Lemma dropwhile_head p s :
  dropwhile p s = [] \/ exists c s', dropwhile p s = c :: s' /\ p c = false.
Proof.
  induction s as [|c s IH]; cbn [dropwhile]; auto.
  destruct (p c) eqn:E; eauto.
Qed.

Lemma dropwhile_snoc p l c :
  p c = false -> dropwhile p (l ++ [c]) = dropwhile p l ++ [c].
Proof.
  intros Hc. induction l as [|x l IH]; cbn [dropwhile app].
  - rewrite Hc. reflexivity.
  - destruct (p x); auto.
Qed.

Lemma dropwhile_fix p c s : p c = false -> dropwhile p (c :: s) = c :: s.
Proof. intros H. cbn [dropwhile]. rewrite H. reflexivity. Qed.

Lemma lstrip_strip s : lstrip (strip s) = strip s.
Proof.
  unfold strip, rstrip, lstrip.
  destruct (dropwhile_head is_space s) as [-> | (c & s' & -> & Hc)]; [reflexivity|].
  cbn [rev]. rewrite dropwhile_snoc by exact Hc.
  rewrite rev_app_distr. cbn [rev app]. apply dropwhile_fix, Hc.
Qed.

Lemma startswith_app p s : startswith (p ++ s) p = true.
Proof.
  induction p as [|x p IH]; [destruct s; reflexivity|].
  cbn [app startswith]. rewrite Ascii.eqb_refl, IH. reflexivity.
Qed.

Lemma eqb_text_eq a b : eqb_text a b = true -> a = b.
Proof. unfold eqb_text. destruct (list_eq_dec ascii_dec a b); congruence. Qed.

Lemma takewhile_dropwhile p s :
  s = takewhile p s ++ dropwhile p s.
Proof.
  induction s as [|c s IH]; [reflexivity|].
  cbn [takewhile dropwhile]. destruct (p c); cbn [app]; congruence.
Qed.

Lemma upper_app a b : upper (a ++ b) = upper a ++ upper b.
Proof. unfold upper. apply flat_map_app. Qed.

(** A statement without leading blanks whose first token, uppercased, is
    an allowed keyword passes the prefix test of both handlers. *)
Lemma first_token_is_prefix s :
  lstrip s = s -> Spec.first_token_allowed s = true -> App.looks_like_sql s = true.
Proof.
  unfold Spec.first_token_allowed, Spec.first_token, App.looks_like_sql.
  intros ->. rewrite !existsb_exists. intros (kw & Hin & Heq).
  exists kw. split; [exact Hin|].
  apply eqb_text_eq in Heq.
  rewrite (takewhile_dropwhile (fun c => negb (is_space c)) s) at 1.
  rewrite upper_app, Heq. apply startswith_app.
Qed.

End TextFacts.

(* ===================================================================== *)
(** ** Facts about the matcher *)
(* ===================================================================== *)

Module ReFacts.

Section Stars.
Variable R : Type.
Variable p : ascii -> bool.

(** Every offset inside the longest [p]-prefix sits on a [p]-character. *)
Lemma inside_takewhile s i :
  i < List.length (takewhile p s) ->
  exists c t, skipn i s = c :: t /\ p c = true.
Proof.
  revert i. induction s as [|c s IH]; intros i Hi; cbn [takewhile] in Hi.
  - inversion Hi.
  - destruct (p c) eqn:Hc; [|inversion Hi].
    destruct i as [|i]; [exists c, s; auto|].
    cbn [List.length] in Hi. apply IH. lia.
Qed.

(** When no shorter repetition lets the rest of the pattern match, the
    greedy star hands over right after the longest prefix. *)
Lemma star_greedy_exact s : forall n (k : nat -> text -> option R),
  (forall i, i < List.length (takewhile p s) -> k (n + i) (skipn i s) = None) ->
  star_greedy p s n k = k (n + List.length (takewhile p s)) (dropwhile p s).
Proof.
  induction s as [|c s IH]; intros n k Hk; cbn [star_greedy takewhile dropwhile].
  - cbn. rewrite Nat.add_0_r. reflexivity.
  - destruct (p c) eqn:Hc.
    + cbn [List.length]. rewrite IH.
      * rewrite Nat.add_succ_r. cbn [Nat.add].
        destruct (k (S (n + _)) _) eqn:E; [reflexivity|].
        specialize (Hk 0). cbn [takewhile] in Hk. rewrite Hc in Hk.
        rewrite Nat.add_0_r in Hk. apply Hk. cbn. lia.
      * intros i Hi. specialize (Hk (S i)). cbn [takewhile] in Hk.
        rewrite Hc in Hk. rewrite Nat.add_succ_r in Hk. apply Hk. cbn. lia.
    + cbn. rewrite Nat.add_0_r. reflexivity.
Qed.

(** When the rest of the pattern matches after the longest prefix, that
    is the match. *)
Lemma star_greedy_max s : forall n (k : nat -> text -> option R) r,
  k (n + List.length (takewhile p s)) (dropwhile p s) = Some r ->
  star_greedy p s n k = Some r.
Proof.
  induction s as [|c s IH]; intros n k r; cbn [star_greedy takewhile dropwhile].
  - cbn. rewrite Nat.add_0_r. auto.
  - destruct (p c) eqn:Hc.
    + cbn [List.length]. rewrite Nat.add_succ_r. intros H.
      rewrite (IH (S n) k r H). reflexivity.
    + cbn. rewrite Nat.add_0_r. auto.
Qed.

(** A continuation that fails after a [p]-character whenever it fails
    before it gains nothing from backtracking. *)
Lemma star_greedy_commit (k : nat -> text -> option R) :
  (forall n c s, p c = true -> k (S n) s = None -> k n (c :: s) = None) ->
  forall s n,
  star_greedy p s n k = k (n + List.length (takewhile p s)) (dropwhile p s).
Proof.
  intros Hk.
  assert (Hback : forall s n,
             k (n + List.length (takewhile p s)) (dropwhile p s) = None ->
             k n s = None).
  { induction s as [|c s IH]; intros n; cbn [takewhile dropwhile].
    - cbn. rewrite Nat.add_0_r. auto.
    - destruct (p c) eqn:Hc.
      + cbn [List.length]. rewrite Nat.add_succ_r. intros H.
        apply Hk; [exact Hc|]. apply IH. exact H.
      + cbn. rewrite Nat.add_0_r. auto. }
  induction s as [|c s IH]; intros n; cbn [star_greedy takewhile dropwhile].
  - cbn. rewrite Nat.add_0_r. reflexivity.
  - destruct (p c) eqn:Hc.
    + cbn [List.length]. rewrite IH, Nat.add_succ_r. cbn [Nat.add].
      destruct (k (S (n + _)) _) eqn:E; [reflexivity|].
      apply Hk; [exact Hc|]. apply Hback. exact E.
    + cbn. rewrite Nat.add_0_r. reflexivity.
Qed.

End Stars.

Section Literals.
Variable R : Type.

Lemma run_Lit ic w : forall n s g (k : nat -> text -> span -> option R),
  run ic (Lit w) n s g k =
  if Scan.lit_match ic w s then k (n + List.length w) (skipn (List.length w) s) g
  else None.
Proof.
  induction w as [|c w IH]; intros n s g k.
  - cbn. rewrite Nat.add_0_r. reflexivity.
  - change (Lit (c :: w)) with (Seq (Chr c) (Lit w)).
    cbn [run Scan.lit_match]. destruct s as [|x s]; [reflexivity|].
    destruct (chr_match ic c x); cbn [andb]; [|reflexivity].
    rewrite IH. cbn [List.length skipn]. rewrite Nat.add_succ_r. reflexivity.
Qed.

Lemma run_Seq ic r1 r2 n s g (k : nat -> text -> span -> option R) :
  run ic (Seq r1 r2) n s g k =
  run ic r1 n s g (fun n' s' g' => run ic r2 n' s' g' k).
Proof. reflexivity. Qed.

Lemma run_Alt ic r1 r2 n s g (k : nat -> text -> span -> option R) :
  run ic (Alt r1 r2) n s g k =
  match run ic r1 n s g k with
  | Some x => Some x
  | None => run ic r2 n s g k
  end.
Proof. reflexivity. Qed.

Lemma run_Star ic cl n s g (k : nat -> text -> span -> option R) :
  run ic (Star cl) n s g k =
  star_greedy (in_class cl) s n (fun n' s' => k n' s' g).
Proof. reflexivity. Qed.

Lemma run_Group_LazyStar ic cl n s g (k : nat -> text -> span -> option R) :
  run ic (Group (LazyStar cl)) n s g k =
  star_lazy (in_class cl) s n (fun n' s' => k n' s' (Some (n, n'))).
Proof. reflexivity. Qed.

End Literals.

Lemma lit_match_startswith w : forall s, Scan.lit_match false w s = startswith s w.
Proof.
  induction w as [|c w IH]; intros s; [destruct s; reflexivity|].
  destruct s as [|x s]; [reflexivity|].
  cbn [Scan.lit_match startswith chr_match]. rewrite IH. reflexivity.
Qed.

Section Progress.
Variable R : Type.

Lemma star_greedy_calls p s : forall n (k : nat -> text -> option R) x,
  star_greedy p s n k = Some x ->
  exists n' s', n <= n' /\ k n' s' = Some x.
Proof.
  induction s as [|c s IH]; intros n k x; cbn [star_greedy].
  - intros H. exists n, []. auto.
  - destruct (p c).
    + destruct (star_greedy p s (S n) k) eqn:E.
      * intros H. inversion H; subst.
        destruct (IH _ _ _ E) as (n' & s' & Hn & Hk).
        exists n', s'. split; [lia | exact Hk].
      * intros H. exists n, (c :: s). auto.
    + intros H. exists n, (c :: s). auto.
Qed.

Lemma star_lazy_calls p s : forall n (k : nat -> text -> option R) x,
  star_lazy p s n k = Some x ->
  exists n' s', n <= n' /\ k n' s' = Some x.
Proof.
  induction s as [|c s IH]; intros n k x; cbn [star_lazy].
  - destruct (k n []) eqn:E; [|discriminate].
    intros H. inversion H; subst. exists n, []. auto.
  - destruct (k n (c :: s)) eqn:E.
    + intros H. inversion H; subst. exists n, (c :: s). auto.
    + destruct (p c); [|discriminate].
      intros H. destruct (IH _ _ _ H) as (n' & s' & Hn & Hk).
      exists n', s'. split; [lia | exact Hk].
Qed.

(** Whatever lets a pattern succeed is reached after at least [min_len]
    characters. *)
Lemma run_advances ic r : forall n s g (k : nat -> text -> span -> option R) x,
  run ic r n s g k = Some x ->
  exists n' s' g', n + min_len r <= n' /\ k n' s' g' = Some x.
Proof.
  induction r as [| p | cl | r1 IH1 r2 IH2 | r1 IH1 r2 IH2 | cl | cl | r' IH];
    intros n s g k x; cbn [run min_len].
  - intros H. exists n, s, g. split; [lia | exact H].
  - destruct s as [|c s]; [discriminate|].
    destruct (chr_match ic p c); [|discriminate].
    intros H. exists (S n), s, g. split; [lia | exact H].
  - destruct s as [|c s]; [discriminate|].
    destruct (in_class cl c); [|discriminate].
    intros H. exists (S n), s, g. split; [lia | exact H].
  - intros H. destruct (IH1 _ _ _ _ _ H) as (n1 & s1 & g1 & Hn1 & H1).
    destruct (IH2 _ _ _ _ _ H1) as (n2 & s2 & g2 & Hn2 & H2).
    exists n2, s2, g2. split; [lia | exact H2].
  - destruct (run ic r1 n s g k) eqn:E.
    + intros H. inversion H; subst.
      destruct (IH1 _ _ _ _ _ E) as (n1 & s1 & g1 & Hn1 & H1).
      exists n1, s1, g1. split; [lia | exact H1].
    + intros H. destruct (IH2 _ _ _ _ _ H) as (n2 & s2 & g2 & Hn2 & H2).
      exists n2, s2, g2. split; [lia | exact H2].
  - intros H. destruct (star_greedy_calls _ _ _ _ _ H) as (n' & s' & Hn & Hk).
    exists n', s', g. split; [lia | exact Hk].
  - intros H. destruct (star_lazy_calls _ _ _ _ _ H) as (n' & s' & Hn & Hk).
    exists n', s', g. split; [lia | exact Hk].
  - intros H. destruct (IH _ _ _ _ _ H) as (n' & s' & g' & Hn & Hk).
    exists n', s', (Some (n, n')). split; [exact Hn | exact Hk].
Qed.

End Progress.

(** No match is shorter than [min_len]. *)
Lemma match_at_min_len ic r s len g :
  match_at ic r s = Some (len, g) -> min_len r <= len.
Proof.
  unfold match_at. intros H.
  destruct (run_advances _ ic r _ _ _ _ _ H) as (n' & s' & g' & Hn & Hk).
  inversion Hk; subst. exact Hn.
Qed.

Section Search.
Variables (ic : bool) (r : regex).

(** [re.search] returns the match at the first offset that has one. *)
Lemma search_from_first j : forall s i len g,
  (forall j', j' < j -> match_at ic r (skipn j' s) = None) ->
  match_at ic r (skipn j s) = Some (len, g) ->
  search_from ic r s i = Some {| m_start := i + j; m_len := len; m_group := g |}.
Proof.
  induction j as [|j IH]; intros s i len g Hbefore Hat.
  - cbn [skipn] in Hat. rewrite Nat.add_0_r.
    destruct s; cbn [search_from]; rewrite Hat; reflexivity.
  - pose proof (Hbefore 0 (Nat.lt_0_succ j)) as H0. cbn [skipn] in H0.
    destruct s as [|c s].
    + cbn [skipn] in Hat. congruence.
    + cbn [search_from]. rewrite H0. rewrite Nat.add_succ_r.
      apply (IH s (S i)).
      * intros j' Hj'. apply (Hbefore (S j')). lia.
      * exact Hat.
Qed.

Lemma search_from_none s : forall i,
  (forall j, match_at ic r (skipn j s) = None) ->
  search_from ic r s i = None.
Proof.
  induction s as [|c s IH]; intros i Hnone.
  - cbn [search_from]. rewrite (Hnone 0 : match_at ic r [] = None). reflexivity.
  - cbn [search_from]. rewrite (Hnone 0 : match_at ic r (c :: s) = None). apply IH.
    intros j. apply (Hnone (S j)).
Qed.

Lemma search_from_sound s : forall i m,
  search_from ic r s i = Some m ->
  exists j, m_start m = i + j /\
            match_at ic r (skipn j s) = Some (m_len m, m_group m) /\
            forall j', j' < j -> match_at ic r (skipn j' s) = None.
Proof.
  induction s as [|c s IH]; intros i m Hm; cbn [search_from] in Hm.
  - destruct (match_at ic r []) as [[len g]|] eqn:E; [|discriminate].
    inversion Hm; subst. exists 0. cbn. rewrite Nat.add_0_r.
    repeat split; auto. intros j' Hj'. inversion Hj'.
  - destruct (match_at ic r (c :: s)) as [[len g]|] eqn:E.
    + inversion Hm; subst. exists 0. cbn. rewrite Nat.add_0_r.
      repeat split; auto. intros j' Hj'. inversion Hj'.
    + destruct (IH _ _ Hm) as (j & Hs & Hat & Hbefore).
      exists (S j). rewrite Nat.add_succ_r. repeat split; auto.
      intros [|j'] Hj'; [exact E|]. apply Hbefore. lia.
Qed.

End Search.

End ReFacts.

(* ===================================================================== *)
(** ** Character classes *)
(* ===================================================================== *)

Ltac by_code c :=
  destruct c as [[] [] [] [] [] [] [] []]; vm_compute;
  try reflexivity; try discriminate; auto.

Module CharFacts.

Lemma space_not_digit c : is_space c = true -> is_digit c = false.
Proof. by_code c. Qed.

Lemma space_not_backtick c : is_space c = true -> Ascii.eqb "`" c = false.
Proof. by_code c. Qed.

Lemma lower_keeps_space c : is_space (lower_char c) = is_space c.
Proof. by_code c. Qed.

Lemma lower_keeps_digit c : is_digit (lower_char c) = is_digit c.
Proof. by_code c. Qed.

Lemma lower_fixes_digit c : is_digit c = true -> lower_char c = c.
Proof. by_code c. Qed.

Lemma lower_idem c : lower_char (lower_char c) = lower_char c.
Proof. by_code c. Qed.

End CharFacts.

(* ===================================================================== *)
(** ** The matcher computes the scans *)
(* ===================================================================== *)

Module ScanFacts.

Lemma digits_run n s :
  match s with
  | c :: s' =>
      if in_class Digit c
      then star_greedy (in_class Digit) s' (S n)
             (fun n' _ => Some (n', Some (n, n')))
      else None
  | [] => None
  end =
  match List.length (takewhile is_digit s) with
  | O => None
  | S d => Some (n + S d, Some (n, n + S d))
  end.
Proof.
  destruct s as [|c s]; [reflexivity|].
  cbn [in_class takewhile]. destruct (is_digit c); [|reflexivity].
  cbn [List.length]. erewrite ReFacts.star_greedy_max; [|reflexivity].
  cbn [in_class]. rewrite !Nat.add_succ_r. reflexivity.
Qed.

Lemma run_number ic n s g :
  run ic (Seq (Star Space) (Group (Plus Digit))) n s g (fun n' _ g' => Some (n', g'))
  = Scan.number_at n s.
Proof.
  unfold Plus. cbn [run].
  rewrite ReFacts.star_greedy_exact.
  - rewrite digits_run. unfold Scan.number_at.
    change (in_class Space) with is_space.
    destruct (List.length (takewhile is_digit (dropwhile is_space s))); reflexivity.
  - intros i Hi. destruct (ReFacts.inside_takewhile _ _ _ Hi) as (c & t & -> & Hc).
    cbn [in_class] in *. rewrite (CharFacts.space_not_digit _ Hc). reflexivity.
Qed.

Theorem match_limit ic s :
  match_at ic limit_number_pattern s = Scan.limit_at ic s.
Proof.
  unfold match_at, limit_number_pattern, limit_words, Scan.limit_at, App.limit_keywords.
  cbn [map Scan.first_some].
  rewrite ReFacts.run_Seq, !ReFacts.run_Alt, !ReFacts.run_Lit, !run_number.
  cbn [Nat.add].
  repeat match goal with
         | |- context [if ?b then _ else _] => destruct b
         end;
  repeat match goal with
         | |- context [Scan.number_at ?a ?b] => destruct (Scan.number_at a b)
         end; reflexivity.
Qed.

Lemma find_close_shift s : forall j,
  Scan.find_close s j = option_map (fun x => j + x) (Scan.find_close s 0).
Proof.
  induction s as [|c s IH]; intros j; cbn [Scan.find_close].
  - destruct (Scan.closes []); cbn; [rewrite Nat.add_0_r|]; reflexivity.
  - destruct (Scan.closes (c :: s)); cbn [option_map].
    + rewrite Nat.add_0_r. reflexivity.
    + rewrite (IH (S j)), (IH 1). destruct (Scan.find_close s 0); cbn [option_map];
        [f_equal; lia | reflexivity].
Qed.

Lemma closes_blank c s : is_space c = true -> Scan.closes (c :: s) = Scan.closes s.
Proof. intros Hc. unfold Scan.closes. cbn [dropwhile]. rewrite Hc. reflexivity. Qed.

Lemma find_close_blank c s :
  is_space c = true -> Scan.find_close s 0 = None -> Scan.find_close (c :: s) 0 = None.
Proof.
  intros Hc Hs. cbn [Scan.find_close]. rewrite (closes_blank _ _ Hc).
  destruct (Scan.closes s) eqn:E.
  - destruct s; cbn [Scan.find_close] in Hs; rewrite E in Hs; discriminate.
  - rewrite find_close_shift, Hs. reflexivity.
Qed.

Section Lazy.
Variable R : Type.

Lemma star_lazy_find (K : nat -> text -> option R) (F : nat -> text -> R) :
  (forall n s, K n s = if Scan.closes s then Some (F n s) else None) ->
  forall s n,
  star_lazy (in_class AnyChar) s n K =
  match Scan.find_close s 0 with
  | Some j => Some (F (n + j) (skipn j s))
  | None => None
  end.
Proof.
  intros HK. induction s as [|c s IH]; intros n.
  - cbn [star_lazy Scan.find_close]. rewrite HK.
    destruct (Scan.closes []); [rewrite Nat.add_0_r|]; reflexivity.
  - cbn [star_lazy Scan.find_close in_class]. rewrite HK.
    destruct (Scan.closes (c :: s)).
    + rewrite Nat.add_0_r. reflexivity.
    + rewrite IH, (find_close_shift s 1).
      destruct (Scan.find_close s 0); cbn [option_map]; [|reflexivity].
      cbn [Nat.add skipn]. rewrite Nat.add_succ_r. reflexivity.
Qed.

End Lazy.

Lemma run_close n s g :
  run false (Seq (Star Space) (Lit (txt "```"))) n s g (fun n' _ g' => Some (n', g'))
  = if Scan.closes s
    then Some (n + List.length (takewhile is_space s) + 3, g)
    else None.
Proof.
  rewrite ReFacts.run_Seq, ReFacts.run_Star.
  rewrite ReFacts.star_greedy_exact.
  - rewrite ReFacts.run_Lit, ReFacts.lit_match_startswith.
    reflexivity.
  - intros i Hi. destruct (ReFacts.inside_takewhile _ _ _ Hi) as (c & t & -> & Hc).
    rewrite ReFacts.run_Lit. cbn [in_class] in Hc.
    unfold txt. cbn [list_ascii_of_string Scan.lit_match chr_match].
    rewrite (CharFacts.space_not_backtick _ Hc). reflexivity.
Qed.

Lemma run_interior n s g :
  run false (Seq (Group (LazyStar AnyChar)) (Seq (Star Space) (Lit (txt "```"))))
      n s g (fun n' _ g' => Some (n', g'))
  = match Scan.find_close s 0 with
    | Some j =>
        Some (n + j + List.length (takewhile is_space (skipn j s)) + 3,
              Some (n, n + j))
    | None => None
    end.
Proof.
  rewrite ReFacts.run_Seq, ReFacts.run_Group_LazyStar.
  rewrite (star_lazy_find _ _
             (fun n' s' => (n' + List.length (takewhile is_space s') + 3, Some (n, n')))).
  - reflexivity.
  - intros n' s'. apply run_close.
Qed.

Theorem match_fence s :
  match_at false App.sql_pattern s = Scan.fence_at s.
Proof.
  unfold match_at, App.sql_pattern, Scan.fence_at.
  rewrite ReFacts.run_Seq, ReFacts.run_Lit, ReFacts.lit_match_startswith.
  destruct (startswith s (txt "```sql")); [|reflexivity].
  rewrite ReFacts.run_Seq, ReFacts.run_Star.
  rewrite ReFacts.star_greedy_commit.
  - rewrite run_interior. reflexivity.
  - intros n c t Hc. rewrite !run_interior.
    destruct (Scan.find_close t 0) eqn:E; [discriminate|].
    intros _. rewrite (find_close_blank _ _ Hc E). reflexivity.
Qed.

End ScanFacts.

(* ===================================================================== *)
(** ** Lists of characters *)
(* ===================================================================== *)

Module ListFacts.

Section Prefixes.
Variable p : ascii -> bool.

Lemma takewhile_app_stop a b :
  forallb p a = true -> (forall c t, b = c :: t -> p c = false) ->
  takewhile p (a ++ b) = a.
Proof.
  intros Ha Hb. induction a as [|x a IH]; cbn [app takewhile].
  - destruct b as [|c t]; [reflexivity|].
    cbn [takewhile]. rewrite (Hb c t eq_refl). reflexivity.
  - cbn [forallb] in Ha. apply andb_prop in Ha. destruct Ha as [Hx Ha].
    rewrite Hx, (IH Ha). reflexivity.
Qed.

Lemma dropwhile_app_stop a b :
  forallb p a = true -> (forall c t, b = c :: t -> p c = false) ->
  dropwhile p (a ++ b) = b.
Proof.
  intros Ha Hb. induction a as [|x a IH]; cbn [app dropwhile].
  - destruct b as [|c t]; [reflexivity|].
    cbn [dropwhile]. rewrite (Hb c t eq_refl). reflexivity.
  - cbn [forallb] in Ha. apply andb_prop in Ha. destruct Ha as [Hx Ha].
    rewrite Hx. exact (IH Ha).
Qed.

Lemma takewhile_all s : forallb p (takewhile p s) = true.
Proof.
  induction s as [|c s IH]; [reflexivity|].
  cbn [takewhile]. destruct (p c) eqn:Hc; [|reflexivity].
  cbn [forallb]. rewrite Hc, IH. reflexivity.
Qed.

Lemma dropwhile_stops s c t : dropwhile p s = c :: t -> p c = false.
Proof.
  induction s as [|x s IH]; cbn [dropwhile]; [discriminate|].
  destruct (p x) eqn:Hx; [exact IH|].
  intros H. inversion H; subst. exact Hx.
Qed.

End Prefixes.

Lemma skipn_length_app (a b : text) : skipn (List.length a) (a ++ b) = b.
Proof. induction a; [reflexivity | assumption]. Qed.

Lemma firstn_length_app (a b : text) : firstn (List.length a) (a ++ b) = a.
Proof. induction a as [|x a IH]; [reflexivity | cbn; rewrite IH; reflexivity]. Qed.

Lemma skipn_inside (a b : text) i :
  i <= List.length a -> skipn i (a ++ b) = skipn i a ++ b.
Proof.
  revert i. induction a as [|x a IH]; intros [|i] Hi; cbn in *; try reflexivity; try lia.
  apply IH. lia.
Qed.

Lemma startswith_split w : forall s,
  startswith s w = true -> s = w ++ skipn (List.length w) s.
Proof.
  induction w as [|x w IH]; intros s Hs; [reflexivity|].
  destruct s as [|y s]; [discriminate|].
  cbn [startswith] in Hs. apply andb_prop in Hs. destruct Hs as [Hxy Hs].
  apply Ascii.eqb_eq in Hxy. subst y. cbn [List.length skipn app].
  f_equal. apply IH. exact Hs.
Qed.

Lemma contains_at hay needle : forall pre,
  startswith hay needle = true -> contains (pre ++ hay) needle = true.
Proof.
  intros pre Hs. induction pre as [|x pre IH]; cbn [app].
  - destruct hay; cbn [contains]; rewrite Hs; reflexivity.
  - cbn [contains]. rewrite IH. apply orb_true_r.
Qed.

Lemma contains_false_at hay needle :
  contains hay needle = false -> forall j, startswith (skipn j hay) needle = false.
Proof.
  induction hay as [|x hay IH]; intros Hc j.
  - destruct j; cbn [skipn]; cbn [contains] in Hc;
      apply orb_false_elim in Hc; apply Hc.
  - cbn [contains] in Hc. apply orb_false_elim in Hc. destruct Hc as [H0 Hc].
    destruct j; [exact H0|]. cbn [skipn]. apply IH. exact Hc.
Qed.

End ListFacts.

Module StripFacts.

Lemma dropwhile_idem p s : dropwhile p (dropwhile p s) = dropwhile p s.
Proof.
  destruct (TextFacts.dropwhile_head p s) as [-> | (c & t & -> & Hc)];
    [reflexivity | apply TextFacts.dropwhile_fix, Hc].
Qed.

Lemma rstrip_idem s : rstrip (rstrip s) = rstrip s.
Proof. unfold rstrip. rewrite rev_involutive, dropwhile_idem. reflexivity. Qed.

Lemma strip_idem s : strip (strip s) = strip s.
Proof.
  unfold strip at 1. rewrite TextFacts.lstrip_strip.
  unfold strip. apply rstrip_idem.
Qed.

Lemma forallb_rev (p : ascii -> bool) l : forallb p (rev l) = forallb p l.
Proof.
  induction l as [|x l IH]; [reflexivity|].
  cbn [rev forallb]. rewrite forallb_app, IH. cbn [forallb].
  rewrite andb_true_r. apply andb_comm.
Qed.

(** What [rstrip] removes is a run of blanks. *)
Lemma rstrip_split s :
  exists trail, s = rstrip s ++ trail /\ forallb is_space trail = true.
Proof.
  exists (rev (takewhile is_space (rev s))). split.
  - unfold rstrip. rewrite <- rev_app_distr.
    rewrite <- (TextFacts.takewhile_dropwhile is_space (rev s)).
    symmetry. apply rev_involutive.
  - rewrite forallb_rev. apply ListFacts.takewhile_all.
Qed.

(** What [rstrip] leaves does not end with a blank. *)
Lemma rstrip_last s y c : rstrip s = y ++ [c] -> is_space c = false.
Proof.
  unfold rstrip. intros H.
  apply (f_equal (@rev ascii)) in H. rewrite rev_involutive, rev_app_distr in H.
  cbn [rev app] in H. exact (ListFacts.dropwhile_stops _ _ _ _ H).
Qed.

Lemma lstrip_split s : s = takewhile is_space s ++ lstrip s.
Proof. apply TextFacts.takewhile_dropwhile. Qed.

End StripFacts.

(* ===================================================================== *)
(** ** The limit phrase *)
(* ===================================================================== *)

Module Limit.

Lemma number_at_found n ws ds rest :
  forallb is_space ws = true ->
  ds <> [] -> forallb is_digit ds = true ->
  Spec.no_digit_ahead rest ->
  Scan.number_at n (ws ++ ds ++ rest) =
  Some (n + List.length ws + List.length ds,
        Some (n + List.length ws, n + List.length ws + List.length ds)).
Proof.
  intros Hws Hne Hds Hrest. unfold Scan.number_at.
  assert (Hstop : forall c t, ds ++ rest = c :: t -> is_space c = false).
  { destruct ds as [|d ds']; [congruence|].
    cbn [app]. intros c t H. inversion H; subst.
    cbn [forallb] in Hds. apply andb_prop in Hds. destruct Hds as [Hd _].
    destruct (is_space c) eqn:E; [|reflexivity].
    rewrite (CharFacts.space_not_digit _ E) in Hd. discriminate. }
  rewrite (ListFacts.takewhile_app_stop is_space _ _ Hws Hstop).
  rewrite (ListFacts.dropwhile_app_stop is_space _ _ Hws Hstop).
  rewrite (ListFacts.takewhile_app_stop is_digit _ _ Hds).
  - destruct ds; [congruence | reflexivity].
  - intros c t ->. exact Hrest.
Qed.

Lemma number_at_sound n s x :
  Scan.number_at n s = Some x ->
  exists ws d rest, forallb is_space ws = true /\ is_digit d = true /\
                    s = ws ++ d :: rest.
Proof.
  unfold Scan.number_at.
  destruct (takewhile is_digit (dropwhile is_space s)) as [|d ds] eqn:E;
    [discriminate|]. intros _.
  destruct (dropwhile is_space s) as [|c rest] eqn:Ed; [discriminate|].
  cbn [takewhile] in E. destruct (is_digit c) eqn:Hc; [|discriminate].
  exists (takewhile is_space s), c, rest. repeat split.
  - apply ListFacts.takewhile_all.
  - exact Hc.
  - rewrite <- Ed. apply TextFacts.takewhile_dropwhile.
Qed.

Lemma phrase_of_keyword kw s x :
  In kw App.limit_keywords ->
  Scan.lit_match false kw s = true ->
  Scan.number_at (List.length kw) (skipn (List.length kw) s) = Some x ->
  Spec.limit_phrase_at s.
Proof.
  intros Hkw Hlit Hnum. rewrite ReFacts.lit_match_startswith in Hlit.
  apply ListFacts.startswith_split in Hlit.
  destruct (number_at_sound _ _ _ Hnum) as (ws & d & rest & Hws & Hd & Hs).
  exists kw, ws, d, rest. repeat split; auto.
  rewrite Hlit at 1. rewrite Hs. reflexivity.
Qed.

(** A match of the limit pattern is a limit phrase. *)
Lemma limit_at_sound s x : Scan.limit_at false s = Some x -> Spec.limit_phrase_at s.
Proof.
  unfold Scan.limit_at.
  assert (H : forall kws, incl kws App.limit_keywords ->
            Scan.first_some
              (map (fun kw => if Scan.lit_match false kw s
                              then Scan.number_at (List.length kw)
                                                  (skipn (List.length kw) s)
                              else None) kws) = Some x ->
            Spec.limit_phrase_at s).
  { induction kws as [|kw kws IH]; intros Hincl; cbn [map Scan.first_some];
      [discriminate|].
    assert (Hkw : In kw App.limit_keywords) by (apply Hincl; left; reflexivity).
    assert (Hrest : incl kws App.limit_keywords)
      by (intros k Hk; apply Hincl; right; exact Hk).
    destruct (Scan.lit_match false kw s) eqn:E; [|exact (IH Hrest)].
    destruct (Scan.number_at _ _) eqn:N; [|exact (IH Hrest)].
    intros _. exact (phrase_of_keyword kw s _ Hkw E N). }
  apply H. apply incl_refl.
Qed.

(** A limit phrase at the head of the text is matched, and the group is
    its run of digits. *)
Lemma limit_at_found kw ws ds rest :
  In kw App.limit_keywords ->
  forallb is_space ws = true ->
  ds <> [] -> forallb is_digit ds = true ->
  Spec.no_digit_ahead rest ->
  Scan.limit_at false (kw ++ ws ++ ds ++ rest) =
  Some (List.length kw + List.length ws + List.length ds,
        Some (List.length kw + List.length ws,
              List.length kw + List.length ws + List.length ds)).
Proof.
  intros Hkw Hws Hne Hds Hrest.
  pose proof (fun n => number_at_found n ws ds rest Hws Hne Hds Hrest) as Hnum.
  unfold Scan.limit_at, App.limit_keywords in *. cbn [In] in Hkw.
  destruct Hkw as [<- | [<- | [<- | [<- | []]]]];
    cbn -[Scan.number_at]; rewrite Hnum; reflexivity.
Qed.

Lemma limit_at_complete s :
  Spec.limit_phrase_at s -> exists x, Scan.limit_at false s = Some x.
Proof.
  intros (kw & ws & d & rest & Hkw & Hws & Hd & ->).
  replace (kw ++ ws ++ d :: rest)
    with (kw ++ ws ++ (d :: takewhile is_digit rest) ++ dropwhile is_digit rest)
    by (cbn [app]; rewrite <- TextFacts.takewhile_dropwhile; reflexivity).
  eexists. apply limit_at_found.
  - exact Hkw.
  - exact Hws.
  - discriminate.
  - cbn [forallb]. rewrite Hd. apply ListFacts.takewhile_all.
  - unfold Spec.no_digit_ahead.
    destruct (dropwhile is_digit rest) as [|c t] eqn:E; [exact I|].
    exact (ListFacts.dropwhile_stops _ _ _ _ E).
Qed.

(** The premises of the limit theorem can be checked by running the scan
    at every offset. *)
Lemma no_phrase_before s n :
  forallb (fun i => match Scan.limit_at false (skipn i s) with
                    | None => true
                    | Some _ => false
                    end) (seq 0 n) = true ->
  forall i, i < n -> ~ Spec.limit_phrase_at (skipn i s).
Proof.
  intros H i Hi Hp. rewrite forallb_forall in H.
  specialize (H i (proj2 (in_seq n 0 i) (conj (Nat.le_0_l i) Hi))).
  destruct (limit_at_complete _ Hp) as (x & Hx). rewrite Hx in H. discriminate.
Qed.

Lemma no_phrase_anywhere s :
  forallb (fun i => match Scan.limit_at false (skipn i s) with
                    | None => true
                    | Some _ => false
                    end) (seq 0 (S (List.length s))) = true ->
  forall i, ~ Spec.limit_phrase_at (skipn i s).
Proof.
  intros H i. destruct (le_lt_dec i (List.length s)) as [Hle | Hgt].
  - apply (no_phrase_before s _ H). lia.
  - rewrite skipn_all2 by lia. rewrite <- (skipn_all s).
    apply (no_phrase_before s _ H). lia.
Qed.

End Limit.

Module Fold.

(** Case folding does not move blanks or digits, so the scans cannot
    tell a text from its lowercase form. *)
Lemma takewhile_lower p s :
  (forall c, p (lower_char c) = p c) ->
  takewhile p (lower s) = lower (takewhile p s).
Proof.
  intros Hp. induction s as [|c s IH]; [reflexivity|].
  cbn [lower map takewhile]. rewrite Hp. destruct (p c); [|reflexivity].
  cbn [map]. f_equal. exact IH.
Qed.

Lemma dropwhile_lower p s :
  (forall c, p (lower_char c) = p c) ->
  dropwhile p (lower s) = lower (dropwhile p s).
Proof.
  intros Hp. induction s as [|c s IH]; [reflexivity|].
  cbn [lower map dropwhile]. rewrite Hp. destruct (p c); [exact IH | reflexivity].
Qed.

Lemma skipn_lower n s : skipn n (lower s) = lower (skipn n s).
Proof. unfold lower. apply skipn_map. Qed.

Lemma firstn_lower n s : firstn n (lower s) = lower (firstn n s).
Proof. unfold lower. apply firstn_map. Qed.

Lemma length_lower s : List.length (lower s) = List.length s.
Proof. apply length_map. Qed.

Lemma number_at_lower n s : Scan.number_at n (lower s) = Scan.number_at n s.
Proof.
  unfold Scan.number_at.
  rewrite (dropwhile_lower is_space s CharFacts.lower_keeps_space).
  rewrite (takewhile_lower is_space s CharFacts.lower_keeps_space).
  rewrite (takewhile_lower is_digit _ CharFacts.lower_keeps_digit).
  rewrite !length_lower. reflexivity.
Qed.

Lemma lit_match_lower w : forall s,
  Forall (fun p => lower_char p = p) w ->
  Scan.lit_match true w s = Scan.lit_match false w (lower s).
Proof.
  induction w as [|p w IH]; intros s Hw; [destruct s; reflexivity|].
  destruct s as [|c s]; [reflexivity|].
  inversion Hw; subst.
  cbn [lower map Scan.lit_match chr_match]. rewrite H1, (IH s H2). reflexivity.
Qed.

Lemma keywords_are_lowercase :
  Forall (Forall (fun p => lower_char p = p)) App.limit_keywords.
Proof. repeat constructor. Qed.

Lemma limit_at_lower s : Scan.limit_at true s = Scan.limit_at false (lower s).
Proof.
  unfold Scan.limit_at. f_equal. apply map_ext_in. intros kw Hkw.
  pose proof (proj1 (Forall_forall _ _) keywords_are_lowercase kw Hkw) as Hlow.
  rewrite (lit_match_lower kw s Hlow), skipn_lower, number_at_lower. reflexivity.
Qed.

(** [re.I] on the question finds what the plain pattern finds on the
    lowercase question. *)
Lemma search_lower s : forall i,
  search_from true limit_number_pattern s i =
  search_from false limit_number_pattern (lower s) i.
Proof.
  induction s as [|c s IH]; intros i; cbn [lower map search_from];
    rewrite !ScanFacts.match_limit, limit_at_lower; cbn [lower map].
  - reflexivity.
  - destruct (Scan.limit_at false _) as [[len g]|]; [reflexivity|]. apply IH.
Qed.

Lemma group1_lower s m : group1 (lower s) m = lower (group1 s m).
Proof.
  unfold group1. destruct (m_group m) as [[b e]|]; [|reflexivity].
  rewrite skipn_lower, firstn_lower. reflexivity.
Qed.

Lemma digits_unfolded g ds :
  lower g = ds -> forallb is_digit ds = true -> g = ds.
Proof.
  intros <-. induction g as [|c g IH]; [reflexivity|].
  cbn [lower map forallb]. intros H. apply andb_prop in H. destruct H as [Hc Hg].
  rewrite CharFacts.lower_keeps_digit in Hc.
  rewrite (CharFacts.lower_fixes_digit _ Hc). f_equal. apply IH. exact Hg.
Qed.

End Fold.

Module TopK.

Lemma app_top_k_str q :
  App.extract_top_k (JStr q) =
  if App.mentions_limit (lower q)
  then match search false limit_number_pattern (lower q) with
       | Some m =>
           match py_int (group1 (lower q) m) with
           | Raise e => Raise e
           | Ok n => Ok (Some n)
           end
       | None => Ok (Some 10%Z)
       end
  else Ok None.
Proof.
  unfold App.extract_top_k, App.mentions_limit.
  induction App.limit_keywords as [|kw kws IH]; [reflexivity|].
  cbn [App.limit_loop py_lower existsb].
  destruct (contains (lower q) kw); cbn [orb].
  - reflexivity.
  - exact IH.
Qed.

Lemma main_top_k_str q :
  Main.extract_top_k (JStr q) =
  match search false limit_number_pattern (lower q) with
  | Some m => py_int (group1 q m)
  | None => Ok 1000%Z
  end.
Proof.
  unfold Main.extract_top_k, search. cbn [py_re_subject].
  rewrite Fold.search_lower. reflexivity.
Qed.

Lemma py_int_short ds :
  List.length ds <= int_max_str_digits -> py_int ds = Ok (int_of_digits ds).
Proof.
  intros H. unfold py_int.
  destruct (Nat.ltb_spec int_max_str_digits (List.length ds)); [lia | reflexivity].
Qed.

Lemma py_int_long ds :
  int_max_str_digits < List.length ds ->
  exists msg, py_int ds = Raise (mkExn ValueError msg).
Proof.
  intros H. unfold py_int.
  destruct (Nat.ltb_spec int_max_str_digits (List.length ds)); [|lia].
  eexists. reflexivity.
Qed.

(** The first limit phrase of the lowercase question is what the pattern
    finds, and its digits are the group. *)
Lemma search_finds_phrase lq pre kw ws ds rest :
  lq = pre ++ kw ++ ws ++ ds ++ rest ->
  In kw App.limit_keywords ->
  forallb is_space ws = true ->
  ds <> [] -> forallb is_digit ds = true ->
  Spec.no_digit_ahead rest ->
  (forall i, i < List.length pre -> ~ Spec.limit_phrase_at (skipn i lq)) ->
  exists m, search false limit_number_pattern lq = Some m /\ group1 lq m = ds.
Proof.
  intros Hlq Hkw Hws Hne Hds Hrest Hfirst.
  pose proof (ReFacts.search_from_first false limit_number_pattern
                (List.length pre) lq 0
                (List.length kw + List.length ws + List.length ds)
                (Some (List.length kw + List.length ws,
                       List.length kw + List.length ws + List.length ds))) as H.
  eexists. split.
  - apply H.
    + intros j' Hj'. rewrite ScanFacts.match_limit.
      destruct (Scan.limit_at false (skipn j' lq)) eqn:E; [|reflexivity].
      exfalso. exact (Hfirst j' Hj' (Limit.limit_at_sound _ _ E)).
    + rewrite ScanFacts.match_limit, Hlq, ListFacts.skipn_length_app.
      apply Limit.limit_at_found; assumption.
  - unfold group1. cbn [m_group m_start Nat.add].
    replace (List.length kw + List.length ws + List.length ds
             - (List.length kw + List.length ws)) with (List.length ds) by lia.
    rewrite Hlq.
    replace (pre ++ kw ++ ws ++ ds ++ rest)
      with ((pre ++ kw ++ ws) ++ ds ++ rest) by (rewrite <- !app_assoc; reflexivity).
    replace (List.length pre + (List.length kw + List.length ws))
      with (List.length (pre ++ kw ++ ws)) by (rewrite !length_app; lia).
    rewrite ListFacts.skipn_length_app. apply ListFacts.firstn_length_app.
Qed.

Lemma search_finds_nothing lq :
  (forall i, ~ Spec.limit_phrase_at (skipn i lq)) ->
  search false limit_number_pattern lq = None.
Proof.
  intros Hnone. apply ReFacts.search_from_none. intros j.
  rewrite ScanFacts.match_limit.
  destruct (Scan.limit_at false (skipn j lq)) eqn:E; [|reflexivity].
  exfalso. exact (Hnone j (Limit.limit_at_sound _ _ E)).
Qed.

Lemma mentions_keyword lq pre kw post :
  lq = pre ++ kw ++ post -> In kw App.limit_keywords ->
  App.mentions_limit lq = true.
Proof.
  intros -> Hkw. unfold App.mentions_limit. apply existsb_exists.
  exists kw. split; [exact Hkw|].
  apply ListFacts.contains_at. apply TextFacts.startswith_app.
Qed.

End TopK.

(* ===================================================================== *)
(** ** The code fence *)
(* ===================================================================== *)

Module Fence.

Lemma takewhile_app_keep p (u : text) c z :
  p c = false -> takewhile p (u ++ c :: z) = takewhile p u.
Proof.
  intros Hc. induction u as [|x u IH]; cbn [app takewhile].
  - rewrite Hc. reflexivity.
  - destruct (p x); [f_equal; exact IH | reflexivity].
Qed.

Lemma dropwhile_app_keep p (u : text) c z :
  p c = false -> dropwhile p (u ++ c :: z) = dropwhile p u ++ c :: z.
Proof.
  intros Hc. induction u as [|x u IH]; cbn [app dropwhile].
  - rewrite Hc. reflexivity.
  - destruct (p x); [exact IH | reflexivity].
Qed.

Lemma dropwhile_is_skipn p (u : text) :
  exists m, m <= List.length u /\ dropwhile p u = skipn m u.
Proof.
  induction u as [|x u (m & Hm & IH)].
  - exists 0. split; [lia | reflexivity].
  - cbn [dropwhile]. destruct (p x).
    + exists (S m). cbn. split; [lia | exact IH].
    + exists 0. split; [lia | reflexivity].
Qed.

Lemma startswith_app_long n : forall a b,
  List.length n <= List.length a -> startswith (a ++ b) n = startswith a n.
Proof.
  induction n as [|x n IH]; intros a b Hlen; [destruct a, b; reflexivity|].
  destruct a as [|y a]; [cbn in Hlen; lia|].
  cbn [app startswith]. rewrite IH; [reflexivity | cbn in Hlen; lia].
Qed.

(** With no run of three backticks beginning inside [body], none begins
    there when more text follows. *)
Lemma no_marker_inside body post k :
  contains (body ++ txt "``") (txt "```") = false ->
  k < List.length body ->
  startswith (skipn k (body ++ txt "```" ++ post)) (txt "```") = false.
Proof.
  intros Hc Hk.
  replace (body ++ txt "```" ++ post)
    with ((body ++ txt "``") ++ txt "`" ++ post)
    by (rewrite <- app_assoc; reflexivity).
  rewrite ListFacts.skipn_inside by (rewrite length_app; lia).
  rewrite startswith_app_long.
  - apply ListFacts.contains_false_at. exact Hc.
  - rewrite length_skipn, length_app. cbn. lia.
Qed.

Lemma find_close_first j : forall s,
  (forall i, i < j -> Scan.closes (skipn i s) = false) ->
  Scan.closes (skipn j s) = true ->
  Scan.find_close s 0 = Some j.
Proof.
  induction j as [|j IH]; intros s Hbefore Hat.
  - cbn [skipn] in Hat. destruct s; cbn [Scan.find_close]; rewrite Hat; reflexivity.
  - pose proof (Hbefore 0 (Nat.lt_0_succ j)) as H0. cbn [skipn] in H0.
    destruct s as [|c s].
    + cbn [skipn] in Hat. congruence.
    + cbn [Scan.find_close]. rewrite H0, ScanFacts.find_close_shift.
      rewrite (IH s); [reflexivity | | exact Hat].
      intros i Hi. apply (Hbefore (S i)). lia.
Qed.

Lemma find_close_sound s : forall j,
  Scan.find_close s 0 = Some j -> Scan.closes (skipn j s) = true.
Proof.
  induction s as [|c s IH]; intros j; cbn [Scan.find_close].
  - destruct (Scan.closes []) eqn:E; [|discriminate].
    intros H. inversion H; subst. exact E.
  - destruct (Scan.closes (c :: s)) eqn:E.
    + intros H. inversion H; subst. exact E.
    + rewrite ScanFacts.find_close_shift.
      destruct (Scan.find_close s 0) as [j'|] eqn:Ej; [|discriminate].
      cbn [option_map]. intros H. inversion H; subst.
      cbn [Nat.add skipn]. apply IH. reflexivity.
Qed.

Lemma closes_split t :
  Scan.closes t = true ->
  t = takewhile is_space t ++ txt "```" ++ skipn 3 (dropwhile is_space t).
Proof.
  unfold Scan.closes. intros H.
  apply ListFacts.startswith_split in H.
  rewrite (TextFacts.takewhile_dropwhile is_space t) at 1.
  f_equal. exact H.
Qed.

Lemma last_or_nil (l : text) : l = [] \/ exists y c, l = y ++ [c].
Proof.
  destruct l as [|x l]; [left; reflexivity | right].
  destruct (@exists_last _ (x :: l)) as (y & c & Hy); [discriminate|].
  exists y, c. exact Hy.
Qed.

Lemma skipn_past (a z : text) k : skipn (List.length a + k) (a ++ z) = skipn k z.
Proof. induction a; [reflexivity | assumption]. Qed.

Lemma backtick_not_space : is_space "`" = false.
Proof. reflexivity. Qed.

(** The fence pattern on a fenced text whose body holds no closing
    marker: the group is the body without its surrounding blanks. *)
Lemma fence_at_found body post :
  contains (body ++ txt "``") (txt "```") = false ->
  exists len,
    Scan.fence_at (txt "```sql" ++ body ++ txt "```" ++ post) =
    Some (len, Some (6 + List.length (takewhile is_space body),
                     6 + List.length (takewhile is_space body)
                       + List.length (strip body))).
Proof.
  intros Hc. unfold Scan.fence_at.
  rewrite TextFacts.startswith_app.
  change (skipn 6 (txt "```sql" ++ body ++ txt "```" ++ post))
    with (body ++ txt "```" ++ post).
  change (txt "```" ++ post) with ("`"%char :: (txt "``" ++ post)).
  rewrite (takewhile_app_keep is_space body _ _ backtick_not_space).
  rewrite (dropwhile_app_keep is_space body _ _ backtick_not_space).
  change ("`"%char :: (txt "``" ++ post)) with (txt "```" ++ post).
  fold (lstrip body).
  destruct (StripFacts.rstrip_split (lstrip body)) as (trail & Hsplit & Htrail).
  fold (strip body) in Hsplit.
  assert (Hat : Scan.closes (skipn (List.length (strip body))
                                   (lstrip body ++ txt "```" ++ post)) = true).
  { rewrite Hsplit. rewrite <- app_assoc, ListFacts.skipn_length_app.
    unfold Scan.closes.
    rewrite (ListFacts.dropwhile_app_stop is_space trail _ Htrail).
    - apply TextFacts.startswith_app.
    - intros c t H. inversion H. reflexivity. }
  assert (Hinside : forall k, k < List.length (lstrip body) ->
            startswith (skipn k (lstrip body ++ txt "```" ++ post)) (txt "```") = false).
  { intros k Hk.
    rewrite <- (skipn_past (takewhile is_space body)).
    rewrite app_assoc, <- StripFacts.lstrip_split.
    apply no_marker_inside; [exact Hc|].
    pose proof (f_equal (@List.length ascii) (StripFacts.lstrip_split body)) as Hlen.
    rewrite length_app in Hlen. lia. }
  assert (Hbefore : forall i, i < List.length (strip body) ->
            Scan.closes (skipn i (lstrip body ++ txt "```" ++ post)) = false).
  { intros i Hi.
    destruct (last_or_nil (strip body)) as [E | (y & c & E)];
      [rewrite E in Hi; inversion Hi|].
    pose proof (StripFacts.rstrip_last (lstrip body) y c E) as Hcns.
    rewrite E in Hi, Hsplit. rewrite length_app in Hi. cbn [List.length] in Hi.
    assert (Hlen : List.length (lstrip body) = List.length y + 1 + List.length trail)
      by (rewrite Hsplit, !length_app; reflexivity).
    unfold Scan.closes.
    replace (skipn i (lstrip body ++ txt "```" ++ post))
      with (skipn i y ++ c :: trail ++ txt "```" ++ post)
      by (rewrite Hsplit, <- !app_assoc, ListFacts.skipn_inside by lia; reflexivity).
    rewrite (dropwhile_app_keep is_space _ _ _ Hcns).
    destruct (dropwhile_is_skipn is_space (skipn i y)) as (m & Hm & ->).
    rewrite length_skipn in Hm. rewrite skipn_skipn.
    replace (skipn (m + i) y ++ c :: trail ++ txt "```" ++ post)
      with (skipn (m + i) (lstrip body ++ txt "```" ++ post))
      by (rewrite Hsplit, <- !app_assoc, ListFacts.skipn_inside by lia; reflexivity).
    apply Hinside. lia. }
  rewrite (find_close_first _ _ Hbefore Hat).
  eexists. reflexivity.
Qed.

End Fence.

Module Extract.

Lemma contains_true_at hay needle :
  contains hay needle = true ->
  exists j, j <= List.length hay /\ startswith (skipn j hay) needle = true.
Proof.
  induction hay as [|x hay IH]; cbn [contains]; intros H.
  - exists 0. split; [lia|]. rewrite orb_false_r in H. exact H.
  - apply orb_prop in H. destruct H as [H | H].
    + exists 0. split; [lia | exact H].
    + destruct (IH H) as (j & Hj & Hs). exists (S j). split; [cbn; lia | exact Hs].
Qed.

Lemma startswith_app_more n : forall a b,
  startswith a n = true -> startswith (a ++ b) n = true.
Proof.
  induction n as [|x n IH]; intros a b H; [destruct (a ++ b); reflexivity|].
  destruct a as [|y a]; [discriminate|].
  cbn [app startswith] in *. apply andb_prop in H. destruct H as [-> H].
  rewrite (IH _ _ H). reflexivity.
Qed.

(** A text without the marker has no part with the marker. *)
Lemma contains_part a x b needle :
  contains (a ++ x ++ b) needle = false -> contains x needle = false.
Proof.
  intros H. destruct (contains x needle) eqn:E; [|reflexivity].
  destruct (contains_true_at _ _ E) as (j & Hj & Hs).
  pose proof (ListFacts.contains_false_at _ _ H (List.length a + j)) as Hf.
  rewrite Fence.skipn_past, ListFacts.skipn_inside in Hf by exact Hj.
  rewrite (startswith_app_more _ _ _ Hs) in Hf. discriminate.
Qed.

Lemma fence_at_sound s x :
  Scan.fence_at s = Some x ->
  exists body post, s = txt "```sql" ++ body ++ txt "```" ++ post.
Proof.
  unfold Scan.fence_at.
  destruct (startswith s (txt "```sql")) eqn:Hs; [|discriminate].
  apply ListFacts.startswith_split in Hs.
  change (List.length (txt "```sql")) with 6 in Hs.
  destruct (Scan.find_close (dropwhile is_space (skipn 6 s)) 0) as [j|] eqn:Hj;
    [|discriminate].
  intros _. apply Fence.find_close_sound, Fence.closes_split in Hj.
  exists (takewhile is_space (skipn 6 s)
          ++ firstn j (dropwhile is_space (skipn 6 s))
          ++ takewhile is_space (skipn j (dropwhile is_space (skipn 6 s)))).
  eexists.
  rewrite Hs at 1. f_equal.
  rewrite (TextFacts.takewhile_dropwhile is_space (skipn 6 s)) at 1.
  rewrite <- !app_assoc. f_equal.
  rewrite <- (firstn_skipn j (dropwhile is_space (skipn 6 s))) at 1.
  f_equal. exact Hj.
Qed.

Lemma search_fenced pre body post :
  contains (pre ++ txt "```sq") (txt "```sql") = false ->
  contains (body ++ txt "``") (txt "```") = false ->
  exists m, search false App.sql_pattern
                   (pre ++ txt "```sql" ++ body ++ txt "```" ++ post) = Some m /\
            group1 (pre ++ txt "```sql" ++ body ++ txt "```" ++ post) m = strip body.
Proof.
  intros Hpre Hbody.
  destruct (Fence.fence_at_found body post Hbody) as (len & Hat).
  eexists. split.
  - apply (ReFacts.search_from_first false App.sql_pattern (List.length pre)).
    + intros j' Hj'. rewrite ScanFacts.match_fence. unfold Scan.fence_at.
      replace (pre ++ txt "```sql" ++ body ++ txt "```" ++ post)
        with ((pre ++ txt "```sq") ++ txt "l" ++ body ++ txt "```" ++ post)
        by (rewrite <- app_assoc; reflexivity).
      rewrite ListFacts.skipn_inside by (rewrite length_app; lia).
      rewrite Fence.startswith_app_long.
      * rewrite (ListFacts.contains_false_at _ _ Hpre). reflexivity.
      * rewrite length_skipn, length_app. cbn. lia.
    + rewrite ScanFacts.match_fence, ListFacts.skipn_length_app. exact Hat.
  - unfold group1. cbn [m_group m_start].
    change (0 + List.length pre) with (List.length pre).
    destruct (StripFacts.rstrip_split (lstrip body)) as (trail & Hsplit & _).
    fold (strip body) in Hsplit.
    replace (6 + List.length (takewhile is_space body) + List.length (strip body)
             - (6 + List.length (takewhile is_space body)))
      with (List.length (strip body)) by lia.
    replace (pre ++ txt "```sql" ++ body ++ txt "```" ++ post)
      with ((pre ++ txt "```sql" ++ takewhile is_space body)
            ++ strip body ++ trail ++ txt "```" ++ post).
    + replace (List.length pre + (6 + List.length (takewhile is_space body)))
        with (List.length (pre ++ txt "```sql" ++ takewhile is_space body))
        by (rewrite !length_app; cbn; lia).
      rewrite ListFacts.skipn_length_app. apply ListFacts.firstn_length_app.
    + rewrite <- !app_assoc. do 2 f_equal.
      rewrite (app_assoc (strip body) trail), <- Hsplit.
      rewrite app_assoc, <- StripFacts.lstrip_split. reflexivity.
Qed.

Lemma search_unfenced generated :
  (forall pre body post,
      generated <> pre ++ txt "```sql" ++ body ++ txt "```" ++ post) ->
  search false App.sql_pattern generated = None.
Proof.
  intros Hno. apply ReFacts.search_from_none. intros j.
  rewrite ScanFacts.match_fence.
  destruct (Scan.fence_at (skipn j generated)) eqn:E; [|reflexivity].
  destruct (fence_at_sound _ _ E) as (body & post & Hs).
  exfalso. apply (Hno (firstn j generated) body post).
  rewrite <- Hs. symmetry. apply firstn_skipn.
Qed.

(** [rstrip(";")] removes every trailing semicolon. *)
Lemma rstrip_all_semicolons s n :
  rstrip_chars (txt ";") (s ++ repeat ";"%char n) = rstrip_chars (txt ";") s.
Proof.
  unfold rstrip_chars. f_equal. rewrite rev_app_distr.
  induction n as [|n IH]; [reflexivity|].
  replace (repeat ";"%char (S n)) with (repeat ";"%char n ++ [";"%char])
    by (rewrite <- repeat_cons; reflexivity).
  rewrite rev_app_distr. cbn [rev app dropwhile existsb txt list_ascii_of_string].
  exact IH.
Qed.

End Extract.

(* ===================================================================== *)
(** ** Runs of the handlers *)
(* ===================================================================== *)

Ltac unfold_run :=
  cbv [App.handle_query Main.handle_query try_except bind lift call ret
       return_ raise py_call_str trace_of outcome_of any_exception] in *.

(** Case analysis on the innermost undecided test of a run. *)
Ltac leaf_split :=
  match goal with
  | |- context [match ?x with _ => _ end] =>
      lazymatch x with
      | context [match _ with _ => _ end] => fail
      | _ => destruct x eqn:?; cbv beta iota zeta; cbn [app fst snd]
      end
  end.

(** Which event of a concrete trace a membership hypothesis names. *)
Ltac in_trace H :=
  cbn [In] in H;
  repeat (destruct H as [H | H]; try discriminate H);
  try contradiction;
  try (injection H as ?; subst).

Ltac same_call :=
  match goal with
  | H1 : ?f = _, H2 : ?f = _ |- _ =>
      rewrite H1 in H2; first [discriminate H2 | injection H2 as ?; subst]
  end.

Ltac bool_clash :=
  match goal with
  | H : negb ?b = _, H' : ?b = _ |- _ => rewrite H' in H; discriminate H
  end.

Module Runs.

Lemma app_top_k_is_str q k : App.extract_top_k q = Ok k -> exists s, q = JStr s.
Proof.
  destruct q; cbn [App.extract_top_k App.limit_keywords App.limit_loop py_lower];
    try discriminate.
  intros _. eexists. reflexivity.
Qed.

Lemma app_reconcile_str s sql :
  App.reconcile_limit (JStr s) sql =
  Ok (if negb (App.mentions_limit (lower s))
      then sub_empty true App.limit_clause sql else sql).
Proof.
  unfold App.reconcile_limit. cbn [py_lower].
  destruct (negb (App.mentions_limit (lower s))); reflexivity.
Qed.

Lemma app_reconcile_total q k sql e :
  App.extract_top_k q = Ok k -> App.reconcile_limit q sql = Raise e -> False.
Proof.
  intros Hk Hr. destruct (app_top_k_is_str _ _ Hk) as [s ->].
  rewrite app_reconcile_str in Hr. discriminate.
Qed.

(** [src/main.py] stops at line 112 whenever it gets that far: neither
    the executor nor the description backend is ever called. *)
Lemma main_stops_at_call W ev :
  In ev (trace_of (Main.handle_query W)) ->
  ev = EvTableInfo \/ exists q k info, ev = EvGenerate q k info.
Proof.
  unfold_run. repeat leaf_split; intros Hin; in_trace Hin; eauto.
Qed.

Lemma main_never_runs W : never_runs (trace_of (Main.handle_query W)).
Proof. unfold_run. repeat leaf_split; reflexivity. Qed.

Lemma main_never_describes W sql summary question :
  ~ In (EvDescribe sql summary question) (trace_of (Main.handle_query W)).
Proof.
  intros Hin. destruct (main_stops_at_call W _ Hin) as [H | (q & k & info & H)];
    discriminate H.
Qed.

Lemma main_never_succeeds W r :
  outcome_of (Main.handle_query W) = Returned r -> success_shape r = false.
Proof.
  unfold_run. repeat leaf_split; intros H; inversion H; reflexivity.
Qed.

End Runs.

(** C9 (both handlers): every request is answered, and the body of the
    answer has a top-level [status] key or a top-level [error] key, never
    both and never neither. *)
Theorem response_has_exactly_one_shape : forall W,
  (exists r, outcome_of (App.handle_query W) = Returned r /\
             xorb (success_shape r) (error_shape r) = true) /\
  (exists r, outcome_of (Main.handle_query W) = Returned r /\
             xorb (success_shape r) (error_shape r) = true).
Proof.
  intros W. split; unfold_run; repeat leaf_split;
    eexists; split; reflexivity.
Qed.

(** C3 ([src/main.py]): once the generation backend has returned a
    string, line 112 calls the string that [extract_sql] returned; the
    [TypeError] reaches the catch-all clause, the answer is the 500
    "Unexpected error" response and the executor is never called.  No
    request at all is answered with the success shape. *)
Theorem main_calls_a_string : forall W,
  (forall question top_k table_info generated,
      In (EvGenerate question top_k table_info) (trace_of (Main.handle_query W)) ->
      invoke_sql_chain W question top_k table_info = Ok generated ->
      outcome_of (Main.handle_query W) =
        Returned (mkResponse 500
          [(txt "error",
            JStr (txt "Unexpected error: 'str' object is not callable"))]) /\
      never_runs (trace_of (Main.handle_query W))) /\
  (forall r, outcome_of (Main.handle_query W) = Returned r ->
             success_shape r = false).
Proof.
  intros W. split.
  - intros question top_k table_info generated. unfold_run.
    repeat leaf_split; intros Hin Hgen; in_trace Hin; try same_call;
      split; reflexivity.
  - apply Runs.main_never_succeeds.
Qed.

Lemma main_calls_a_string_witness :
  outcome_of (Main.handle_query (Demo.world "show top 3 vessels" "SELECT 1" "[(1,), (2,)]")) =
    Returned (mkResponse 500
      [(txt "error", JStr (txt "Unexpected error: 'str' object is not callable"))]) /\
  never_runs (trace_of (Main.handle_query (Demo.world "show top 3 vessels" "SELECT 1" "[(1,), (2,)]"))).
Proof.
  apply (proj1 (main_calls_a_string
                  (Demo.world "show top 3 vessels" "SELECT 1" "[(1,), (2,)]"))
               (JStr (txt "show top 3 vessels")) 3%Z
               (txt "CREATE TABLE vessels (id INTEGER)") (txt "SELECT 1")).
  - vm_compute. right. left. reflexivity.
  - reflexivity.
Defined.

Module Gate.

Lemma extract_is_stripped generated :
  lstrip (App.extract generated) = App.extract generated.
Proof.
  unfold App.extract.
  destruct (search false App.sql_pattern generated); apply TextFacts.lstrip_strip.
Qed.

Lemma looks_like_sql_false s :
  (forall kw, In kw allowed_keywords -> startswith (upper s) kw = false) ->
  App.looks_like_sql s = false.
Proof.
  intros H. unfold App.looks_like_sql.
  destruct (existsb _ _) eqn:E; [|reflexivity].
  apply existsb_exists in E. destruct E as (kw & Hin & Hs).
  rewrite (H kw Hin) in Hs. discriminate.
Qed.

Lemma looks_like_sql_true s kw :
  In kw allowed_keywords -> startswith (upper s) kw = true ->
  App.looks_like_sql s = true.
Proof.
  intros Hin Hs. unfold App.looks_like_sql. apply existsb_exists. eauto.
Qed.

End Gate.

(** C1, amended ([src/app.py]): the validator is a prefix test.  When the
    uppercased candidate begins with none of SELECT, SHOW, DESCRIBE the
    answer is the 400 validation error, with the generated text and the
    candidate attached, and the executor is never called.  When it begins
    with one of them the validation branch is not taken and the executor
    is called on the reconciled statement; this is so in particular when
    the candidate's first whitespace-delimited token, uppercased, is one
    of the three keywords. *)
Theorem validator_is_a_prefix_gate : forall W question top_k table_info generated,
  In (EvGenerate question top_k table_info) (trace_of (App.handle_query W)) ->
  invoke_sql_chain W question top_k table_info = Ok generated ->
  ((forall kw, In kw allowed_keywords ->
               startswith (upper (App.extract generated)) kw = false) ->
   outcome_of (App.handle_query W) =
     Returned (mkResponse 400
       [(txt "error", JStr (txt "Generated query is not valid SQL"));
        (txt "generated_query", JStr generated);
        (txt "sql_query", JStr (App.extract generated))]) /\
   never_runs (trace_of (App.handle_query W))) /\
  ((exists kw, In kw allowed_keywords /\
               startswith (upper (App.extract generated)) kw = true) ->
   exists sql,
     App.reconcile_limit question (App.extract generated) = Ok sql /\
     In (EvRun sql) (trace_of (App.handle_query W))) /\
  (Spec.first_token_allowed (App.extract generated) = true ->
   exists kw, In kw allowed_keywords /\
              startswith (upper (App.extract generated)) kw = true) /\
  (forall W', never_runs (trace_of (Main.handle_query W'))).
Proof.
  intros W question top_k table_info generated Hin Hgen.
  split; [|split; [|split; [|exact Runs.main_never_runs]]].
  - intros Hno. apply Gate.looks_like_sql_false in Hno.
    revert Hin Hgen Hno. unfold_run.
    repeat leaf_split; intros Hin Hgen Hno; in_trace Hin;
      try same_call; try bool_clash; split; reflexivity.
  - intros (kw & Hkw & Hs). pose proof (Gate.looks_like_sql_true _ _ Hkw Hs) as Hyes.
    revert Hin Hgen Hyes. unfold_run.
    repeat leaf_split; intros Hin Hgen Hyes; in_trace Hin;
      try same_call; try bool_clash;
      try (exfalso; eapply Runs.app_reconcile_total; eassumption);
      eexists; (split; [eassumption | cbn [In]; auto]).
  - intros Htok.
    pose proof (TextFacts.first_token_is_prefix _ (Gate.extract_is_stripped generated) Htok) as H.
    unfold App.looks_like_sql in H. apply existsb_exists in H. exact H.
Qed.

Lemma validator_is_a_prefix_gate_witness :
  outcome_of (App.handle_query (Demo.world "list all vessels" "DROP TABLE vessels;" "")) =
    Returned (mkResponse 400
       [(txt "error", JStr (txt "Generated query is not valid SQL"));
        (txt "generated_query", JStr (txt "DROP TABLE vessels;"));
        (txt "sql_query", JStr (App.extract (txt "DROP TABLE vessels;")))]) /\
  never_runs (trace_of (App.handle_query (Demo.world "list all vessels" "DROP TABLE vessels;" ""))).
Proof.
  apply (proj1 (validator_is_a_prefix_gate
                  (Demo.world "list all vessels" "DROP TABLE vessels;" "")
                  (JStr (txt "list all vessels")) 1000%Z
                  (txt "CREATE TABLE vessels (id INTEGER)")
                  (txt "DROP TABLE vessels;")
                  ltac:(vm_compute; right; left; reflexivity) eq_refl)).
  intros kw Hkw. cbn [allowed_keywords In] in Hkw.
  destruct Hkw as [<- | [<- | [<- | []]]]; vm_compute; reflexivity.
Defined.

(** C1 as written fails on [src/app.py]: the first token of the candidate
    [SHOWCASE 1] is not a keyword of the allow-set, yet the request is not
    rejected and the executor runs the statement. *)
Lemma first_token_rule_counterexample :
  let run := App.handle_query (Demo.world "list all vessels" "SHOWCASE 1" "[(1,), (2,)]") in
  App.extract (txt "SHOWCASE 1") = txt "SHOWCASE 1" /\
  Spec.first_token_allowed (txt "SHOWCASE 1") = false /\
  In (EvRun (txt "SHOWCASE 1")) (trace_of run) /\
  exists r, outcome_of run = Returned r /\ status_code r = 200%Z.
Proof.
  vm_compute. repeat split; auto.
  eexists. split; reflexivity.
Qed.

(** C7: in [src/app.py], when the executor raises on the final
    statement, the answer is a 500 whose body carries the error message,
    the raw generated text and the normalized statement that was run.
    [src/main.py] never calls the executor. *)
Theorem execution_failure_echoes_both_queries : forall W,
  (forall sql e,
      In (EvRun sql) (trace_of (App.handle_query W)) ->
      db_run W sql = Raise e ->
      exists question top_k table_info generated,
        In (EvGenerate question top_k table_info) (trace_of (App.handle_query W)) /\
        invoke_sql_chain W question top_k table_info = Ok generated /\
        App.reconcile_limit question (App.extract generated) = Ok sql /\
        outcome_of (App.handle_query W) =
          Returned (mkResponse 500
            [(txt "error", JStr (txt "Error executing query: " ++ exn_msg e));
             (txt "generated_query", JStr generated);
             (txt "sql_query", JStr sql)])) /\
  never_runs (trace_of (Main.handle_query W)).
Proof.
  intros W. split; [|exact (Runs.main_never_runs W)].
  intros sql e. unfold_run.
  repeat leaf_split; intros Hin Hrun; in_trace Hin; same_call.
  all: do 4 eexists; repeat split; try eassumption; cbn [In]; auto.
Qed.

Lemma execution_failure_echoes_both_queries_witness :
  exists question top_k table_info generated,
    In (EvGenerate question top_k table_info)
       (trace_of (App.handle_query (Demo.world_run_fails "list all vessels" "SELECT * FROM boats;"))) /\
    invoke_sql_chain (Demo.world_run_fails "list all vessels" "SELECT * FROM boats;")
                     question top_k table_info = Ok generated /\
    App.reconcile_limit question (App.extract generated) = Ok (txt "SELECT * FROM boats") /\
    outcome_of (App.handle_query (Demo.world_run_fails "list all vessels" "SELECT * FROM boats;")) =
      Returned (mkResponse 500
        [(txt "error", JStr (txt "Error executing query: " ++ txt "relation does not exist"));
         (txt "generated_query", JStr generated);
         (txt "sql_query", JStr (txt "SELECT * FROM boats"))]).
Proof.
  apply (proj1 (execution_failure_echoes_both_queries
                  (Demo.world_run_fails "list all vessels" "SELECT * FROM boats;"))
               (txt "SELECT * FROM boats")
               (mkExn OtherException (txt "relation does not exist"))).
  - vm_compute. right. right. left. reflexivity.
  - reflexivity.
Defined.

(** C6: in [src/app.py], when the description backend raises, the error
    is caught on the spot; the answer is still the 200 success response,
    carrying the rows the executor returned and a placeholder description
    that quotes the error.  In [src/main.py] no query execution ever
    succeeds: neither the executor nor the description backend is
    called. *)
Theorem description_failure_is_absorbed : forall W,
  (forall sql summary question e,
      In (EvDescribe sql summary question) (trace_of (App.handle_query W)) ->
      invoke_description_chain W sql summary question = Raise e ->
      exists top_k table_info generated results,
        invoke_sql_chain W question top_k table_info = Ok generated /\
        In (EvRun sql) (trace_of (App.handle_query W)) /\
        db_run W sql = Ok results /\
        outcome_of (App.handle_query W) =
          Returned (mkResponse 200
            [(txt "status", JStr (txt "success"));
             (txt "original_question", question);
             (txt "generated_query", JStr generated);
             (txt "sql_query", JStr sql);
             (txt "query_results", JStr results);
             (txt "description",
              JStr (txt "Unable to generate description: " ++ exn_msg e))])) /\
  never_runs (trace_of (Main.handle_query W)) /\
  (forall sql summary question,
      ~ In (EvDescribe sql summary question) (trace_of (Main.handle_query W))).
Proof.
  intros W. split;
    [|split; [exact (Runs.main_never_runs W) | exact (Runs.main_never_describes W)]].
  intros sql summary question e. unfold_run.
  repeat leaf_split; intros Hin Hdesc; in_trace Hin; same_call.
  all: do 4 eexists; repeat split; try eassumption; cbn [In]; auto.
Qed.

Lemma description_failure_is_absorbed_witness :
  exists top_k table_info generated results,
    invoke_sql_chain (Demo.world_describe_fails "list all vessels" "SELECT 1" "[(1,), (2,)]")
                     (JStr (txt "list all vessels")) top_k table_info = Ok generated /\
    In (EvRun (txt "SELECT 1"))
       (trace_of (App.handle_query (Demo.world_describe_fails "list all vessels" "SELECT 1" "[(1,), (2,)]"))) /\
    db_run (Demo.world_describe_fails "list all vessels" "SELECT 1" "[(1,), (2,)]")
           (txt "SELECT 1") = Ok results /\
    outcome_of (App.handle_query (Demo.world_describe_fails "list all vessels" "SELECT 1" "[(1,), (2,)]")) =
      Returned (mkResponse 200
        [(txt "status", JStr (txt "success"));
         (txt "original_question", JStr (txt "list all vessels"));
         (txt "generated_query", JStr generated);
         (txt "sql_query", JStr (txt "SELECT 1"));
         (txt "query_results", JStr results);
         (txt "description",
          JStr (txt "Unable to generate description: " ++ txt "rate limit exceeded"))]).
Proof.
  apply (proj1 (description_failure_is_absorbed
                  (Demo.world_describe_fails "list all vessels" "SELECT 1" "[(1,), (2,)]"))
               (txt "SELECT 1") (txt "[(1,), (2,)]") (JStr (txt "list all vessels"))
               (mkExn OtherException (txt "rate limit exceeded"))).
  - vm_compute. do 3 right. left. reflexivity.
  - reflexivity.
Defined.

Module Sampling.

Lemma slice5_raises_type_error v e : slice5 v = Raise e -> exn_cls e = TypeError.
Proof. destruct v; cbn [slice5]; intros H; inversion H; reflexivity. Qed.

Lemma nonempty_length (s : text) : s <> [] -> Nat.eqb (List.length s) 0 = false.
Proof. destruct s; [congruence | reflexivity]. Qed.

(** A literal that is a sequence: the sample is [str] of its first five
    items. *)
Lemma app_summarize_sequence W results v first_rows :
  results <> [] -> literal_eval W results = Ok v -> slice5 v = Ok first_rows ->
  App.summarize W results = Ok (py_str W first_rows).
Proof.
  intros Hne Hv Hs. unfold App.summarize.
  rewrite (nonempty_length _ Hne), Hv, Hs. reflexivity.
Qed.

(** Not a literal at all: the raw text. *)
Lemma app_summarize_raw W results e :
  results <> [] -> literal_eval W results = Raise e ->
  of_class [ValueError; SyntaxError] e = true ->
  App.summarize W results = Ok results.
Proof.
  intros Hne Hv Hc. unfold App.summarize.
  rewrite (nonempty_length _ Hne), Hv, Hc. reflexivity.
Qed.

(** No rows: [str([])]; the text "No results returned." is never used. *)
Lemma app_summarize_empty W : App.summarize W [] = Ok (py_str W (PList [])).
Proof. reflexivity. Qed.

(** A literal that is not a sequence: the [TypeError] of the slice is not
    among the classes the [except] clause names. *)
Lemma app_summarize_escapes W results v e :
  results <> [] -> literal_eval W results = Ok v -> slice5 v = Raise e ->
  App.summarize W results = Raise e.
Proof.
  intros Hne Hv Hs. unfold App.summarize.
  rewrite (nonempty_length _ Hne), Hv, Hs.
  unfold of_class. rewrite (slice5_raises_type_error _ _ Hs). reflexivity.
Qed.

(** [src/main.py] catches every exception of the sampling step. *)
Lemma main_summarize_escapes W results v e :
  results <> [] -> literal_eval W results = Ok v -> slice5 v = Raise e ->
  Main.summarize W results = results.
Proof.
  intros Hne Hv Hs. unfold Main.summarize.
  rewrite Hv, Hs, (nonempty_length _ Hne). reflexivity.
Qed.

End Sampling.



Module Body.

(** What does hold of lines 90-95: a falsy body, or a dict without the
    key, is answered with 400 before any collaborator is called. *)
Lemma app_missing_prompt W data :
  get_json W = Ok data ->
  truthy data = false \/ py_in (txt "prompt") data = Ok false ->
  App.handle_query W =
    ([], Returned (mkResponse 400
           [(txt "error", JStr (txt "Missing 'prompt' in JSON payload"))])).
Proof.
  intros Hd Hcase. unfold_run. rewrite Hd. cbv beta iota zeta.
  destruct (truthy data) eqn:Ht; cbn [negb]; [|reflexivity].
  destruct Hcase as [Hf | Hin]; [discriminate|].
  rewrite Hin. reflexivity.
Qed.

(** When [get_json] itself raises, the catch-all clause answers 500. *)
Lemma app_unreadable_body W e :
  get_json W = Raise e ->
  App.handle_query W =
    ([], Returned (mkResponse 500
           [(txt "error", JStr (txt "Unexpected error: " ++ exn_msg e))])).
Proof. intros Hd. unfold_run. rewrite Hd. reflexivity. Qed.

End Body.

(** C10, the failing case ([src/app.py]): a body that is a JSON number
    other than zero has no ['prompt'] field, but the membership test of
    line 92 raises on it and the answer is 500, not 400.  No collaborator
    is called. *)
Theorem numeric_body_is_answered_500 : forall W z,
  z <> 0%Z ->
  get_json W = Ok (JNum z) ->
  App.handle_query W =
    ([], Returned (mkResponse 500
           [(txt "error",
             JStr (txt "Unexpected error: argument of type 'int' is not iterable"))])).
Proof.
  intros W z Hz Hd. unfold_run. rewrite Hd. cbv beta iota zeta.
  cbn [truthy]. destruct (Z.eqb_spec z 0); [contradiction|]. reflexivity.
Qed.

Lemma numeric_body_is_answered_500_witness :
  App.handle_query (Demo.world_body (JNum 5)) =
    ([], Returned (mkResponse 500
           [(txt "error",
             JStr (txt "Unexpected error: argument of type 'int' is not iterable"))])).
Proof.
  apply (numeric_body_is_answered_500 (Demo.world_body (JNum 5)) 5%Z).
  - lia.
  - reflexivity.
Defined.

Module Removal.

(** The limit clause is never empty, so [re.sub] deletes whole matches
    one after the other. *)
Lemma limit_clause_never_empty s len g :
  match_at true App.limit_clause s = Some (len, g) -> 7 <= len.
Proof. exact (ReFacts.match_at_min_len true App.limit_clause s len g). Qed.

(** A statement in which the pattern finds nothing is left alone. *)
Lemma nothing_to_remove s :
  (forall j, match_at true App.limit_clause (skipn j s) = None) ->
  sub_empty true App.limit_clause s = s.
Proof.
  unfold sub_empty. induction s as [|c s IH]; intros Hnone; [reflexivity|].
  cbn [sub_delete]. rewrite (Hnone 0 : match_at true App.limit_clause (c :: s) = None).
  f_equal. apply IH. intros j. exact (Hnone (S j)).
Qed.

End Removal.

(** C2, the failing case ([src/app.py]): the question has no limit
    keyword, the one pass of [re.sub] deletes the clause [ LIMIT 5] and
    thereby joins [LIM] and [IT 1000]; the statement handed to the
    executor and returned as [sql_query] contains a LIMIT clause. *)
Theorem one_pass_removal_leaves_a_limit_clause :
  let W := Demo.world "list all vessels"
                      "SELECT * FROM vessels LIM LIMIT 5IT 1000" "[(1,), (2,)]" in
  App.mentions_limit (lower (txt "list all vessels")) = false /\
  In (EvRun (txt "SELECT * FROM vessels LIMIT 1000")) (trace_of (App.handle_query W)) /\
  (exists r, outcome_of (App.handle_query W) = Returned r /\
             status_code r = 200%Z /\
             lookup (txt "sql_query") (body r) =
               Some (JStr (txt "SELECT * FROM vessels LIMIT 1000"))) /\
  Spec.has_limit_clause (txt "SELECT * FROM vessels LIMIT 1000") = true.
Proof.
  vm_compute. repeat split; auto.
  eexists. repeat split; reflexivity.
Qed.

Module Scenarios.

(** Section 8: "show top 3 cradles", fenced answer, nothing stripped. *)
Example fenced_limit_kept :
  let W := Demo.world "show top 3 cradles"
            "```sql SELECT * FROM cradles LIMIT 3 ```" "[(1,), (2,)]" in
  exists r, outcome_of (App.handle_query W) = Returned r /\
            status_code r = 200%Z /\
            lookup (txt "sql_query") (body r) =
              Some (JStr (txt "SELECT * FROM cradles LIMIT 3")).
Proof. vm_compute. eexists. repeat split; reflexivity. Qed.

(** Section 8: "list all vessels", the backend's LIMIT is removed. *)
Example unrequested_limit_removed :
  let W := Demo.world "list all vessels"
            "SELECT * FROM vessels LIMIT 1000" "[(1,), (2,)]" in
  exists r, outcome_of (App.handle_query W) = Returned r /\
            lookup (txt "sql_query") (body r) =
              Some (JStr (txt "SELECT * FROM vessels")).
Proof. vm_compute. eexists. repeat split; reflexivity. Qed.

(** Section 8: a DROP statement is rejected before the executor. *)
Example drop_is_rejected :
  let W := Demo.world "list all vessels" "DROP TABLE vessels;" "" in
  exists r, outcome_of (App.handle_query W) = Returned r /\
            status_code r = 400%Z /\
            never_runs (trace_of (App.handle_query W)).
Proof. vm_compute. eexists. repeat split; reflexivity. Qed.

End Scenarios.

(** C5, amended (both handlers; a question is a text of code points
    0 to 255): when the lowercase question reads
    [pre ++ kw ++ ws ++ ds ++ rest], with [kw] a limit keyword, [ws]
    blanks, [ds] a complete run of decimal digits, and no limit phrase
    beginning inside [pre], [top_k] is the integer [ds] in [src/app.py]
    and in [src/main.py], provided [ds] has at most 4300 digits; a longer
    run makes [int] raise a [ValueError] in both, and no [top_k] is
    derived.  When the question names a limit keyword and no limit phrase
    begins anywhere, [top_k] is 10 in [src/app.py] and 1000 in
    [src/main.py]. *)
Theorem limit_hint_of_question :
  (forall q pre kw ws ds rest,
      lower q = pre ++ kw ++ ws ++ ds ++ rest ->
      In kw App.limit_keywords ->
      forallb is_space ws = true ->
      ds <> [] -> forallb is_digit ds = true ->
      Spec.no_digit_ahead rest ->
      (forall i, i < List.length pre -> ~ Spec.limit_phrase_at (skipn i (lower q))) ->
      List.length ds <= 4300 ->
      App.extract_top_k (JStr q) = Ok (Some (int_of_digits ds)) /\
      Main.extract_top_k (JStr q) = Ok (int_of_digits ds)) /\
  (forall q pre kw ws ds rest,
      lower q = pre ++ kw ++ ws ++ ds ++ rest ->
      In kw App.limit_keywords ->
      forallb is_space ws = true ->
      ds <> [] -> forallb is_digit ds = true ->
      Spec.no_digit_ahead rest ->
      (forall i, i < List.length pre -> ~ Spec.limit_phrase_at (skipn i (lower q))) ->
      4300 < List.length ds ->
      exists msg,
        App.extract_top_k (JStr q) = Raise (mkExn ValueError msg) /\
        Main.extract_top_k (JStr q) = Raise (mkExn ValueError msg)) /\
  (forall q,
      App.mentions_limit (lower q) = true ->
      (forall i, ~ Spec.limit_phrase_at (skipn i (lower q))) ->
      App.extract_top_k (JStr q) = Ok (Some 10%Z) /\
      Main.extract_top_k (JStr q) = Ok 1000%Z).
Proof.
  assert (Hint : forall q pre kw ws ds rest,
             lower q = pre ++ kw ++ ws ++ ds ++ rest ->
             In kw App.limit_keywords ->
             forallb is_space ws = true ->
             ds <> [] -> forallb is_digit ds = true ->
             Spec.no_digit_ahead rest ->
             (forall i, i < List.length pre ->
                        ~ Spec.limit_phrase_at (skipn i (lower q))) ->
             App.extract_top_k (JStr q)
             = match py_int ds with Raise e => Raise e | Ok n => Ok (Some n) end /\
             Main.extract_top_k (JStr q) = py_int ds).
  { intros q pre kw ws ds rest Hq Hkw Hws Hne Hds Hrest Hfirst.
    destruct (TopK.search_finds_phrase _ _ _ _ _ _ Hq Hkw Hws Hne Hds Hrest Hfirst)
      as (m & Hm & Hg).
    rewrite TopK.app_top_k_str, TopK.main_top_k_str, Hm, Hg.
    rewrite (TopK.mentions_keyword _ pre kw (ws ++ ds ++ rest) Hq Hkw).
    rewrite Fold.group1_lower in Hg.
    rewrite (Fold.digits_unfolded _ _ Hg Hds). split; reflexivity. }
  split; [|split].
  - intros q pre kw ws ds rest Hq Hkw Hws Hne Hds Hrest Hfirst Hlen.
    destruct (Hint _ _ _ _ _ _ Hq Hkw Hws Hne Hds Hrest Hfirst) as [-> ->].
    rewrite (TopK.py_int_short ds Hlen). split; reflexivity.
  - intros q pre kw ws ds rest Hq Hkw Hws Hne Hds Hrest Hfirst Hlen.
    destruct (Hint _ _ _ _ _ _ Hq Hkw Hws Hne Hds Hrest Hfirst) as [-> ->].
    destruct (TopK.py_int_long ds Hlen) as [msg ->].
    exists msg. split; reflexivity.
  - intros q Hm Hnone.
    rewrite TopK.app_top_k_str, TopK.main_top_k_str, Hm.
    rewrite (TopK.search_finds_nothing _ Hnone). split; reflexivity.
Qed.

Lemma limit_hint_of_question_witness :
  (App.extract_top_k (JStr (txt "show Top 3 cradles")) = Ok (Some (int_of_digits (txt "3"))) /\
   Main.extract_top_k (JStr (txt "show Top 3 cradles")) = Ok (int_of_digits (txt "3"))) /\
  (exists msg,
     App.extract_top_k (JStr (txt "Top " ++ repeat "7"%char 4301))
     = Raise (mkExn ValueError msg) /\
     Main.extract_top_k (JStr (txt "Top " ++ repeat "7"%char 4301))
     = Raise (mkExn ValueError msg)) /\
  (App.extract_top_k (JStr (txt "show top cradles")) = Ok (Some 10%Z) /\
   Main.extract_top_k (JStr (txt "show top cradles")) = Ok 1000%Z).
Proof.
  split; [|split].
  - apply (proj1 limit_hint_of_question (txt "show Top 3 cradles")
             (txt "show ") (txt "top") (txt " ") (txt "3") (txt " cradles")).
    + reflexivity.
    + cbn. tauto.
    + reflexivity.
    + discriminate.
    + reflexivity.
    + reflexivity.
    + apply Limit.no_phrase_before. vm_compute. reflexivity.
    + cbn. lia.
  - apply (proj1 (proj2 limit_hint_of_question)
             (txt "Top " ++ repeat "7"%char 4301)
             [] (txt "top") (txt " ") (repeat "7"%char 4301) []).
    + vm_compute. reflexivity.
    + cbn. tauto.
    + reflexivity.
    + discriminate.
    + vm_compute. reflexivity.
    + exact I.
    + intros i Hi. inversion Hi.
    + rewrite repeat_length. lia.
  - apply (proj2 (proj2 limit_hint_of_question) (txt "show top cradles")).
    + reflexivity.
    + apply Limit.no_phrase_anywhere. vm_compute. reflexivity.
Defined.

(** C5 as written fails twice.  On [src/main.py], "show top cradles"
    names a limit keyword with no integer next to it, and [top_k] is
    1000, not the fallback 10.  In both handlers, a limit keyword
    followed by an integer of 4301 digits gives no [top_k] at all: [int]
    raises the [ValueError] of the interpreter's bound on the length of a
    number. *)
Lemma limit_hint_counterexample :
  (App.mentions_limit (lower (txt "show top cradles")) = true /\
   search false limit_number_pattern (lower (txt "show top cradles")) = None /\
   Main.extract_top_k (JStr (txt "show top cradles")) = Ok 1000%Z /\
   Main.extract_top_k (JStr (txt "show top cradles")) <> Ok 10%Z) /\
  (let q := txt "top " ++ repeat "7"%char 4301 in
   App.extract_top_k (JStr q) <> Ok (Some (int_of_digits (repeat "7"%char 4301))) /\
   Main.extract_top_k (JStr q) <> Ok (int_of_digits (repeat "7"%char 4301)) /\
   exists msg,
     App.extract_top_k (JStr q) = Raise (mkExn ValueError msg) /\
     Main.extract_top_k (JStr q) = Raise (mkExn ValueError msg)).
Proof.
  split.
  - vm_compute. repeat split; discriminate.
  - assert (H : exists msg,
               App.extract_top_k (JStr (txt "top " ++ repeat "7"%char 4301))
               = Raise (mkExn ValueError msg) /\
               Main.extract_top_k (JStr (txt "top " ++ repeat "7"%char 4301))
               = Raise (mkExn ValueError msg)).
    { eexists. split; vm_compute; reflexivity. }
    destruct H as (msg & Ha & Hm). cbv zeta.
    split; [rewrite Ha; discriminate|].
    split; [rewrite Hm; discriminate|].
    exists msg. split; assumption.
Qed.

(** C4, amended ([src/app.py]): when the text reads
    [pre ++ "```sql" ++ body ++ "```" ++ post], the opening marker being
    the first one and [body] holding no closing marker, the result is
    [body] trimmed, and no fence marker remains in it; nothing else is
    removed, a trailing semicolon inside the fence stays.  When the text
    has no such fence, the result is the trimmed text, less a leading
    "SQLQuery:" and the blanks after it, less every trailing semicolon,
    trimmed again. *)
Theorem extract_follows_the_fence_or_the_text : forall generated,
  (forall pre body post,
      generated = pre ++ txt "```sql" ++ body ++ txt "```" ++ post ->
      contains (pre ++ txt "```sq") (txt "```sql") = false ->
      contains (body ++ txt "``") (txt "```") = false ->
      App.extract generated = strip body /\
      contains (App.extract generated) (txt "```") = false) /\
  ((forall pre body post,
       generated <> pre ++ txt "```sql" ++ body ++ txt "```" ++ post) ->
   App.extract generated =
     let candidate := strip generated in
     let candidate :=
       if startswith candidate (txt "SQLQuery:")
       then strip (skipn 9 candidate) else candidate in
     strip (rstrip_chars (txt ";") candidate)) /\
  (forall s n,
      rstrip_chars (txt ";") (s ++ repeat ";"%char n) = rstrip_chars (txt ";") s).
Proof.
  intros generated. split; [|split].
  - intros pre body post -> Hpre Hbody.
    destruct (Extract.search_fenced pre body post Hpre Hbody) as (m & Hm & Hg).
    unfold App.extract. rewrite Hm, Hg, StripFacts.strip_idem.
    split; [reflexivity|].
    destruct (StripFacts.rstrip_split (lstrip body)) as (trail & Hsplit & _).
    fold (strip body) in Hsplit.
    apply (Extract.contains_part (takewhile is_space body) _ (trail ++ txt "``")).
    rewrite (app_assoc (strip body) trail), <- Hsplit.
    rewrite app_assoc, <- StripFacts.lstrip_split. exact Hbody.
  - intros Hno. unfold App.extract.
    rewrite (Extract.search_unfenced _ Hno). reflexivity.
  - apply Extract.rstrip_all_semicolons.
Qed.

Lemma extract_follows_the_fence_or_the_text_witness :
  App.extract (txt "```sql SELECT 1; ```") = strip (txt " SELECT 1; ") /\
  contains (App.extract (txt "```sql SELECT 1; ```")) (txt "```") = false.
Proof.
  apply (proj1 (extract_follows_the_fence_or_the_text (txt "```sql SELECT 1; ```"))
               [] (txt " SELECT 1; ") []); reflexivity.
Defined.

(** C4 as written fails on [src/app.py]: in the fenced branch the
    semicolon is kept, and in the other branch two trailing semicolons
    are both removed, where the rule of the specification removes exactly
    one in either branch.  [src/main.py] only knows fences that hold a
    SELECT, and keeps the semicolon that ends a bare SELECT. *)
Lemma terminator_rule_counterexample :
  App.extract (txt "```sql SELECT 1; ```") = txt "SELECT 1;" /\
  Spec.extract_spec (txt "```sql SELECT 1; ```") = txt "SELECT 1" /\
  App.extract (txt "SELECT 1;;") = txt "SELECT 1" /\
  Spec.extract_spec (txt "SELECT 1;;") = txt "SELECT 1;" /\
  Main.extract_sql (txt "```sql SHOW TABLES ```") = txt "```sql SHOW TABLES ```" /\
  Main.extract_sql (txt "SELECT 1;") = txt "SELECT 1;".
Proof. vm_compute. repeat split. Qed.

(* ===================================================================== *)
(** ** Further properties of the handlers *)
(* ===================================================================== *)

(** X1 ([src/app.py], lines 113-125 and 200-204): when the generation
    chain raises, the answer is a 500 and the executor is never called;
    the message is "Error generating query: Missing key ..." when the
    exception is a [KeyError] and "Unexpected error: ..." otherwise.  The
    same holds when [db.get_table_info] raises while the chain's input is
    being built. *)
Theorem generation_failure_is_reported : forall W,
  (forall question top_k table_info e,
      In (EvGenerate question top_k table_info) (trace_of (App.handle_query W)) ->
      invoke_sql_chain W question top_k table_info = Raise e ->
      outcome_of (App.handle_query W) =
        Returned (mkResponse 500
          [(txt "error",
            JStr (if of_class [KeyError] e
                  then txt "Error generating query: Missing key " ++ exn_msg e
                  else txt "Unexpected error: " ++ exn_msg e))]) /\
      never_runs (trace_of (App.handle_query W))) /\
  (forall e,
      In EvTableInfo (trace_of (App.handle_query W)) ->
      get_table_info W = Raise e ->
      App.handle_query W =
        ([EvTableInfo],
         Returned (mkResponse 500
          [(txt "error",
            JStr (if of_class [KeyError] e
                  then txt "Error generating query: Missing key " ++ exn_msg e
                  else txt "Unexpected error: " ++ exn_msg e))]))).
Proof.
  intros W. split.
  - intros question top_k table_info e. unfold_run.
    repeat leaf_split; intros Hin Hgen; in_trace Hin; try same_call;
      try congruence; split; reflexivity.
  - intros e. unfold_run.
    repeat leaf_split; intros Hin Hinfo; in_trace Hin; try same_call;
      try congruence; reflexivity.
Qed.

Lemma generation_failure_is_reported_witness :
  let W := mkEnv (Demo.question "list all vessels")
                 (Ok (txt "CREATE TABLE vessels (id INTEGER)"))
                 (fun _ _ _ => Raise (mkExn KeyError (txt "'dialect'")))
                 (fun _ => Ok (txt ""))
                 (fun _ _ _ => Ok (txt ""))
                 Demo.eval_table Demo.str_table in
  outcome_of (App.handle_query W) =
    Returned (mkResponse 500
      [(txt "error", JStr (txt "Error generating query: Missing key 'dialect'"))]) /\
  never_runs (trace_of (App.handle_query W)).
Proof.
  intros W.
  apply (proj1 (generation_failure_is_reported W)
               (JStr (txt "list all vessels")) 1000%Z
               (txt "CREATE TABLE vessels (id INTEGER)")
               (mkExn KeyError (txt "'dialect'"))).
  - vm_compute. right. left. reflexivity.
  - reflexivity.
Defined.

(** X2 (lines 97-120 of [src/app.py], 96-111 of [src/main.py]): whenever
    the generation chain is called, it is given the value stored under
    ['prompt'] in the body, the schema text [db.get_table_info] has just
    returned, and the row cap: in [src/app.py] the number found in the
    question, 10 for a bare limit keyword and 1000 when no limit is asked
    for; in [src/main.py] the result of its own search. *)
Theorem chain_receives_cap_and_schema : forall W question top_k table_info,
  (In (EvGenerate question top_k table_info) (trace_of (App.handle_query W)) ->
   get_table_info W = Ok table_info /\
   (exists data, get_json W = Ok data /\
                 py_getitem data (txt "prompt") = Ok question) /\
   exists hint, App.extract_top_k question = Ok hint /\
                top_k = match hint with Some k => k | None => 1000%Z end) /\
  (In (EvGenerate question top_k table_info) (trace_of (Main.handle_query W)) ->
   get_table_info W = Ok table_info /\
   (exists data, get_json W = Ok data /\
                 py_getitem data (txt "prompt") = Ok question) /\
   Main.extract_top_k question = Ok top_k).
Proof.
  intros W question top_k table_info. split; unfold_run;
    repeat leaf_split; intros Hin; in_trace Hin; eauto 8.
Qed.

Lemma chain_receives_cap_and_schema_witness :
  let W := Demo.world "show top 3 vessels" "SELECT 1" "[(1,), (2,)]" in
  get_table_info W = Ok (txt "CREATE TABLE vessels (id INTEGER)") /\
  (exists data, get_json W = Ok data /\
                py_getitem data (txt "prompt") = Ok (JStr (txt "show top 3 vessels"))) /\
  exists hint, App.extract_top_k (JStr (txt "show top 3 vessels")) = Ok hint /\
               3%Z = match hint with Some k => k | None => 1000%Z end.
Proof.
  intros W.
  apply (proj1 (chain_receives_cap_and_schema W (JStr (txt "show top 3 vessels")) 3%Z
                  (txt "CREATE TABLE vessels (id INTEGER)"))).
  vm_compute. right. left. reflexivity.
Defined.

(** X3 (both handlers): the collaborators are called in pipeline order
    and at most once each: the trace of a request is an initial part of
    "schema, generate, run, describe", the statement described is the
    statement that was run and the question is the one the chain got.
    [src/main.py] never gets past "generate". *)
Theorem calls_follow_the_pipeline : forall W,
  (exists n question top_k table_info sql summary,
      trace_of (App.handle_query W) =
      firstn n [EvTableInfo; EvGenerate question top_k table_info;
                EvRun sql; EvDescribe sql summary question]) /\
  (exists n question top_k table_info,
      trace_of (Main.handle_query W) =
      firstn n [EvTableInfo; EvGenerate question top_k table_info]).
Proof.
  intros W. split; unfold_run; repeat leaf_split;
    first
      [ exists 0, JNull, 0%Z, [], [], []; reflexivity
      | exists 1, JNull, 0%Z, [], [], []; reflexivity
      | exists 2; do 3 eexists; exists [], []; reflexivity
      | exists 3; do 4 eexists; exists []; reflexivity
      | exists 4; do 5 eexists; reflexivity
      | exists 0, JNull, 0%Z, []; reflexivity
      | exists 1, JNull, 0%Z, []; reflexivity
      | exists 2; do 3 eexists; reflexivity ].
Qed.

(** X4 (line 104 of [src/app.py], line 101 of [src/main.py]): when the
    body holds something other than a string under ['prompt'], no
    collaborator is called and the answer is the 500 "Unexpected error":
    [src/app.py] fails on [.lower()], [src/main.py] inside [re.search]. *)
Theorem prompt_that_is_no_string : forall W data value,
  get_json W = Ok data ->
  py_getitem data (txt "prompt") = Ok value ->
  (forall s, value <> JStr s) ->
  App.handle_query W =
    ([], Returned (mkResponse 500
           [(txt "error",
             JStr (txt "Unexpected error: '" ++ type_name value
                   ++ txt "' object has no attribute 'lower'"))])) /\
  Main.handle_query W =
    ([], Returned (mkResponse 500
           [(txt "error",
             JStr (txt "Unexpected error: expected string or bytes-like object, got '"
                   ++ type_name value ++ txt "'"))])).
Proof.
  intros W data value Hd Hv Hns.
  assert (Hobj : exists kvs, data = JObj kvs /\ lookup (txt "prompt") kvs = Some value).
  { destruct data; cbn [py_getitem] in Hv; try discriminate.
    destruct (lookup (txt "prompt") kvs) eqn:E; [|discriminate].
    inversion Hv; subst. eauto. }
  destruct Hobj as (kvs & -> & Hl).
  assert (Ht : truthy (JObj kvs) = true) by (destruct kvs; [discriminate | reflexivity]).
  assert (Hin : py_in (txt "prompt") (JObj kvs) = Ok true)
    by (cbn [py_in]; rewrite Hl; reflexivity).
  unfold_run. rewrite Hd. cbv beta iota zeta. rewrite Ht, Hin. cbn [negb].
  cbv beta iota zeta. rewrite Hv. cbv beta iota zeta.
  destruct value; try (exfalso; eapply Hns; reflexivity); split; reflexivity.
Qed.

Lemma prompt_that_is_no_string_witness :
  App.handle_query (Demo.world_body (JObj [(txt "prompt", JNum 5)])) =
    ([], Returned (mkResponse 500
           [(txt "error",
             JStr (txt "Unexpected error: '" ++ type_name (JNum 5)
                   ++ txt "' object has no attribute 'lower'"))])) /\
  Main.handle_query (Demo.world_body (JObj [(txt "prompt", JNum 5)])) =
    ([], Returned (mkResponse 500
           [(txt "error",
             JStr (txt "Unexpected error: expected string or bytes-like object, got '"
                   ++ type_name (JNum 5) ++ txt "'"))])).
Proof.
  apply (prompt_that_is_no_string (Demo.world_body (JObj [(txt "prompt", JNum 5)]))
           (JObj [(txt "prompt", JNum 5)]) (JNum 5)).
  - reflexivity.
  - reflexivity.
  - discriminate.
Defined.

(** X5 (lines 153-159 of [src/app.py]): when the question names a limit
    keyword, the statement handed to the executor is the extracted
    candidate itself; whatever LIMIT clause the backend wrote is left in
    place. *)
Theorem requested_limit_is_kept : forall W q top_k table_info generated sql,
  In (EvGenerate (JStr q) top_k table_info) (trace_of (App.handle_query W)) ->
  invoke_sql_chain W (JStr q) top_k table_info = Ok generated ->
  In (EvRun sql) (trace_of (App.handle_query W)) ->
  App.mentions_limit (lower q) = true ->
  sql = App.extract generated.
Proof.
  intros W q top_k table_info generated sql. unfold_run.
  repeat leaf_split; intros Hgen Hinv Hrun Hm; in_trace Hgen; in_trace Hrun;
    same_call.
  all: match goal with H : App.reconcile_limit _ _ = Ok _ |- _ =>
         rewrite Runs.app_reconcile_str, Hm in H; inversion H; reflexivity end.
Qed.

Lemma requested_limit_is_kept_witness :
  txt "SELECT * FROM vessels LIMIT 3" = App.extract (txt "SELECT * FROM vessels LIMIT 3;").
Proof.
  apply (requested_limit_is_kept
           (Demo.world "show top 3 vessels" "SELECT * FROM vessels LIMIT 3;" "[(1,), (2,)]")
           (txt "show top 3 vessels") 3%Z
           (txt "CREATE TABLE vessels (id INTEGER)")
           (txt "SELECT * FROM vessels LIMIT 3;")
           (txt "SELECT * FROM vessels LIMIT 3")).
  - vm_compute. right. left. reflexivity.
  - reflexivity.
  - vm_compute. right. right. left. reflexivity.
  - reflexivity.
Defined.

(** X6 (lines 157-198 of [src/app.py]): when the description backend
    answers, the request is answered 200 with all six fields; the four
    collaborators were called once each, the description prompt was given
    the statement that was run and the sample of its rows, and
    [query_results] is the executor's text as it came, not the sample. *)
Theorem success_carries_the_raw_rows : forall W sql summary question description,
  In (EvDescribe sql summary question) (trace_of (App.handle_query W)) ->
  invoke_description_chain W sql summary question = Ok description ->
  exists top_k table_info generated results,
    invoke_sql_chain W question top_k table_info = Ok generated /\
    db_run W sql = Ok results /\
    App.summarize W results = Ok summary /\
    App.handle_query W =
      ([EvTableInfo; EvGenerate question top_k table_info; EvRun sql;
        EvDescribe sql summary question],
       Returned (mkResponse 200
        [(txt "status", JStr (txt "success"));
         (txt "original_question", question);
         (txt "generated_query", JStr generated);
         (txt "sql_query", JStr sql);
         (txt "query_results", JStr results);
         (txt "description", JStr description)])).
Proof.
  intros W sql summary question description. unfold_run.
  repeat leaf_split; intros Hin Hdesc; in_trace Hin; same_call.
  all: do 4 eexists; repeat split; eassumption.
Qed.

Lemma success_carries_the_raw_rows_witness :
  let W := Demo.world "list all vessels" "SELECT 1" "[(1,), (2,)]" in
  exists top_k table_info generated results,
    invoke_sql_chain W (JStr (txt "list all vessels")) top_k table_info = Ok generated /\
    db_run W (txt "SELECT 1") = Ok results /\
    App.summarize W results = Ok (txt "[(1,), (2,)]") /\
    App.handle_query W =
      ([EvTableInfo; EvGenerate (JStr (txt "list all vessels")) top_k table_info;
        EvRun (txt "SELECT 1");
        EvDescribe (txt "SELECT 1") (txt "[(1,), (2,)]") (JStr (txt "list all vessels"))],
       Returned (mkResponse 200
        [(txt "status", JStr (txt "success"));
         (txt "original_question", JStr (txt "list all vessels"));
         (txt "generated_query", JStr generated);
         (txt "sql_query", JStr (txt "SELECT 1"));
         (txt "query_results", JStr results);
         (txt "description", JStr (txt "Two vessels."))])).
Proof.
  intros W.
  apply (success_carries_the_raw_rows W (txt "SELECT 1") (txt "[(1,), (2,)]")
           (JStr (txt "list all vessels")) (txt "Two vessels.")).
  - vm_compute. do 3 right. left. reflexivity.
  - reflexivity.
Defined.

(** X7 (both handlers): the HTTP status is 200, 400 or 500, and in
    [src/app.py] it is 200 exactly when the body has the success shape;
    [src/main.py] never answers 200. *)
Theorem status_code_matches_shape : forall W,
  (exists r, outcome_of (App.handle_query W) = Returned r /\
             (status_code r = 200%Z \/ status_code r = 400%Z \/ status_code r = 500%Z) /\
             success_shape r = Z.eqb (status_code r) 200) /\
  (exists r, outcome_of (Main.handle_query W) = Returned r /\
             (status_code r = 400%Z \/ status_code r = 500%Z)).
Proof.
  intros W. split; unfold_run; repeat leaf_split;
    eexists; (split; [reflexivity|]); cbn; auto.
Qed.

(** X8 (lines 91-95 of [src/app.py], 92-94 of [src/main.py]): a body
    that is falsy (null, false, 0, an empty string, list or object) or in
    which the membership test finds no ['prompt'] is answered 400 with
    the handler's "Missing 'prompt'" message before any collaborator is
    called. *)
Theorem missing_prompt_is_answered_400 : forall W data,
  get_json W = Ok data ->
  truthy data = false \/ py_in (txt "prompt") data = Ok false ->
  App.handle_query W =
    ([], Returned (mkResponse 400
           [(txt "error", JStr (txt "Missing 'prompt' in JSON payload"))])) /\
  Main.handle_query W =
    ([], Returned (mkResponse 400
           [(txt "error", JStr (txt "Missing 'prompt' in JSON"))])).
Proof.
  intros W data Hd Hcase. unfold_run. rewrite Hd. cbv beta iota zeta.
  destruct (truthy data) eqn:Ht; cbn [negb]; [|split; reflexivity].
  destruct Hcase as [Hf | Hin]; [discriminate|].
  rewrite Hin. split; reflexivity.
Qed.

Lemma missing_prompt_is_answered_400_witness :
  App.handle_query (Demo.world_body (JObj [(txt "question", JStr (txt "list all vessels"))])) =
    ([], Returned (mkResponse 400
           [(txt "error", JStr (txt "Missing 'prompt' in JSON payload"))])) /\
  Main.handle_query (Demo.world_body (JObj [(txt "question", JStr (txt "list all vessels"))])) =
    ([], Returned (mkResponse 400
           [(txt "error", JStr (txt "Missing 'prompt' in JSON"))])).
Proof.
  apply (missing_prompt_is_answered_400
           (Demo.world_body (JObj [(txt "question", JStr (txt "list all vessels"))]))
           (JObj [(txt "question", JStr (txt "list all vessels"))])).
  - reflexivity.
  - right. reflexivity.
Defined.

(* ===================================================================== *)
(** ** Where a match can begin *)
(* ===================================================================== *)

Module Reach.

Section Offsets.
Variable R : Type.

Lemma star_greedy_reaches p s : forall n (k : nat -> text -> option R) x,
  star_greedy p s n k = Some x ->
  exists i, i <= List.length s /\ k (n + i) (skipn i s) = Some x.
Proof.
  induction s as [|c s IH]; intros n k x; cbn [star_greedy].
  - intros H. exists 0. rewrite Nat.add_0_r. split; [cbn; lia | exact H].
  - destruct (p c).
    + destruct (star_greedy p s (S n) k) eqn:E.
      * intros H. inversion H; subst.
        destruct (IH _ _ _ E) as (i & Hi & Hk).
        exists (S i). rewrite Nat.add_succ_r. split; [cbn; lia | exact Hk].
      * intros H. exists 0. rewrite Nat.add_0_r. split; [cbn; lia | exact H].
    + intros H. exists 0. rewrite Nat.add_0_r. split; [cbn; lia | exact H].
Qed.

Lemma star_lazy_reaches p s : forall n (k : nat -> text -> option R) x,
  star_lazy p s n k = Some x ->
  exists i, i <= List.length s /\ k (n + i) (skipn i s) = Some x.
Proof.
  induction s as [|c s IH]; intros n k x; cbn [star_lazy].
  - destruct (k n []) eqn:E; [|discriminate].
    intros H. inversion H; subst. exists 0. rewrite Nat.add_0_r. split; [cbn; lia | exact E].
  - destruct (k n (c :: s)) eqn:E.
    + intros H. inversion H; subst. exists 0. rewrite Nat.add_0_r.
      split; [cbn; lia | exact E].
    + destruct (p c); [|discriminate].
      intros H. destruct (IH _ _ _ H) as (i & Hi & Hk).
      exists (S i). rewrite Nat.add_succ_r. split; [cbn; lia | exact Hk].
Qed.

(** Whatever lets a pattern succeed is handed the text that follows the
    characters the pattern consumed. *)
Lemma run_reaches ic r : forall n s g (k : nat -> text -> span -> option R) x,
  run ic r n s g k = Some x ->
  exists i g', i <= List.length s /\ min_len r <= i /\
               k (n + i) (skipn i s) g' = Some x.
Proof.
  induction r as [| p | cl | r1 IH1 r2 IH2 | r1 IH1 r2 IH2 | cl | cl | r' IH];
    intros n s g k x; cbn [run min_len].
  - intros H. exists 0, g. rewrite Nat.add_0_r. repeat split; [lia | lia | exact H].
  - destruct s as [|c s]; [discriminate|].
    destruct (chr_match ic p c); [|discriminate].
    intros H. exists 1, g. rewrite Nat.add_1_r. repeat split; [cbn; lia | lia | exact H].
  - destruct s as [|c s]; [discriminate|].
    destruct (in_class cl c); [|discriminate].
    intros H. exists 1, g. rewrite Nat.add_1_r. repeat split; [cbn; lia | lia | exact H].
  - intros H. destruct (IH1 _ _ _ _ _ H) as (i1 & g1 & Hl1 & Hm1 & H1).
    destruct (IH2 _ _ _ _ _ H1) as (i2 & g2 & Hl2 & Hm2 & H2).
    rewrite length_skipn in Hl2.
    exists (i2 + i1), g2. repeat split; [lia | lia |].
    replace (n + (i2 + i1)) with (n + i1 + i2) by lia.
    rewrite <- skipn_skipn. exact H2.
  - destruct (run ic r1 n s g k) eqn:E.
    + intros H. inversion H; subst.
      destruct (IH1 _ _ _ _ _ E) as (i & g' & Hl & Hm & Hk).
      exists i, g'. repeat split; [lia | lia | exact Hk].
    + intros H. destruct (IH2 _ _ _ _ _ H) as (i & g' & Hl & Hm & Hk).
      exists i, g'. repeat split; [lia | lia | exact Hk].
  - intros H. destruct (star_greedy_reaches _ _ _ _ _ H) as (i & Hi & Hk).
    exists i, g. repeat split; [lia | lia | exact Hk].
  - intros H. destruct (star_lazy_reaches _ _ _ _ _ H) as (i & Hi & Hk).
    exists i, g. repeat split; [lia | lia | exact Hk].
  - intros H. destruct (IH _ _ _ _ _ H) as (i & g' & Hl & Hm & Hk).
    exists i, (Some (n, n + i)). repeat split; [lia | lia | exact Hk].
Qed.

End Offsets.

(** Under [re.I] a literal matches where its lowercase form heads the
    lowercase text. *)
Lemma lit_match_fold w : forall s,
  Scan.lit_match true w s = startswith (lower s) (lower w).
Proof.
  induction w as [|p w IH]; intros s; [destruct s; reflexivity|].
  destruct s as [|c s]; [reflexivity|].
  cbn [lower map Scan.lit_match chr_match startswith]. rewrite IH. reflexivity.
Qed.

End Reach.

(* ===================================================================== *)
(** ** Normalisation and validation, further *)
(* ===================================================================== *)

Module Untouched.

(** A match of the limit clause has the word LIMIT, in some case, in it. *)
Lemma limit_clause_needs_the_word s x :
  match_at true App.limit_clause s = Some x ->
  exists i, startswith (skipn i (lower s)) (txt "limit") = true.
Proof.
  unfold match_at, App.limit_clause.
  rewrite ReFacts.run_Seq, ReFacts.run_Star. intros H.
  destruct (Reach.star_greedy_reaches _ _ _ _ _ _ H) as (i & _ & Hk).
  rewrite ReFacts.run_Seq, ReFacts.run_Lit in Hk.
  destruct (Scan.lit_match true (txt "LIMIT") (skipn i s)) eqn:E; [|discriminate].
  exists i. rewrite Reach.lit_match_fold in E.
  rewrite Fold.skipn_lower. exact E.
Qed.

Lemma no_word_no_match s :
  contains (lower s) (txt "limit") = false ->
  forall j, match_at true App.limit_clause (skipn j s) = None.
Proof.
  intros Hc j.
  destruct (match_at true App.limit_clause (skipn j s)) eqn:E; [|reflexivity].
  destruct (limit_clause_needs_the_word _ _ E) as (i & Hi).
  rewrite <- Fold.skipn_lower, skipn_skipn in Hi.
  rewrite (ListFacts.contains_false_at _ _ Hc) in Hi. discriminate.
Qed.

End Untouched.

(** X9 (line 155 of [src/app.py]), for a statement made of code points
    0 to 255: when its lowercase form does not contain the word "limit",
    it comes out of the removal step unchanged.  A statement with a
    character beyond that range is not covered: [re.IGNORECASE] takes the
    dotless i of Turkish for an i, which [str.lower] does not. *)
Theorem statement_without_limit_is_untouched : forall s,
  contains (lower s) (txt "limit") = false ->
  sub_empty true App.limit_clause s = s.
Proof.
  intros s Hc. apply Removal.nothing_to_remove.
  apply Untouched.no_word_no_match. exact Hc.
Qed.

Lemma statement_without_limit_is_untouched_witness :
  sub_empty true App.limit_clause (txt "SELECT name FROM vessels WHERE id = 10")
  = txt "SELECT name FROM vessels WHERE id = 10".
Proof.
  apply (statement_without_limit_is_untouched (txt "SELECT name FROM vessels WHERE id = 10")).
  reflexivity.
Defined.

Module Blank.

Lemma dropwhile_all p (s : text) : forallb p s = true -> dropwhile p s = [].
Proof.
  induction s as [|c s IH]; [reflexivity|].
  cbn [forallb dropwhile]. intros H. apply andb_prop in H. destruct H as [-> H].
  exact (IH H).
Qed.

Lemma strip_blank s : forallb is_space s = true -> strip s = [].
Proof. intros H. unfold strip, lstrip. rewrite (dropwhile_all _ _ H). reflexivity. Qed.

Lemma blank_has_no_fence g pre body post :
  forallb is_space g = true ->
  g <> pre ++ txt "```sql" ++ body ++ txt "```" ++ post.
Proof.
  intros Hg ->. rewrite forallb_app in Hg. apply andb_prop in Hg.
  destruct Hg as [_ Hg]. cbn in Hg. discriminate.
Qed.

Lemma extract_blank g : forallb is_space g = true -> App.extract g = [].
Proof.
  intros Hg. unfold App.extract.
  rewrite (Extract.search_unfenced g (fun pre body post => blank_has_no_fence g pre body post Hg)).
  rewrite (strip_blank _ Hg). reflexivity.
Qed.

End Blank.

(** X10 (lines 129-151 of [src/app.py]): when the generation chain
    returns nothing but blanks, the candidate is the empty string, the
    answer is the 400 validation error and the executor is never
    called. *)
Theorem blank_answer_is_rejected : forall W question top_k table_info generated,
  In (EvGenerate question top_k table_info) (trace_of (App.handle_query W)) ->
  invoke_sql_chain W question top_k table_info = Ok generated ->
  forallb is_space generated = true ->
  outcome_of (App.handle_query W) =
    Returned (mkResponse 400
      [(txt "error", JStr (txt "Generated query is not valid SQL"));
       (txt "generated_query", JStr generated);
       (txt "sql_query", JStr [])]) /\
  never_runs (trace_of (App.handle_query W)).
Proof.
  intros W question top_k table_info generated Hin Hgen Hb.
  assert (Hl : App.looks_like_sql (App.extract generated) = false)
    by (rewrite (Blank.extract_blank _ Hb); reflexivity).
  pose proof (Blank.extract_blank _ Hb) as He.
  revert Hin Hgen Hl. unfold_run.
  repeat leaf_split; intros Hin Hgen Hl; in_trace Hin; try same_call;
    try bool_clash; rewrite He; split; reflexivity.
Qed.

Lemma blank_answer_is_rejected_witness :
  let W := Demo.world "list all vessels" "   " "" in
  outcome_of (App.handle_query W) =
    Returned (mkResponse 400
      [(txt "error", JStr (txt "Generated query is not valid SQL"));
       (txt "generated_query", JStr (txt "   "));
       (txt "sql_query", JStr [])]) /\
  never_runs (trace_of (App.handle_query W)).
Proof.
  intros W.
  apply (blank_answer_is_rejected W (JStr (txt "list all vessels")) 1000%Z
           (txt "CREATE TABLE vessels (id INTEGER)") (txt "   ")).
  - vm_compute. right. left. reflexivity.
  - reflexivity.
  - reflexivity.
Defined.

(** X11 (lines 129-141 of [src/app.py], 58-68 of [src/main.py]): what
    either extractor returns has no blank at its head or at its end:
    trimming it again changes nothing. *)
Theorem extractors_return_trimmed_text : forall generated,
  strip (App.extract generated) = App.extract generated /\
  strip (Main.extract_sql generated) = Main.extract_sql generated.
Proof.
  intros generated. unfold App.extract, Main.extract_sql. split.
  - destruct (search false App.sql_pattern generated); apply StripFacts.strip_idem.
  - destruct (search true Main.fenced_select generated);
      [apply StripFacts.strip_idem|].
    destruct (search true Main.first_select generated); apply StripFacts.strip_idem.
Qed.

Module Case.

Lemma upper_lower_char c : upper_char (lower_char c) = upper_char c.
Proof. by_code c. Qed.

Lemma upper_upper_char c : upper (upper_char c) = upper_char c.
Proof. by_code c. Qed.

Lemma upper_lower s : upper (lower s) = upper s.
Proof.
  unfold upper, lower. induction s as [|c s IH]; [reflexivity|].
  cbn [map flat_map]. rewrite upper_lower_char, IH. reflexivity.
Qed.

Lemma upper_upper s : upper (upper s) = upper s.
Proof.
  induction s as [|c s IH]; [reflexivity|].
  change (upper (c :: s)) with (upper_char c ++ upper s).
  rewrite TextFacts.upper_app, upper_upper_char, IH. reflexivity.
Qed.

End Case.

(** X12 (line 146 of [src/app.py], line 116 of [src/main.py]): the
    validator does not look at letter case: a statement, its lowercase
    form and its uppercase form are accepted or rejected alike, and the
    two handlers apply the same test. *)
Theorem validator_ignores_case : forall s,
  App.looks_like_sql (lower s) = App.looks_like_sql s /\
  App.looks_like_sql (upper s) = App.looks_like_sql s /\
  Main.looks_like_sql s = App.looks_like_sql s.
Proof.
  intros s. unfold App.looks_like_sql, Main.looks_like_sql.
  rewrite Case.upper_lower, Case.upper_upper. repeat split.
Qed.

(** X21 (lines 170-184 of [src/app.py]): what the description prompt is
    given as [query_results] is a sample of what the executor returned:
    [str([])] when it returned the empty string, the [str] of the first
    five rows when its text is the literal of a list, and the text
    itself when it is no literal at all. *)
Theorem description_prompt_gets_five_rows_at_most :
  forall W sql summary question,
  In (EvDescribe sql summary question) (trace_of (App.handle_query W)) ->
  exists results,
    db_run W sql = Ok results /\
    (results = [] -> summary = py_str W (PList [])) /\
    (forall rows, results <> [] -> literal_eval W results = Ok (PList rows) ->
                  summary = py_str W (PList (firstn 5 rows))) /\
    (forall e, results <> [] -> literal_eval W results = Raise e ->
               of_class [ValueError; SyntaxError] e = true ->
               summary = results).
Proof.
  intros W sql summary question Hin.
  assert (H : exists results,
             db_run W sql = Ok results /\ App.summarize W results = Ok summary).
  { revert Hin. unfold_run. repeat leaf_split; intros Hin; in_trace Hin.
    all: eexists; split; eassumption. }
  destruct H as (results & Hrun & Hsum). exists results.
  split; [exact Hrun|]. split; [|split].
  - intros ->. rewrite Sampling.app_summarize_empty in Hsum. congruence.
  - intros rows Hne Hv.
    rewrite (Sampling.app_summarize_sequence W results _ _ Hne Hv eq_refl) in Hsum.
    congruence.
  - intros e Hne Hv Hc.
    rewrite (Sampling.app_summarize_raw W results e Hne Hv Hc) in Hsum. congruence.
Qed.

Lemma description_prompt_gets_five_rows_at_most_witness :
  let W := Demo.world "list all vessels" "SELECT 1" "[(1,), (2,)]" in
  let summary := txt "[(1,), (2,)]" in
  exists results,
    db_run W (txt "SELECT 1") = Ok results /\
    (results = [] -> summary = py_str W (PList [])) /\
    (forall rows, results <> [] -> literal_eval W results = Ok (PList rows) ->
                  summary = py_str W (PList (firstn 5 rows))) /\
    (forall e, results <> [] -> literal_eval W results = Raise e ->
               of_class [ValueError; SyntaxError] e = true ->
               summary = results).
Proof.
  intros W summary.
  apply (description_prompt_gets_five_rows_at_most W (txt "SELECT 1") summary
           (JStr (txt "list all vessels"))).
  vm_compute. auto 6.
Defined.

(* ===================================================================== *)
(** ** The loader, [src/add_data.py] *)
(* ===================================================================== *)

Local Open Scope char_scope.

Module Literal.
Import AddData Load.

Lemma unquote_double_quotes s : sql_unquote (double_quotes s) = Some s.
Proof.
  induction s as [|c s IH]; [reflexivity|].
  unfold double_quotes in *. cbn [flat_map].
  destruct (Ascii.eqb c "'") eqn:E.
  - apply Ascii.eqb_eq in E. subst c. cbn. 
    cbn in IH. rewrite IH. reflexivity.
  - cbn [app sql_unquote]. rewrite E. rewrite IH. reflexivity.
Qed.

End Literal.

(** X13 (lines 39-48 of [src/add_data.py]): a string that is neither
    date-shaped nor timestamp-shaped is emitted between single quotes
    with every quote of its own doubled, so that the literal, read the
    way SQL reads one, gives the string back. *)
Theorem quoted_text_reads_back (s : text) :
  AddData.is_date s = false ->
  AddData.is_timestamp s = false ->
  exists body,
    AddData.format_value (AddData.VStr s) = Ok (txt "'" ++ body ++ txt "'") /\
    Load.sql_unquote body = Some s.
Proof.
  intros Hd Ht. exists (AddData.double_quotes s). split.
  - unfold AddData.format_value. rewrite Hd, Ht. reflexivity.
  - apply Literal.unquote_double_quotes.
Qed.

Lemma quoted_text_reads_back_witness :
  exists body,
    AddData.format_value (AddData.VStr (txt "O'Brien")) = Ok (txt "'" ++ body ++ txt "'") /\
    Load.sql_unquote body = Some (txt "O'Brien").
Proof.
  apply (quoted_text_reads_back (txt "O'Brien")); vm_compute; reflexivity.
Defined.

Module Stamp.
Import AddData Load.

Ltac next_char s :=
  destruct s as [|?c s]; cbn [run in_class chr_match skipn at_end];
  [try discriminate|].
Ltac digit_here :=
  match goal with
  | |- context [if is_digit ?c then _ else _] =>
      destruct (is_digit c) eqn:?; [|discriminate]
  end.
Ltac char_here :=
  match goal with
  | |- context [if Ascii.eqb ?p ?c then _ else _] =>
      let E := fresh "E" in
      destruct (Ascii.eqb p c) eqn:E; [apply Ascii.eqb_eq in E; subst c|discriminate]
  end.

Lemma date_shape s :
  is_date s = true ->
  exists y1 y2 y3 y4 m1 m2 d1 d2,
    forallb is_digit [y1; y2; y3; y4; m1; m2; d1; d2] = true /\
    (s = [y1; y2; y3; y4; "-"; m1; m2; "-"; d1; d2] \/
     s = [y1; y2; y3; y4; "-"; m1; m2; "-"; d1; d2; "010"]).
Proof.
  unfold is_date, match_at, date_pattern. cbn [times run].
  next_char s. digit_here. next_char s. digit_here.
  next_char s. digit_here. next_char s. digit_here.
  next_char s. char_here.
  next_char s. digit_here. next_char s. digit_here.
  next_char s. char_here.
  next_char s. digit_here. next_char s. digit_here.
  intros H. exists c, c0, c1, c2, c3, c4, c5, c6. split.
  - cbn [forallb]. repeat match goal with H : is_digit _ = true |- _ => rewrite H; clear H end.
    reflexivity.
  - destruct s as [|n [|? ?]]; cbn [at_end] in H.
    + left. reflexivity.
    + right. apply Ascii.eqb_eq in H. subst n. reflexivity.
    + discriminate.
Qed.

Lemma all8 y1 y2 y3 y4 m1 m2 d1 d2 :
  forallb is_digit [y1; y2; y3; y4; m1; m2; d1; d2] = true ->
  is_digit y1 = true /\ is_digit y2 = true /\ is_digit y3 = true /\
  is_digit y4 = true /\ is_digit m1 = true /\ is_digit m2 = true /\
  is_digit d1 = true /\ is_digit d2 = true.
Proof.
  cbn [forallb]. intros H.
  repeat (apply andb_true_iff in H; destruct H as [? H]).
  repeat split; assumption.
Qed.

Lemma date_run (R : Type) y1 y2 y3 y4 m1 m2 d1 d2 rest n g
      (k : nat -> text -> span -> option R) :
  forallb is_digit [y1; y2; y3; y4; m1; m2; d1; d2] = true ->
  run false date_pattern n
      ([y1; y2; y3; y4; "-"; m1; m2; "-"; d1; d2] ++ rest) g k
  = k (10 + n) rest g.
Proof.
  intros H. apply all8 in H.
  destruct H as (H1 & H2 & H3 & H4 & H5 & H6 & H7 & H8).
  unfold date_pattern. cbn [times run in_class chr_match app].
  rewrite H1, H2, H3, H4, H5, H6, H7, H8. cbn [Ascii.eqb Bool.eqb].
  reflexivity.
Qed.

Lemma date_accepted y1 y2 y3 y4 m1 m2 d1 d2 rest :
  forallb is_digit [y1; y2; y3; y4; m1; m2; d1; d2] = true ->
  is_date ([y1; y2; y3; y4; "-"; m1; m2; "-"; d1; d2] ++ rest) = at_end rest.
Proof.
  intros H. unfold is_date, match_at. rewrite (date_run _ _ _ _ _ _ _ _ _ _ _ _ _ H).
  reflexivity.
Qed.

End Stamp.

Module DateLiteral.
Import AddData Load.

Lemma date_test_shape (s : text) :
  is_date s = true <->
  exists y1 y2 y3 y4 m1 m2 d1 d2,
    forallb is_digit [y1; y2; y3; y4; m1; m2; d1; d2] = true /\
    (s = [y1; y2; y3; y4; "-"; m1; m2; "-"; d1; d2] \/
     s = [y1; y2; y3; y4; "-"; m1; m2; "-"; d1; d2; "010"]).
Proof.
  split.
  - apply Stamp.date_shape.
  - intros (y1 & y2 & y3 & y4 & m1 & m2 & d1 & d2 & H & [E | E]); subst s.
    + change ([y1; y2; y3; y4; "-"; m1; m2; "-"; d1; d2])
        with ([y1; y2; y3; y4; "-"; m1; m2; "-"; d1; d2] ++ []).
      rewrite (Stamp.date_accepted _ _ _ _ _ _ _ _ _ H). reflexivity.
    + change ([y1; y2; y3; y4; "-"; m1; m2; "-"; d1; d2; "010"])
        with ([y1; y2; y3; y4; "-"; m1; m2; "-"; d1; d2] ++ ["010"]).
      rewrite (Stamp.date_accepted _ _ _ _ _ _ _ _ _ H). reflexivity.
Qed.

(** The three forms of a literal end differently. *)
Lemma date_literal_only_for_dates (s : text) :
  format_value (VStr s) = Ok (txt "'" ++ s ++ txt "'::date") ->
  is_date s = true.
Proof.
  unfold format_value. destruct (is_date s); [reflexivity|].
  destruct (is_timestamp s); intros E; injection E as E; exfalso;
    apply (f_equal (@rev ascii)) in E; rewrite !rev_app_distr in E;
    cbn [rev app] in E; discriminate E.
Qed.

End DateLiteral.

(** X14 (lines 41-42 of [src/add_data.py]): the date test accepts
    exactly the texts made of four digits, a dash, two digits, a dash and
    two digits, with or without one newline after them; month and day
    are not range-checked.  These are also exactly the strings that
    [format_value] emits as a date literal, and the literal holds the
    string as it is, the newline included when there is one. *)
Theorem date_test_allows_a_final_newline (s : text) :
  let dated :=
    exists y1 y2 y3 y4 m1 m2 d1 d2,
      forallb is_digit [y1; y2; y3; y4; m1; m2; d1; d2] = true /\
      (s = [y1; y2; y3; y4; "-"; m1; m2; "-"; d1; d2] \/
       s = [y1; y2; y3; y4; "-"; m1; m2; "-"; d1; d2; "010"]) in
  (AddData.is_date s = true <-> dated) /\
  (AddData.format_value (AddData.VStr s) = Ok (txt "'" ++ s ++ txt "'::date")
   <-> dated).
Proof.
  cbv zeta. split; [apply DateLiteral.date_test_shape|].
  rewrite <- DateLiteral.date_test_shape. split.
  - apply DateLiteral.date_literal_only_for_dates.
  - intros H. unfold AddData.format_value. rewrite H. reflexivity.
Qed.

Module Cut.
Import AddData Load.

Lemma split_head_app sep x y :
  forallb (fun c => negb (Ascii.eqb c sep)) x = true ->
  split_head sep (x ++ y) = x ++ split_head sep y.
Proof.
  induction x as [|c x IH]; cbn [forallb app split_head]; intros H; [reflexivity|].
  apply andb_true_iff in H. destruct H as [Hc Hx].
  apply negb_true_iff in Hc. rewrite Hc, (IH Hx). reflexivity.
Qed.

Lemma split_head_whole sep x :
  forallb (fun c => negb (Ascii.eqb c sep)) x = true ->
  split_head sep x = x.
Proof.
  intros H. rewrite <- (app_nil_r x) at 1.
  rewrite (split_head_app _ _ _ H). cbn. apply app_nil_r.
Qed.

Lemma digit_is_no_mark c :
  is_digit c = true ->
  Ascii.eqb c "+" = false /\ Ascii.eqb c "Z" = false.
Proof. by_code c. Qed.

Lemma opt_total (R : Type) ic r n s g (k : nat -> text -> span -> option R) :
  (forall n s g, k n s g <> None) ->
  run ic (Opt r) n s g k <> None.
Proof.
  intros H. unfold Opt. cbn [run].
  destruct (run ic r n s g k); [discriminate | apply H].
Qed.

Lemma free_split a :
  free_of_marks a = true ->
  forallb (fun c => negb (Ascii.eqb c "+")) a = true /\
  forallb (fun c => negb (Ascii.eqb c "Z")) a = true.
Proof.
  unfold free_of_marks. induction a as [|c a IH]; cbn [forallb]; [auto|].
  intros H. apply andb_true_iff in H. destruct H as [Hc Ha].
  destruct (IH Ha) as [I1 I2]. rewrite I1, I2.
  apply negb_true_iff, orb_false_iff in Hc. destruct Hc as [-> ->]. auto.
Qed.

Lemma cut_marks a tail :
  free_of_marks a = true ->
  match tail with
  | [] => True
  | c :: _ => c = "+" \/ c = "Z"
  end ->
  split_head "Z" (split_head "+" (a ++ tail)) = a.
Proof.
  intros Ha Ht. destruct (free_split _ Ha) as [Hp Hz].
  rewrite (split_head_app _ _ _ Hp).
  destruct tail as [|c t].
  - cbn [split_head]. rewrite app_nil_r. apply split_head_whole, Hz.
  - destruct Ht as [-> | ->].
    + cbn [split_head Ascii.eqb Bool.eqb]. rewrite app_nil_r.
      apply split_head_whole, Hz.
    + cbn [split_head Ascii.eqb Bool.eqb].
      rewrite (split_head_app _ _ _ Hz). cbn [split_head Ascii.eqb Bool.eqb].
      apply app_nil_r.
Qed.

End Cut.

Section Timestamp.
Variables y1 y2 y3 y4 m1 m2 d1 d2 h1 h2 n1 n2 s1 s2 : ascii.

Let head : text :=
  [y1; y2; y3; y4; "-"; m1; m2; "-"; d1; d2; "T"; h1; h2; ":"; n1; n2; ":"; s1; s2].

Lemma stamp_test rest :
  forallb is_digit [y1; y2; y3; y4; m1; m2; d1; d2; h1; h2; n1; n2; s1; s2] = true ->
  AddData.is_date (head ++ rest) = false /\
  AddData.is_timestamp (head ++ rest) = true /\
  Load.free_of_marks head = true.
Proof.
  intros H.
  assert (H8 : forallb is_digit [y1; y2; y3; y4; m1; m2; d1; d2] = true).
  { cbn [forallb] in *. repeat (apply andb_true_iff in H; destruct H as [-> H]).
    reflexivity. }
  cbn [forallb] in H.
  repeat (apply andb_true_iff in H; destruct H as [? H]).
  split; [|split].
  - change (head ++ rest)
      with ([y1; y2; y3; y4; "-"; m1; m2; "-"; d1; d2]
              ++ "T" :: h1 :: h2 :: ":" :: n1 :: n2 :: ":" :: s1 :: s2 :: rest).
    rewrite (Stamp.date_accepted _ _ _ _ _ _ _ _ _ H8). reflexivity.
  - unfold AddData.is_timestamp, match_at, AddData.timestamp_pattern.
    change (head ++ rest)
      with ([y1; y2; y3; y4; "-"; m1; m2; "-"; d1; d2]
              ++ "T" :: h1 :: h2 :: ":" :: n1 :: n2 :: ":" :: s1 :: s2 :: rest).
    cbn [run].
    rewrite (Stamp.date_run _ _ _ _ _ _ _ _ _ _ _ _ _ H8).
    cbn [AddData.times run in_class chr_match Ascii.eqb Bool.eqb].
    repeat match goal with Hd : is_digit _ = true |- _ => rewrite Hd; clear Hd end.
    match goal with
    | |- match ?x with _ => _ end = true =>
        assert (N : x <> None); [|destruct x; [reflexivity | contradiction N; reflexivity]]
    end.
    apply Cut.opt_total. intros. apply Cut.opt_total. intros. discriminate.
  - unfold Load.free_of_marks, head. cbn [forallb].
    repeat match goal with
           | Hd : is_digit _ = true |- _ =>
               destruct (Cut.digit_is_no_mark _ Hd) as [-> ->]; clear Hd
           end.
    reflexivity.
Qed.

End Timestamp.

(** X15 (lines 43-46 of [src/add_data.py]): a string that begins with
    a timestamp (date, [T], time to the second) is emitted between
    quotes up to its first [+] or [Z], whatever follows the timestamp;
    nothing in it is escaped, a quote included. *)
Theorem timestamp_is_cut_and_not_escaped
        (y1 y2 y3 y4 m1 m2 d1 d2 h1 h2 n1 n2 s1 s2 : ascii) (a tail : text) :
  let head :=
    [y1; y2; y3; y4; "-"; m1; m2; "-"; d1; d2; "T"; h1; h2; ":"; n1; n2; ":"; s1; s2] in
  forallb is_digit [y1; y2; y3; y4; m1; m2; d1; d2; h1; h2; n1; n2; s1; s2] = true ->
  forallb (fun c => negb (Ascii.eqb c "+" || Ascii.eqb c "Z")) a = true ->
  match tail with
  | [] => True
  | c :: _ => c = "+" \/ c = "Z"
  end ->
  AddData.format_value (AddData.VStr (head ++ a ++ tail))
  = Ok (txt "'" ++ head ++ a ++ txt "'::timestamp").
Proof.
  intros head Hd Ha Ht.
  destruct (stamp_test y1 y2 y3 y4 m1 m2 d1 d2 h1 h2 n1 n2 s1 s2 (a ++ tail) Hd)
    as (Hdate & Hstamp & Hfree).
  fold head in Hdate, Hstamp, Hfree.
  assert (E : split_head "Z" (split_head "+" (head ++ a ++ tail)) = head ++ a).
  { rewrite app_assoc. apply Cut.cut_marks; [|exact Ht].
    unfold Load.free_of_marks in *. rewrite forallb_app, Hfree. exact Ha. }
  unfold AddData.format_value. rewrite Hdate, Hstamp. cbv zeta.
  rewrite E, <- app_assoc. reflexivity.
Qed.

Lemma timestamp_is_cut_and_not_escaped_witness :
  AddData.format_value (AddData.VStr (txt "2024-01-01T10:00:00' OR 1=1 --Z"))
  = Ok (txt "'2024-01-01T10:00:00' OR 1=1 --'::timestamp").
Proof.
  apply (timestamp_is_cut_and_not_escaped
           "2" "0" "2" "4" "0" "1" "0" "1" "1" "0" "0" "0" "0" "0"
           (txt "' OR 1=1 --") (txt "Z")).
  - reflexivity.
  - reflexivity.
  - right. reflexivity.
Defined.

Module Loading.
Import AddData Load.

Lemma format_supported v :
  supported v = true -> format_value v = Ok (literal v).
Proof.
  unfold literal. destruct v; cbn [supported]; try discriminate; intros _;
    try reflexivity.
  destruct (format_value (VStr s)) eqn:E; [reflexivity|].
  unfold format_value in E.
  destruct (is_date s); [discriminate|]. destruct (is_timestamp s); discriminate.
Qed.

Lemma format_values_supported vs :
  forallb supported vs = true -> format_values vs = Ok (map literal vs).
Proof.
  induction vs as [|v vs IH]; cbn [forallb format_values map]; [reflexivity|].
  intros H. apply andb_true_iff in H. destruct H as [Hv Hvs].
  rewrite (format_supported _ Hv), (IH Hvs). reflexivity.
Qed.

Lemma format_values_unsupported vs :
  forallb supported vs = false ->
  exists msg, format_values vs = Raise (mkExn ValueError msg).
Proof.
  induction vs as [|v vs IH]; cbn [forallb format_values]; [discriminate|].
  intros H. destruct (supported v) eqn:Hv.
  - rewrite (format_supported _ Hv). cbn [andb] in H.
    destruct (IH H) as [msg ->]. exists msg. reflexivity.
  - destruct v; try discriminate Hv; cbn [format_value]; eexists; reflexivity.
Qed.

Lemma insert_query_supported t r :
  row_supported r = true -> insert_query t (VDict r) = Ok (statement t r).
Proof.
  intros H. unfold insert_query, statement.
  rewrite (format_values_supported _ H). reflexivity.
Qed.

Lemma insert_query_unsupported t r :
  row_supported r = false ->
  exists msg, insert_query t (VDict r) = Raise (mkExn ValueError msg).
Proof.
  intros H. unfold insert_query.
  destruct (format_values_unsupported _ H) as [msg ->]. exists msg. reflexivity.
Qed.

Section Runs.
Variable conn : connection.

Lemma insert_rows_app t a b p :
  insert_rows conn t (a ++ b) p
  = match insert_rows conn t a p with
    | (l, Ok (p', true)) =>
        (l ++ fst (insert_rows conn t b p'), snd (insert_rows conn t b p'))
    | other => other
    end.
Proof.
  revert p. induction a as [|row a IH]; intros p; cbn [insert_rows app].
  - apply surjective_pairing.
  - destruct (insert_query t row) as [q|e]; [|reflexivity].
    destruct (execute conn p q); [reflexivity|].
    rewrite IH.
    destruct (insert_rows conn t a (p ++ [q])) as [l1 [[p1 [|]]|e]]; reflexivity.
Qed.

Lemma insert_rows_accepted t rows p :
  forallb row_supported rows = true ->
  accepts conn p (map (statement t) rows) ->
  insert_rows conn t (as_rows rows) p
  = (map Executed (map (statement t) rows),
     Ok (p ++ map (statement t) rows, true)).
Proof.
  revert p. induction rows as [|r rows IH]; intros p Hs Ha;
    cbn [as_rows map insert_rows].
  - rewrite app_nil_r. reflexivity.
  - cbn [forallb] in Hs. apply andb_true_iff in Hs. destruct Hs as [Hr Hs].
    rewrite (insert_query_supported _ _ Hr).
    assert (E0 : execute conn p (statement t r) = None).
    { rewrite <- (app_nil_r p). apply (Ha [] _ (map (statement t) rows)). reflexivity. }
    rewrite E0.
    fold (as_rows rows). rewrite (IH (p ++ [statement t r]) Hs).
    + rewrite <- app_assoc. reflexivity.
    + intros pre q post E. rewrite <- app_assoc. cbn [app].
      apply (Ha (statement t r :: pre) q post). cbn [map app]. rewrite E. reflexivity.
Qed.

Lemma insert_tables_app a b p :
  insert_tables conn (a ++ b) p
  = match insert_tables conn a p with
    | (l, Ok p') =>
        (l ++ fst (insert_tables conn b p'), snd (insert_tables conn b p'))
    | other => other
    end.
Proof.
  revert p. induction a as [|[t rows] a IH]; intros p; cbn [insert_tables app].
  - apply surjective_pairing.
  - destruct (iterate rows) as [items|e]; [|reflexivity].
    destruct (insert_rows conn t items p) as [l1 [[p1 fin]|e]]; [|reflexivity].
    rewrite IH.
    destruct (insert_tables conn a p1) as [l2 [p2|e]]; [|reflexivity].
    rewrite <- app_comm_cons, <- !app_assoc. reflexivity.
Qed.

Lemma insert_tables_accepted tables p :
  forallb (fun t => forallb row_supported (snd t)) tables = true ->
  accepts conn p (statements tables) ->
  insert_tables conn (map as_table tables) p
  = (accepted_log tables, Ok (p ++ statements tables)).
Proof.
  revert p. induction tables as [|[t rows] tables IH]; intros p Hs Ha;
    cbn [map insert_tables as_table fst snd iterate].
  - rewrite app_nil_r. reflexivity.
  - cbn [forallb snd] in Hs. apply andb_true_iff in Hs. destruct Hs as [Hr Hs].
    rewrite (insert_rows_accepted t rows p Hr).
    + rewrite (IH (p ++ map (statement t) rows) Hs).
      * unfold accepted_log, statements, success_line. cbn [flat_map fst snd].
        f_equal; [cbn [app]|]; rewrite <- app_assoc; reflexivity.
      * intros pre q post E. rewrite <- app_assoc.
        apply (Ha (map (statement t) rows ++ pre) q post).
        cbn [statements flat_map fst snd]. fold (statements tables).
        rewrite E, <- app_assoc. reflexivity.
    + intros pre q post E.
      apply (Ha pre q (post ++ statements tables)).
      cbn [statements flat_map fst snd]. fold (statements tables).
      rewrite E, <- app_assoc. reflexivity.
Qed.

Lemma executed_app a b : executed (a ++ b) = executed a ++ executed b.
Proof. apply flat_map_app. Qed.

Lemma executed_sent qs : executed (map Executed qs) = qs.
Proof.
  induction qs as [|q qs IH]; [reflexivity|].
  cbn [map]. unfold executed in *. cbn [flat_map app]. rewrite IH. reflexivity.
Qed.

Lemma executed_printed line : executed [Printed line] = [].
Proof. reflexivity. Qed.

Lemma executed_accepted tables : executed (accepted_log tables) = statements tables.
Proof.
  induction tables as [|[t rows] tables IH]; [reflexivity|].
  cbn [accepted_log statements flat_map fst snd].
  fold (accepted_log tables). fold (statements tables).
  rewrite app_comm_cons, !executed_app, IH.
  change (Printed (txt "Inserting data into table: " ++ t)
            :: map Executed (map (statement t) rows))
    with ([Printed (txt "Inserting data into table: " ++ t)]
            ++ map Executed (map (statement t) rows)).
  unfold success_line.
  rewrite !executed_app, executed_sent, !executed_printed, app_nil_r. reflexivity.
Qed.

Lemma success_in_accepted tables t :
  In t (map fst tables) -> In (success_line t) (accepted_log tables).
Proof.
  induction tables as [|[t0 rows] tables IH]; cbn [map In fst]; [contradiction|].
  intros [-> | H]; cbn [accepted_log flat_map fst snd]; fold (accepted_log tables).
  - right. apply in_or_app. left. apply in_or_app. right. left. reflexivity.
  - right. apply in_or_app. right. apply IH, H.
Qed.

Lemma accepts_left p a b : accepts conn p (a ++ b) -> accepts conn p a.
Proof.
  intros H pre q post E. apply (H pre q (post ++ b)).
  rewrite E, <- app_assoc. reflexivity.
Qed.

Lemma accepts_right p a b : accepts conn p (a ++ b) -> accepts conn (p ++ a) b.
Proof.
  intros H pre q post E. rewrite <- app_assoc. apply (H (a ++ pre) q post).
  rewrite E, <- app_assoc. reflexivity.
Qed.

(** Tables that are taken whole, then a table whose rows are taken up
    to some row. *)
Lemma insert_tables_upto before t rows1 rest tail :
  forallb (fun t => forallb row_supported (snd t)) before = true ->
  forallb row_supported rows1 = true ->
  accepts conn [] (statements before ++ map (statement t) rows1) ->
  let p := statements before ++ map (statement t) rows1 in
  insert_tables conn
    (map as_table before ++ (t, VList (as_rows rows1 ++ rest)) :: tail) []
  = match insert_rows conn t rest p with
    | (l, Raise e) =>
        (accepted_log before
         ++ Printed (txt "Inserting data into table: " ++ t)
         :: map Executed (map (statement t) rows1) ++ l,
         Raise e)
    | (l, Ok (p', finished)) =>
        (accepted_log before
         ++ Printed (txt "Inserting data into table: " ++ t)
         :: (map Executed (map (statement t) rows1) ++ l)
         ++ (if finished : bool then [success_line t] else [])
         ++ fst (insert_tables conn tail p'),
         snd (insert_tables conn tail p'))
    end.
Proof.
  intros Hb H1 Ha p.
  rewrite insert_tables_app.
  rewrite (insert_tables_accepted before [] Hb (accepts_left _ _ _ Ha)).
  cbn [app insert_tables iterate fst snd].
  rewrite insert_rows_app.
  rewrite (insert_rows_accepted t rows1 (statements before) H1
             (accepts_right _ _ _ Ha)).
  fold p. destruct (insert_rows conn t rest p) as [l [[p' fin]|e]]; cbn [fst snd].
  - destruct (insert_tables conn tail p') as [l' r']. reflexivity.
  - reflexivity.
Qed.

End Runs.
End Loading.


(** X16 (lines 55-77 of [src/add_data.py]): when every value is of a
    supported type, the connection takes every statement and the commit
    succeeds, the script sends one INSERT per row, in the order of the
    file, and commits exactly those. *)
Theorem accepted_load_commits_every_row
        (conn : AddData.connection) (tables : list Load.table) :
  forallb (fun t => forallb Load.row_supported (snd t)) tables = true ->
  Load.accepts conn [] (Load.statements tables) ->
  AddData.commit conn (Load.statements tables) = None ->
  let r := AddData.script conn (AddData.VDict (map Load.as_table tables)) in
  AddData.committed r = Load.statements tables /\
  Load.executed (AddData.log r) = Load.statements tables /\
  AddData.crashed r = None.
Proof.
  intros Hs Ha Hc r. subst r. unfold AddData.script.
  rewrite (Loading.insert_tables_accepted conn tables [] Hs Ha).
  cbn [app]. rewrite Hc. cbn [AddData.committed AddData.log AddData.crashed].
  repeat split.
  rewrite Loading.executed_app, Loading.executed_accepted. cbn. apply app_nil_r.
Qed.

Lemma accepted_load_commits_every_row_witness :
  let conn := {| AddData.execute := fun _ _ => None;
                 AddData.commit := fun _ => None |} in
  let tables :=
    [(txt "assets", [[(txt "id", AddData.VStr (txt "a1"));
                      (txt "currentLoad", AddData.VInt 5)];
                     [(txt "id", AddData.VStr (txt "a2"));
                      (txt "currentLoad", AddData.VNone)]])] in
  let r := AddData.script conn (AddData.VDict (map Load.as_table tables)) in
  AddData.committed r
  = [txt "INSERT INTO assets (id, currentLoad) VALUES ('a1', 5)";
     txt "INSERT INTO assets (id, currentLoad) VALUES ('a2', NULL)"] /\
  Load.executed (AddData.log r) = Load.statements tables /\
  AddData.crashed r = None.
Proof.
  intros conn tables.
  apply (accepted_load_commits_every_row conn tables).
  - reflexivity.
  - intros pre q post _. reflexivity.
  - reflexivity.
Defined.

(** X17 (lines 55-77 of [src/add_data.py]): when the connection
    rejects a row, the rollback of line 66 discards every insert sent
    before it, those of the earlier tables included, although their
    success line was printed; the rest of that table is skipped, the
    later tables are loaded, and only their rows are committed. *)
Theorem rejected_row_loses_earlier_inserts
        (conn : AddData.connection) (before after : list Load.table)
        (t : text) (rows1 : list Load.row) (bad : Load.row)
        (rows2 : list AddData.value) (e : text) :
  forallb (fun t => forallb Load.row_supported (snd t)) before = true ->
  forallb Load.row_supported rows1 = true ->
  Load.row_supported bad = true ->
  forallb (fun t => forallb Load.row_supported (snd t)) after = true ->
  let sent := Load.statements before ++ map (Load.statement t) rows1 in
  Load.accepts conn [] sent ->
  AddData.execute conn sent (Load.statement t bad) = Some e ->
  Load.accepts conn [] (Load.statements after) ->
  AddData.commit conn (Load.statements after) = None ->
  let r :=
    AddData.script conn
      (AddData.VDict
         (map Load.as_table before
          ++ (t, AddData.VList (Load.as_rows rows1 ++ AddData.VDict bad :: rows2))
          :: map Load.as_table after)) in
  AddData.committed r = Load.statements after /\
  Load.executed (AddData.log r) = sent ++ Load.statements after /\
  (forall t0, In t0 (map fst before) -> In (Load.success_line t0) (AddData.log r)) /\
  AddData.crashed r = None.
Proof.
  intros Hb H1 Hbad Hafter sent Ha He Ha' Hc r. subst r. unfold AddData.script.
  rewrite (Loading.insert_tables_upto conn before t rows1 _ _ Hb H1 Ha).
  fold sent. cbn [AddData.insert_rows].
  rewrite (Loading.insert_query_supported _ _ Hbad), He.
  rewrite (Loading.insert_tables_accepted conn after [] Hafter Ha').
  cbn [fst snd app]. rewrite Hc.
  cbn [AddData.committed AddData.log AddData.crashed].
  split; [reflexivity|]. split; [|split; [|reflexivity]].
  - rewrite !Loading.executed_app, Loading.executed_accepted.
    change (?x :: ?l ++ ?m) with ((x :: l) ++ m).
    rewrite !Loading.executed_app.
    rewrite app_comm_cons, !Loading.executed_app.
    change (Load.executed (AddData.Printed (txt "Inserting data into table: " ++ t)
                             :: map AddData.Executed (map (Load.statement t) rows1)))
      with (Load.executed (map AddData.Executed (map (Load.statement t) rows1))).
    rewrite Loading.executed_sent, Loading.executed_accepted.
    cbn. rewrite !app_nil_r. unfold sent. rewrite <- app_assoc. reflexivity.
  - intros t0 Hin. apply in_or_app. left. apply in_or_app. left.
    apply Loading.success_in_accepted, Hin.
Qed.

Lemma rejected_row_loses_earlier_inserts_witness :
  let conn :=
    {| AddData.execute := fun _ q =>
         if eqb_text q (txt "INSERT INTO b (id) VALUES (2)")
         then Some (txt "duplicate key") else None;
       AddData.commit := fun _ => None |} in
  let r :=
    AddData.script conn
      (AddData.VDict
         (map Load.as_table [(txt "a", [[(txt "id", AddData.VInt 1)]])]
          ++ (txt "b",
              AddData.VList
                (Load.as_rows []
                 ++ AddData.VDict [(txt "id", AddData.VInt 2)]
                 :: [AddData.VDict [(txt "id", AddData.VInt 3)]]))
          :: map Load.as_table [(txt "c", [[(txt "id", AddData.VInt 4)]])])) in
  AddData.committed r = [txt "INSERT INTO c (id) VALUES (4)"] /\
  Load.executed (AddData.log r)
  = [txt "INSERT INTO a (id) VALUES (1)"; txt "INSERT INTO c (id) VALUES (4)"] /\
  (forall t0, In t0 [txt "a"] -> In (Load.success_line t0) (AddData.log r)) /\
  AddData.crashed r = None.
Proof.
  intros conn.
  apply (rejected_row_loses_earlier_inserts conn
           [(txt "a", [[(txt "id", AddData.VInt 1)]])]
           [(txt "c", [[(txt "id", AddData.VInt 4)]])]
           (txt "b") [] [(txt "id", AddData.VInt 2)]
           [AddData.VDict [(txt "id", AddData.VInt 3)]] (txt "duplicate key")).
  - reflexivity.
  - reflexivity.
  - reflexivity.
  - reflexivity.
  - intros pre q post E. destruct pre as [|x pre].
    + injection E as <- _. reflexivity.
    + destruct pre; discriminate E.
  - reflexivity.
  - intros pre q post E. destruct pre as [|x pre].
    + injection E as <- _. reflexivity.
    + destruct pre; discriminate E.
  - reflexivity.
Defined.

(** X18 (lines 36-60 of [src/add_data.py]): a row holding a list or
    an object ends the script with a [ValueError] that nothing catches:
    the inserts sent until then are never committed, and the rest of
    the file is not read. *)
Theorem unsupported_value_aborts_the_load
        (conn : AddData.connection) (before : list Load.table)
        (t : text) (rows1 : list Load.row) (bad : Load.row)
        (rows2 : list AddData.value) (rest : list (text * AddData.value)) :
  forallb (fun t => forallb Load.row_supported (snd t)) before = true ->
  forallb Load.row_supported rows1 = true ->
  Load.row_supported bad = false ->
  let sent := Load.statements before ++ map (Load.statement t) rows1 in
  Load.accepts conn [] sent ->
  let r :=
    AddData.script conn
      (AddData.VDict
         (map Load.as_table before
          ++ (t, AddData.VList (Load.as_rows rows1 ++ AddData.VDict bad :: rows2))
          :: rest)) in
  (exists msg, AddData.crashed r = Some (mkExn ValueError msg)) /\
  AddData.committed r = [] /\
  Load.executed (AddData.log r) = sent.
Proof.
  intros Hb H1 Hbad sent Ha r. subst r. unfold AddData.script.
  rewrite (Loading.insert_tables_upto conn before t rows1 _ _ Hb H1 Ha).
  fold sent. cbn [AddData.insert_rows].
  destruct (Loading.insert_query_unsupported t bad Hbad) as [msg ->].
  cbn [AddData.committed AddData.log AddData.crashed].
  split; [exists msg; reflexivity|]. split; [reflexivity|].
  rewrite app_nil_r, Loading.executed_app, Loading.executed_accepted.
  change (Load.executed (AddData.Printed (txt "Inserting data into table: " ++ t)
                           :: map AddData.Executed (map (Load.statement t) rows1)))
    with (Load.executed (map AddData.Executed (map (Load.statement t) rows1))).
  rewrite Loading.executed_sent. reflexivity.
Qed.

Lemma unsupported_value_aborts_the_load_witness :
  let conn := {| AddData.execute := fun _ _ => None;
                 AddData.commit := fun _ => None |} in
  let r :=
    AddData.script conn
      (AddData.VDict
         (map Load.as_table [(txt "a", [[(txt "id", AddData.VInt 1)]])]
          ++ (txt "b",
              AddData.VList
                (Load.as_rows [[(txt "id", AddData.VInt 2)]]
                 ++ AddData.VDict [(txt "tags", AddData.VList [])]
                 :: []))
          :: [])) in
  (exists msg, AddData.crashed r = Some (mkExn ValueError msg)) /\
  AddData.committed r = [] /\
  Load.executed (AddData.log r)
  = [txt "INSERT INTO a (id) VALUES (1)"; txt "INSERT INTO b (id) VALUES (2)"].
Proof.
  intros conn.
  apply (unsupported_value_aborts_the_load conn
           [(txt "a", [[(txt "id", AddData.VInt 1)]])]
           (txt "b") [[(txt "id", AddData.VInt 2)]]
           [(txt "tags", AddData.VList [])] [] []).
  - reflexivity.
  - reflexivity.
  - reflexivity.
  - intros pre q post _. reflexivity.
Defined.

(* ===================================================================== *)
(** ** The schema script, [src/create_db.py] *)
(* ===================================================================== *)

Module Setup.
Import CreateDb.

Section Loop.
Variable execute : list text -> text -> option text.
Variables ok err : text.
Variable i : nat.

(** A loop over queries that all have a word at index [i] sends every
    one of them and prints one line for each. *)
Lemma run_queries_all queries names applied :
  map (word i) queries = map Some names ->
  exists l applied',
    run_queries execute ok err i queries applied = (l, Some applied') /\
    attempted l = queries /\
    Forall2 (reports ok err) names (printed l) /\
    (forall q, In q applied' -> In q applied \/ In q queries).
Proof.
  revert names applied. induction queries as [|q queries IH]; intros names applied E.
  - destruct names; [|discriminate E].
    exists [], applied. repeat split; [constructor | auto].
  - destruct names as [|w names]; [discriminate E|].
    cbn [map] in E. injection E as Ew E.
    cbn [run_queries]. rewrite Ew.
    destruct (execute applied q) as [e|].
    + destruct (IH names applied E) as (l & a' & Hr & Ha & Hp & Hin).
      rewrite Hr. exists (Rejected q :: Printed (err ++ w ++ txt " - " ++ e) :: l), a'.
      split; [reflexivity|]. split; [|split].
      * unfold attempted in *. cbn [flat_map app]. rewrite Ha. reflexivity.
      * unfold printed in *. cbn [flat_map app]. constructor; [|exact Hp].
        right. exists e. reflexivity.
      * intros x Hx. destruct (Hin x Hx); [left|right; right]; assumption.
    + destruct (IH names (applied ++ [q]) E) as (l & a' & Hr & Ha & Hp & Hin).
      rewrite Hr. exists (Executed q :: Printed (ok ++ w) :: l), a'.
      split; [reflexivity|]. split; [|split].
      * unfold attempted in *. cbn [flat_map app]. rewrite Ha. reflexivity.
      * unfold printed in *. cbn [flat_map app]. constructor; [|exact Hp].
        left. reflexivity.
      * intros x Hx. destruct (Hin x Hx) as [H|H]; [|right; right; exact H].
        apply in_app_or in H. destruct H as [H|[<-|[]]]; [left; exact H|].
        right. left. reflexivity.
Qed.

End Loop.

Lemma attempted_app a b : attempted (a ++ b) = attempted a ++ attempted b.
Proof. apply flat_map_app. Qed.

Lemma printed_app a b : printed (a ++ b) = printed a ++ printed b.
Proof. apply flat_map_app. Qed.

Lemma drop_words :
  map (word 3) drop_table_queries = map Some (repeat (txt "EXISTS") 12).
Proof. vm_compute. reflexivity. Qed.

Lemma create_words :
  map (word 2) create_table_queries
  = map Some (map txt ["assets"; "financials"; "cradles"; "vessels"; "inventory";
                       "rails"; "trolleys"; "lifts"; "assets_maintenance";
                       "work_orders"; "wheels_load"; "wheels_temperature"]%string).
Proof. vm_compute. reflexivity. Qed.

End Setup.

(** X19 (lines 46-51 and 272-277 of [src/create_db.py]): whatever the
    connection answers, the script sends its twelve DROP statements and
    then its twelve CREATE statements, each once and in the order of the
    two lists; a statement that fails stops nothing, no message raises,
    and nothing but these statements is ever in effect. *)
Theorem every_statement_is_sent (execute : list text -> text -> option text) :
  exists l applied,
    CreateDb.script execute = (l, Some applied) /\
    CreateDb.attempted l
    = CreateDb.drop_table_queries ++ CreateDb.create_table_queries /\
    (forall q, In q applied ->
               In q (CreateDb.drop_table_queries ++ CreateDb.create_table_queries)).
Proof.
  unfold CreateDb.script.
  destruct (Setup.run_queries_all execute (txt "Table dropped successfully: ")
              (txt "Error dropping table: ") 3 _ _ [] Setup.drop_words)
    as (l1 & a1 & -> & H1 & _ & I1).
  destruct (Setup.run_queries_all execute (txt "Table created successfully: ")
              (txt "Error creating table: ") 2 _ _ a1 Setup.create_words)
    as (l2 & a2 & -> & H2 & _ & I2).
  exists (l1 ++ l2), a2. split; [reflexivity|]. split.
  - rewrite Setup.attempted_app, H1, H2. reflexivity.
  - intros q Hq. apply in_or_app. destruct (I2 q Hq) as [H|H]; [|right; exact H].
    destruct (I1 q H) as [[]|H']. left. exact H'.
Qed.

(** X20 (lines 49, 51, 275 and 277 of [src/create_db.py]): the twelve
    lines of the drop loop name the fourth word of the statement, which
    is [EXISTS] for every one of them, never the table; the twelve lines
    of the create loop name the third word, which is the table. *)
Theorem drop_messages_name_no_table (execute : list text -> text -> option text) :
  exists drops creates,
    CreateDb.printed (fst (CreateDb.script execute)) = drops ++ creates /\
    List.length drops = 12 /\
    Forall (CreateDb.reports (txt "Table dropped successfully: ")
                             (txt "Error dropping table: ") (txt "EXISTS")) drops /\
    Forall2 (CreateDb.reports (txt "Table created successfully: ")
                              (txt "Error creating table: "))
            (map txt ["assets"; "financials"; "cradles"; "vessels"; "inventory";
                      "rails"; "trolleys"; "lifts"; "assets_maintenance";
                      "work_orders"; "wheels_load"; "wheels_temperature"]%string)
            creates.
Proof.
  unfold CreateDb.script.
  destruct (Setup.run_queries_all execute (txt "Table dropped successfully: ")
              (txt "Error dropping table: ") 3 _ _ [] Setup.drop_words)
    as (l1 & a1 & -> & _ & P1 & _).
  destruct (Setup.run_queries_all execute (txt "Table created successfully: ")
              (txt "Error creating table: ") 2 _ _ a1 Setup.create_words)
    as (l2 & a2 & -> & _ & P2 & _).
  exists (CreateDb.printed l1), (CreateDb.printed l2). cbn [fst].
  split; [apply Setup.printed_app|]. split; [|split].
  - rewrite <- (Forall2_length P1). reflexivity.
  - clear -P1. remember (repeat (txt "EXISTS") 12) as names eqn:E.
    assert (N : Forall (fun n => n = txt "EXISTS") names).
    { subst names. apply Forall_forall. intros x Hx. apply repeat_spec in Hx. exact Hx. }
    clear E. induction P1 as [|n line names lines Hr _ IH]; constructor.
    + inversion N; subst. assumption.
    + apply IH. inversion N; assumption.
  - exact P2.
Qed.
